(** * snowrail-x402-facilitator: the TRON verify/settle engine

    A shallow embedding of [src/services/tron-x402-service.ts] and
    [src/services/tron-settlement-service.ts], of the wallet service they
    use ([src/services/tron-wallet-service.ts]), of the routes
    [POST /tron/verify] and [POST /tron/settle] that call them, and of the
    tables of [GET /supported].

    Conventions of the embedding.
    - A JavaScript string is a Rocq [string]: the sequence of bytes of its
      UTF-8 encoding.  [Buffer.from(s)] and [buf.toString('utf-8')] are
      therefore the identity on well-formed text.  Bytes that are no UTF-8
      text are kept as they are, where [toString('utf-8')] puts U+FFFD in
      their place: the contents of a string literal may differ there,
      what [JSON.parse] accepts does not.  [Buffer.from(s, 'base64')]
      reads the code units of [s] ([code_units]).  [toLowerCase] is
      modelled on the ASCII letters.
    - A value obtained from [JSON.parse] is a [JsValue]; the TypeScript cast
      [as TronPaymentToken] checks nothing, so the engine is modelled on
      [JsValue] with the dynamic semantics of property access, truthiness,
      [BigInt], [parseInt] and template literals.
    - A call that may throw returns a [Completion]: [Normal v] or [Throw e].
    - What the engine asks of the JavaScript number type ([JsNumbers]), of
      TronWeb ([TronWeb]) and of the clock ([Date_now]) is a parameter; the
      chain is an oracle answering each call from the history of calls
      ([Chain]).
    - A request of the two services has the type TypeScript declares for
      it ([VerifyRequest]).  The body a route receives is a [JsValue]; the
      route hands it to the service as a typed request when it has that
      type, and what the service does with any other body is a parameter
      of the route.

    Part I holds the definitions, Part II the lemmas and theorems. *)

From Stdlib Require Import String Ascii List ZArith Bool Lia DecimalString DecimalZ.
Import ListNotations.
Open Scope string_scope.
Open Scope bool_scope.

(* ================================================================== *)
(** * Part I. Definitions                                              *)
(* ================================================================== *)

(** ** Node.js [Buffer] Base64 codec

    [Buffer.from(s, 'base64')] never throws.  It reads the string one
    UTF-16 code unit at a time and looks at the low byte of the unit only:
    a character above U+00FF is read as the character of its low byte
    (U+0141 as [A]).  What is then outside the alphabet (whitespace
    included) is skipped, the URL-safe characters [-] and [_] are
    accepted, decoding stops at the first [=], and a final group of two or
    three characters yields one or two bytes. *)

Inductive sextet : Set := Sextet (b5 b4 b3 b2 b1 b0 : bool).

Definition sextet_value (x : sextet) : nat :=
  let 'Sextet b5 b4 b3 b2 b1 b0 := x in
  nat_of_ascii (Ascii b0 b1 b2 b3 b4 b5 false false).

Definition sextet_of_value (n : nat) : sextet :=
  let 'Ascii b0 b1 b2 b3 b4 b5 _ _ := ascii_of_nat n in
  Sextet b5 b4 b3 b2 b1 b0.

Definition base64_alphabet : string :=
  "ABCDEFGHIJKLMNOPQRSTUVWXYZabcdefghijklmnopqrstuvwxyz0123456789+/".

Definition base64_pad : ascii := "="%char.

Definition base64_char (x : sextet) : ascii :=
  match String.get (sextet_value x) base64_alphabet with
  | Some c => c
  | None => base64_pad
  end.

Definition unbase64 (c : ascii) : option sextet :=
  let n := nat_of_ascii c in
  if ((65 <=? n) && (n <=? 90))%nat then Some (sextet_of_value (n - 65))
  else if ((97 <=? n) && (n <=? 122))%nat then Some (sextet_of_value (n - 71))
  else if ((48 <=? n) && (n <=? 57))%nat then Some (sextet_of_value (n + 4))
  else if ((n =? 43) || (n =? 45))%nat then Some (sextet_of_value 62)
  else if ((n =? 47) || (n =? 95))%nat then Some (sextet_of_value 63)
  else None.

(** The four sextets of three bytes, most significant bit first. *)
Definition sextet_1 (a : ascii) : sextet :=
  let 'Ascii _ _ a2 a3 a4 a5 a6 a7 := a in Sextet a7 a6 a5 a4 a3 a2.

Definition sextet_2 (a b : ascii) : sextet :=
  let 'Ascii a0 a1 _ _ _ _ _ _ := a in
  let 'Ascii _ _ _ _ b4 b5 b6 b7 := b in Sextet a1 a0 b7 b6 b5 b4.

Definition sextet_3 (b c : ascii) : sextet :=
  let 'Ascii b0 b1 b2 b3 _ _ _ _ := b in
  let 'Ascii _ _ _ _ _ _ c6 c7 := c in Sextet b3 b2 b1 b0 c7 c6.

Definition sextet_4 (c : ascii) : sextet :=
  let 'Ascii c0 c1 c2 c3 c4 c5 _ _ := c in Sextet c5 c4 c3 c2 c1 c0.

(** The three bytes of four sextets. *)
Definition byte_1 (p q : sextet) : ascii :=
  let 'Sextet p5 p4 p3 p2 p1 p0 := p in
  let 'Sextet q5 q4 _ _ _ _ := q in Ascii q4 q5 p0 p1 p2 p3 p4 p5.

Definition byte_2 (q r : sextet) : ascii :=
  let 'Sextet _ _ q3 q2 q1 q0 := q in
  let 'Sextet r5 r4 r3 r2 _ _ := r in Ascii r2 r3 r4 r5 q0 q1 q2 q3.

Definition byte_3 (r s : sextet) : ascii :=
  let 'Sextet _ _ _ _ r1 r0 := r in
  let 'Sextet s5 s4 s3 s2 s1 s0 := s in Ascii s0 s1 s2 s3 s4 s5 r0 r1.

(** [buf.toString('base64')]: standard alphabet, padded with [=]. *)
Fixpoint base64_encode (bytes : string) : string :=
  match bytes with
  | EmptyString => EmptyString
  | String a EmptyString =>
      String (base64_char (sextet_1 a))
        (String (base64_char (sextet_2 a zero))
           (String base64_pad (String base64_pad EmptyString)))
  | String a (String b EmptyString) =>
      String (base64_char (sextet_1 a))
        (String (base64_char (sextet_2 a b))
           (String (base64_char (sextet_3 b zero))
              (String base64_pad EmptyString)))
  | String a (String b (String c rest)) =>
      String (base64_char (sextet_1 a))
        (String (base64_char (sextet_2 a b))
           (String (base64_char (sextet_3 b c))
              (String (base64_char (sextet_4 c)) (base64_encode rest))))
  end.

(** The legal characters of the bytes read up to the first [=]. *)
Fixpoint base64_sextets (s : string) : list sextet :=
  match s with
  | EmptyString => []
  | String c rest =>
      if Ascii.eqb c base64_pad then []
      else match unbase64 c with
           | Some x => x :: base64_sextets rest
           | None => base64_sextets rest
           end
  end.

Fixpoint bytes_of_sextets (l : list sextet) : string :=
  match l with
  | p :: q :: r :: s :: rest =>
      String (byte_1 p q) (String (byte_2 q r) (String (byte_3 r s) (bytes_of_sextets rest)))
  | [p; q; r] => String (byte_1 p q) (String (byte_2 q r) EmptyString)
  | [p; q] => String (byte_1 p q) EmptyString
  | _ => EmptyString
  end.

(** The UTF-16 code units of a string, read off its UTF-8 bytes: one unit
    for a sequence of one, two or three bytes (a lone surrogate has
    three), a surrogate pair for a sequence of four.  A sequence that the
    end of the string cuts short belongs to no string and yields
    nothing. *)
Fixpoint code_units (s : string) : list N :=
  match s with
  | EmptyString => []
  | String a rest =>
      let a := N_of_ascii a in
      if (a <? 128)%N then a :: code_units rest
      else
        match rest with
        | EmptyString => []
        | String b rest =>
            let b := (N_of_ascii b mod 64)%N in
            if (a <? 224)%N then (a mod 32 * 64 + b)%N :: code_units rest
            else
              match rest with
              | EmptyString => []
              | String c rest =>
                  let c := (N_of_ascii c mod 64)%N in
                  if (a <? 240)%N
                  then (a mod 16 * 4096 + b * 64 + c)%N :: code_units rest
                  else
                    match rest with
                    | EmptyString => []
                    | String d rest =>
                        let d := (N_of_ascii d mod 64)%N in
                        let cp := (a mod 8 * 262144 + b * 4096 + c * 64 + d - 65536)%N in
                        (55296 + cp / 1024)%N :: (56320 + cp mod 1024)%N :: code_units rest
                    end
              end
        end
  end.

(** What the decoder reads of a string: the low byte of each code unit. *)
Definition low_bytes (s : string) : string :=
  string_of_list_ascii (map (fun unit => ascii_of_N (unit mod 256)) (code_units s)).

(** A string of characters up to U+007F. *)
Fixpoint ascii_text (s : string) : bool :=
  match s with
  | EmptyString => true
  | String c rest => (N_of_ascii c <? 128)%N && ascii_text rest
  end.

(** [Buffer.from(s, 'base64')]. *)
Definition base64_decode (s : string) : string :=
  bytes_of_sextets (base64_sextets (low_bytes s)).

(** ** JavaScript values and completions *)

(** The values the engine handles: what [JSON.parse] returns, and
    [undefined] (the value of an absent property).  A number keeps its
    literal: the double it denotes is interpreted by the [Runtime]. *)
#[warnings="-register-all"]
Inductive JsValue : Type :=
| VUndefined
| VNull
| VBool (b : bool)
| VNum (literal : string)
| VStr (s : string)
| VArr (elements : list JsValue)
| VObj (fields : list (string * JsValue)).

Inductive ErrorName : Set := EError | ETypeError | ESyntaxError | ERangeError.

(** What a [throw] carries: an instance of [Error] with its message, or
    any other value (TronWeb rejects with plain strings in places). *)
Inductive JsThrown : Type :=
| ErrorObject (name : ErrorName) (message : string)
| NonError (v : JsValue).

Inductive Completion (A : Type) : Type :=
| Normal (a : A)
| Throw (e : JsThrown).

Arguments Normal {A} a.
Arguments Throw {A} e.

Definition bind {A B : Type} (c : Completion A) (f : A -> Completion B) : Completion B :=
  match c with
  | Normal a => f a
  | Throw e => Throw e
  end.

(** [try { c } catch (error) { handler error }]. *)
Definition try_catch {A : Type} (c : Completion A) (handler : JsThrown -> Completion A)
  : Completion A :=
  match c with
  | Normal a => Normal a
  | Throw e => handler e
  end.

Declare Scope completion_scope.
Delimit Scope completion_scope with completion.
Notation "x <- c ;; k" := (bind c (fun x => k))
  (at level 61, c at next level, right associativity) : completion_scope.

Definition throws {A : Type} (c : Completion A) : bool :=
  match c with
  | Normal _ => false
  | Throw _ => true
  end.

(** ** [JSON.parse]

    A lexer over the characters and a pushdown automaton over the tokens,
    both by structural recursion on their input. *)

Inductive token : Type :=
| TLBrace | TRBrace | TLBracket | TRBracket | TColon | TComma
| TString (s : string)
| TNumber (literal : string)
| TTrue | TFalse | TNull.

Definition dquote : ascii := "034"%char.
Definition backslash : ascii := "092"%char.

(** Generalised UTF-8 of a code point (a lone surrogate gets three bytes). *)
Definition utf8_encode (cp : N) : string :=
  (if cp <? 128 then String (ascii_of_N cp) EmptyString
   else if cp <? 2048 then
     String (ascii_of_N (192 + cp / 64)) (String (ascii_of_N (128 + cp mod 64)) EmptyString)
   else if cp <? 65536 then
     String (ascii_of_N (224 + cp / 4096))
       (String (ascii_of_N (128 + (cp / 64) mod 64))
          (String (ascii_of_N (128 + cp mod 64)) EmptyString))
   else
     String (ascii_of_N (240 + cp / 262144))
       (String (ascii_of_N (128 + (cp / 4096) mod 64))
          (String (ascii_of_N (128 + (cp / 64) mod 64))
             (String (ascii_of_N (128 + cp mod 64)) EmptyString))))%N.

Definition is_high_surrogate (cu : N) : bool := ((55296 <=? cu) && (cu <=? 56319))%N.
Definition is_low_surrogate (cu : N) : bool := ((56320 <=? cu) && (cu <=? 57343))%N.

Definition surrogate_pair (hi lo : N) : N :=
  (65536 + (hi - 55296) * 1024 + (lo - 56320))%N.

Definition hex_digit (c : ascii) : option N :=
  let n := N_of_ascii c in
  (if (48 <=? n) && (n <=? 57) then Some (n - 48)
   else if (65 <=? n) && (n <=? 70) then Some (n - 55)
   else if (97 <=? n) && (n <=? 102) then Some (n - 87)
   else None)%N.

Definition is_digit (c : ascii) : bool :=
  let n := N_of_ascii c in ((48 <=? n) && (n <=? 57))%N.

(** The characters a JSON number is made of. *)
Definition is_number_char (c : ascii) : bool :=
  is_digit c ||
  match c with
  | "-"%char | "+"%char | "."%char | "e"%char | "E"%char => true
  | _ => false
  end.

(** The JSON number grammar as an automaton: an optional minus sign; a
    zero, or a non-zero digit and further digits; optionally a point and
    one or more digits; optionally an exponent mark, a sign and one or more
    digits. *)
Inductive number_state : Set :=
| NStart | NMinus | NZero | NInt | NDot | NFrac | NExp | NExpSign | NExpDigits | NReject.

Definition number_step (st : number_state) (c : ascii) : number_state :=
  match st with
  | NStart =>
      if Ascii.eqb c "-" then NMinus
      else if Ascii.eqb c "0" then NZero
      else if is_digit c then NInt else NReject
  | NMinus =>
      if Ascii.eqb c "0" then NZero
      else if is_digit c then NInt else NReject
  | NZero =>
      if Ascii.eqb c "." then NDot
      else if Ascii.eqb c "e" || Ascii.eqb c "E" then NExp else NReject
  | NInt =>
      if is_digit c then NInt
      else if Ascii.eqb c "." then NDot
      else if Ascii.eqb c "e" || Ascii.eqb c "E" then NExp else NReject
  | NDot => if is_digit c then NFrac else NReject
  | NFrac =>
      if is_digit c then NFrac
      else if Ascii.eqb c "e" || Ascii.eqb c "E" then NExp else NReject
  | NExp =>
      if Ascii.eqb c "+" || Ascii.eqb c "-" then NExpSign
      else if is_digit c then NExpDigits else NReject
  | NExpSign => if is_digit c then NExpDigits else NReject
  | NExpDigits => if is_digit c then NExpDigits else NReject
  | NReject => NReject
  end.

Fixpoint number_run (st : number_state) (s : string) : number_state :=
  match s with
  | EmptyString => st
  | String c rest => number_run (number_step st c) rest
  end.

Definition valid_number_literal (s : string) : bool :=
  match number_run NStart s with
  | NZero | NInt | NFrac | NExpDigits => true
  | _ => false
  end.

Inductive lex_mode : Type :=
| LTop
| LKeyword (remaining : string) (t : token)
| LNumber (literal : string)
| LString (acc : string) (hi : option N)
| LEscape (acc : string) (hi : option N)
| LUnicode (acc : string) (hi : option N) (digits : list N).

(** A pending high surrogate that found no partner is written out. *)
Definition flush (acc : string) (hi : option N) : string :=
  match hi with
  | None => acc
  | Some h => acc ++ utf8_encode h
  end.

Definition push_char (acc : string) (hi : option N) (c : ascii) : string :=
  flush acc hi ++ String c EmptyString.

(** The token a character yields between tokens, and the mode it opens. *)
Definition lex_top (c : ascii) : option (option token * lex_mode) :=
  match c with
  | " "%char | "009"%char | "010"%char | "013"%char => Some (None, LTop)
  | "{"%char => Some (Some TLBrace, LTop)
  | "}"%char => Some (Some TRBrace, LTop)
  | "["%char => Some (Some TLBracket, LTop)
  | "]"%char => Some (Some TRBracket, LTop)
  | ":"%char => Some (Some TColon, LTop)
  | ","%char => Some (Some TComma, LTop)
  | "034"%char => Some (None, LString EmptyString None)
  | "t"%char => Some (None, LKeyword "rue" TTrue)
  | "f"%char => Some (None, LKeyword "alse" TFalse)
  | "n"%char => Some (None, LKeyword "ull" TNull)
  | _ =>
      if is_digit c || Ascii.eqb c "-"
      then Some (None, LNumber (String c EmptyString))
      else None
  end.

Definition emit (t : option token) (rest : option (list token)) : option (list token) :=
  match t, rest with
  | _, None => None
  | None, Some ts => Some ts
  | Some t, Some ts => Some (t :: ts)
  end.

Definition simple_escape (c : ascii) : option ascii :=
  match c with
  | "034"%char => Some "034"%char
  | "092"%char => Some "092"%char
  | "/"%char => Some "/"%char
  | "b"%char => Some "008"%char
  | "f"%char => Some "012"%char
  | "n"%char => Some "010"%char
  | "r"%char => Some "013"%char
  | "t"%char => Some "009"%char
  | _ => None
  end.

Definition code_unit (d1 d2 d3 d4 : N) : N := (((d1 * 16 + d2) * 16 + d3) * 16 + d4)%N.

Fixpoint lex (m : lex_mode) (s : string) {struct s} : option (list token) :=
  match s with
  | EmptyString =>
      match m with
      | LTop => Some []
      | LNumber lit => if valid_number_literal lit then Some [TNumber lit] else None
      | _ => None
      end
  | String c rest =>
      match m with
      | LTop =>
          match lex_top c with
          | Some (t, m') => emit t (lex m' rest)
          | None => None
          end
      | LKeyword EmptyString _ => None
      | LKeyword (String k ks) t =>
          if Ascii.eqb c k then
            match ks with
            | EmptyString => emit (Some t) (lex LTop rest)
            | _ => lex (LKeyword ks t) rest
            end
          else None
      | LNumber lit =>
          if is_number_char c then lex (LNumber (lit ++ String c EmptyString)) rest
          else if valid_number_literal lit then
            match lex_top c with
            | Some (t, m') => emit (Some (TNumber lit)) (emit t (lex m' rest))
            | None => None
            end
          else None
      | LString acc hi =>
          if Ascii.eqb c dquote then emit (Some (TString (flush acc hi))) (lex LTop rest)
          else if Ascii.eqb c backslash then lex (LEscape acc hi) rest
          else if (N_of_ascii c <? 32)%N then None
          else lex (LString (push_char acc hi c) None) rest
      | LEscape acc hi =>
          if Ascii.eqb c "u" then lex (LUnicode acc hi []) rest
          else match simple_escape c with
               | Some x => lex (LString (push_char acc hi x) None) rest
               | None => None
               end
      | LUnicode acc hi digits =>
          match hex_digit c with
          | None => None
          | Some d =>
              match digits with
              | [d1; d2; d3] =>
                  let cu := code_unit d1 d2 d3 d in
                  match hi with
                  | Some h =>
                      if is_low_surrogate cu
                      then lex (LString (acc ++ utf8_encode (surrogate_pair h cu)) None) rest
                      else if is_high_surrogate cu
                      then lex (LString (flush acc hi) (Some cu)) rest
                      else lex (LString (flush acc hi ++ utf8_encode cu) None) rest
                  | None =>
                      if is_high_surrogate cu
                      then lex (LString acc (Some cu)) rest
                      else lex (LString (acc ++ utf8_encode cu) None) rest
                  end
              | _ => lex (LUnicode acc hi (digits ++ [d])) rest
              end
          end
      end
  end.

(** [CreateDataProperty]: a repeated key keeps its place and takes the
    later value. *)
Fixpoint obj_set (k : string) (v : JsValue) (fields : list (string * JsValue))
  : list (string * JsValue) :=
  match fields with
  | [] => [(k, v)]
  | (k', v') :: rest =>
      if String.eqb k' k then (k, v) :: rest else (k', v') :: obj_set k v rest
  end.

(** An open container: an array with its elements so far (latest first),
    an object with its fields so far, or an object whose key [key] awaits
    its value. *)
Inductive frame : Type :=
| FArr (elements_rev : list JsValue)
| FObj (fields : list (string * JsValue))
| FObjValue (fields : list (string * JsValue)) (key : string).

Inductive expect : Type :=
| XValue            (* a value *)
| XValueOrEnd       (* after [: a value or ] *)
| XKeyOrEnd         (* after {: a key or } *)
| XKey              (* after , in an object: a key *)
| XColon            (* after a key *)
| XCommaOrEnd       (* after a value in a container *)
| XDone (v : JsValue).

Definition parser_state : Type := (list frame * expect)%type.

(** A finished value goes to the innermost open container. *)
Definition push_value (v : JsValue) (stack : list frame) : option parser_state :=
  match stack with
  | [] => Some ([], XDone v)
  | FArr acc :: st => Some (FArr (v :: acc) :: st, XCommaOrEnd)
  | FObjValue fields k :: st => Some (FObj (obj_set k v fields) :: st, XCommaOrEnd)
  | FObj _ :: _ => None
  end.

Definition open_value (t : token) (stack : list frame) : option parser_state :=
  match t with
  | TLBracket => Some (FArr [] :: stack, XValueOrEnd)
  | TLBrace => Some (FObj [] :: stack, XKeyOrEnd)
  | TString s => push_value (VStr s) stack
  | TNumber lit => push_value (VNum lit) stack
  | TTrue => push_value (VBool true) stack
  | TFalse => push_value (VBool false) stack
  | TNull => push_value VNull stack
  | _ => None
  end.

Definition open_key (t : token) (stack : list frame) : option parser_state :=
  match t, stack with
  | TString k, FObj fields :: st => Some (FObjValue fields k :: st, XColon)
  | _, _ => None
  end.

Definition parser_step (st : parser_state) (t : token) : option parser_state :=
  let (stack, x) := st in
  match x with
  | XValue => open_value t stack
  | XValueOrEnd =>
      match t, stack with
      | TRBracket, FArr [] :: st' => push_value (VArr []) st'
      | _, _ => open_value t stack
      end
  | XKeyOrEnd =>
      match t, stack with
      | TRBrace, FObj fields :: st' => push_value (VObj fields) st'
      | _, _ => open_key t stack
      end
  | XKey => open_key t stack
  | XColon =>
      match t with
      | TColon => Some (stack, XValue)
      | _ => None
      end
  | XCommaOrEnd =>
      match t, stack with
      | TComma, FArr _ :: _ => Some (stack, XValue)
      | TRBracket, FArr acc :: st' => push_value (VArr (rev acc)) st'
      | TComma, FObj _ :: _ => Some (stack, XKey)
      | TRBrace, FObj fields :: st' => push_value (VObj fields) st'
      | _, _ => None
      end
  | XDone _ => None
  end.

Fixpoint parser_run (st : parser_state) (ts : list token) : option JsValue :=
  match ts with
  | [] =>
      match st with
      | ([], XDone v) => Some v
      | _ => None
      end
  | t :: rest =>
      match parser_step st t with
      | Some st' => parser_run st' rest
      | None => None
      end
  end.

(** [JSON.parse(text)]: the value, or a [SyntaxError]. *)
Definition JSON_parse (text : string) : Completion JsValue :=
  match lex LTop text with
  | Some ts =>
      match parser_run ([], XValue) ts with
      | Some v => Normal v
      | None => Throw (ErrorObject ESyntaxError "Unexpected token in JSON")
      end
  | None => Throw (ErrorObject ESyntaxError "Unexpected token in JSON")
  end.

(** ** ECMAScript operations on values *)

(** The double a JSON number literal denotes is not computed here: what
    the engine can ask of it is a parameter.  So is the decimal form of an
    integer-valued double beyond 2^53, whose digits [Number::toString]
    shortens. *)
Record JsNumbers : Type := {
  number_to_string : string -> string;       (* Number::toString of the literal's double *)
  number_is_zero : string -> bool;           (* the literal denotes +0 or -0 *)
  number_to_integer : string -> option Z;    (* the double, when it is integral *)
  large_integer_to_string : Z -> string      (* Number::toString beyond 2^53 *)
}.

Definition TypeError {A : Type} (message : string) : Completion A :=
  Throw (ErrorObject ETypeError message).

Definition SyntaxError {A : Type} (message : string) : Completion A :=
  Throw (ErrorObject ESyntaxError message).

Definition RangeError {A : Type} (message : string) : Completion A :=
  Throw (ErrorObject ERangeError message).

Fixpoint lookup (name : string) (fields : list (string * JsValue)) : JsValue :=
  match fields with
  | [] => VUndefined
  | (k, v) :: rest => if String.eqb k name then v else lookup name rest
  end.

Definition has_own (name : string) (fields : list (string * JsValue)) : bool :=
  existsb (fun kv => String.eqb (fst kv) name) fields.

(** [v.name], for the names the engine reads; none of them is a property
    of [Object.prototype], [String.prototype] or [Array.prototype], so
    only an own property of an object yields a value. *)
Definition get (v : JsValue) (name : string) : Completion JsValue :=
  match v with
  | VUndefined =>
      TypeError ("Cannot read properties of undefined (reading '" ++ name ++ "')")
  | VNull =>
      TypeError ("Cannot read properties of null (reading '" ++ name ++ "')")
  | VObj fields => Normal (lookup name fields)
  | _ => Normal VUndefined
  end.

(** [ToBoolean]. *)
Definition truthy (js : JsNumbers) (v : JsValue) : bool :=
  match v with
  | VUndefined | VNull => false
  | VBool b => b
  | VNum lit => negb (number_is_zero js lit)
  | VStr s => negb (String.eqb s EmptyString)
  | VArr _ | VObj _ => true
  end.

(** [v === s] for a string [s]. *)
Definition strict_equal_string (v : JsValue) (s : string) : bool :=
  match v with
  | VStr t => String.eqb t s
  | _ => false
  end.

(** [ToString], as a template literal and [String(v)] apply it.  An array
    joins its elements with a comma; an object prints through
    [Object.prototype.toString] unless an own property [toString] (never
    callable in a parsed value) hides it, in which case the conversion to
    a primitive fails. *)
Fixpoint ToString (js : JsNumbers) (v : JsValue) {struct v} : Completion string :=
  match v with
  | VUndefined => Normal "undefined"
  | VNull => Normal "null"
  | VBool true => Normal "true"
  | VBool false => Normal "false"
  | VNum lit => Normal (number_to_string js lit)
  | VStr s => Normal s
  | VArr l =>
      (fix join (l : list JsValue) : Completion string :=
         match l with
         | [] => Normal EmptyString
         | e :: rest =>
             bind (match e with
                   | VUndefined | VNull => Normal EmptyString
                   | _ => ToString js e
                   end)
               (fun s =>
                  match rest with
                  | [] => Normal s
                  | _ => bind (join rest) (fun t => Normal (s ++ "," ++ t))
                  end)
         end) l
  | VObj fields =>
      if has_own "toString" fields
      then TypeError "Cannot convert object to primitive value"
      else Normal "[object Object]"
  end.

(** [Array.prototype.join(separator)]. *)
Fixpoint array_join (js : JsNumbers) (separator : string) (l : list JsValue)
  : Completion string :=
  match l with
  | [] => Normal EmptyString
  | e :: rest =>
      bind (match e with
            | VUndefined | VNull => Normal EmptyString
            | _ => ToString js e
            end)
        (fun s =>
           match rest with
           | [] => Normal s
           | _ => bind (array_join js separator rest) (fun t => Normal (s ++ separator ++ t))
           end)
  end.

(** *** Strings *)

Definition to_lower (c : ascii) : ascii :=
  let n := nat_of_ascii c in
  if ((65 <=? n) && (n <=? 90))%nat then ascii_of_nat (n + 32) else c.

Fixpoint lowercase (s : string) : string :=
  match s with
  | EmptyString => EmptyString
  | String c rest => String (to_lower c) (lowercase rest)
  end.

Definition string_startsWith (prefix s : string) : bool := String.prefix prefix s.

(** [v.startsWith(prefix)] and [v.toLowerCase()]: methods of strings only. *)
Definition startsWith (v : JsValue) (prefix : string) : Completion bool :=
  match v with
  | VStr s => Normal (string_startsWith prefix s)
  | VUndefined => TypeError "Cannot read properties of undefined (reading 'startsWith')"
  | VNull => TypeError "Cannot read properties of null (reading 'startsWith')"
  | _ => TypeError "address.startsWith is not a function"
  end.

Definition toLowerCase (v : JsValue) : Completion string :=
  match v with
  | VStr s => Normal (lowercase s)
  | VUndefined => TypeError "Cannot read properties of undefined (reading 'toLowerCase')"
  | VNull => TypeError "Cannot read properties of null (reading 'toLowerCase')"
  | _ => TypeError "address.toLowerCase is not a function"
  end.

(** The UTF-8 bytes of one white space or line terminator of ECMAScript:
    the ASCII ones (TAB, LF, VT, FF, CR, SP), U+00A0, U+1680, U+2000 to
    U+200A, U+2028, U+2029, U+202F, U+205F, U+3000 and U+FEFF. *)
Definition is_space_bytes (bytes : list nat) : bool :=
  match bytes with
  | [a] => (((9 <=? a) && (a <=? 13)) || (a =? 32))%nat
  | [a; b] => ((a =? 194) && (b =? 160))%nat
  | [a; b; c] =>
      (((a =? 225) && (b =? 154) && (c =? 128))
       || ((a =? 226) && (b =? 128)
           && (((128 <=? c) && (c <=? 138)) || (c =? 168) || (c =? 169) || (c =? 175)))
       || ((a =? 226) && (b =? 129) && (c =? 159))
       || ((a =? 227) && (b =? 128) && (c =? 128))
       || ((a =? 239) && (b =? 187) && (c =? 191)))%nat
  | _ => false
  end.

(** One such character taken from the head of [s]. *)
Definition strip_one_space (s : string) : option string :=
  match s with
  | String a r1 =>
      if is_space_bytes [nat_of_ascii a] then Some r1
      else
        match r1 with
        | String b r2 =>
            if is_space_bytes [nat_of_ascii a; nat_of_ascii b] then Some r2
            else
              match r2 with
              | String c r3 =>
                  if is_space_bytes [nat_of_ascii a; nat_of_ascii b; nat_of_ascii c]
                  then Some r3 else None
              | EmptyString => None
              end
        | EmptyString => None
        end
  | EmptyString => None
  end.

(** [TrimString(s, start)]; [fuel] bounds the characters to strip. *)
Fixpoint trim_start_fuel (fuel : nat) (s : string) : string :=
  match fuel with
  | O => s
  | S fuel' =>
      match strip_one_space s with
      | Some rest => trim_start_fuel fuel' rest
      | None => s
      end
  end.

Definition trim_start (s : string) : string := trim_start_fuel (String.length s) s.

Definition string_rev (s : string) : string :=
  string_of_list_ascii (rev (list_ascii_of_string s)).

(** One such character taken from the end of a string, given reversed. *)
Definition strip_one_space_end (r : string) : option string :=
  match r with
  | String c r1 =>
      if is_space_bytes [nat_of_ascii c] then Some r1
      else
        match r1 with
        | String b r2 =>
            if is_space_bytes [nat_of_ascii b; nat_of_ascii c] then Some r2
            else
              match r2 with
              | String a r3 =>
                  if is_space_bytes [nat_of_ascii a; nat_of_ascii b; nat_of_ascii c]
                  then Some r3 else None
              | EmptyString => None
              end
        | EmptyString => None
        end
  | EmptyString => None
  end.

Fixpoint trim_end_fuel (fuel : nat) (r : string) : string :=
  match fuel with
  | O => r
  | S fuel' =>
      match strip_one_space_end r with
      | Some rest => trim_end_fuel fuel' rest
      | None => r
      end
  end.

(** [TrimString(s, start+end)]. *)
Definition trim (s : string) : string :=
  let t := trim_start s in
  string_rev (trim_end_fuel (String.length t) (string_rev t)).

(** *** Integers *)

Definition decimal_value (digits : string) : option Z :=
  match digits with
  | EmptyString => None
  | _ => option_map Z.of_uint (NilEmpty.uint_of_string digits)
  end.

(** The decimal form of a BigInt, as a template literal prints it. *)
Definition Z_to_string (z : Z) : string := NilZero.string_of_int (Z.to_int z).

Fixpoint radix_value (radix : Z) (acc : Z) (s : string) : option Z :=
  match s with
  | EmptyString => Some acc
  | String c rest =>
      match hex_digit c with
      | Some d =>
          if (Z.of_N d <? radix)%Z
          then radix_value radix (acc * radix + Z.of_N d)%Z rest
          else None
      | None => None
      end
  end.

Definition prefixed_value (radix : Z) (digits : string) : option Z :=
  match digits with
  | EmptyString => None
  | _ => radix_value radix 0%Z digits
  end.

(** [StringToBigInt]: white space around, then nothing (zero), a signed
    decimal integer, or an unsigned hexadecimal, octal or binary one. *)
Definition StringToBigInt (s : string) : option Z :=
  match trim s with
  | EmptyString => Some 0%Z
  | String "0"%char (String ("x"%char | "X"%char) digits) => prefixed_value 16 digits
  | String "0"%char (String ("o"%char | "O"%char) digits) => prefixed_value 8 digits
  | String "0"%char (String ("b"%char | "B"%char) digits) => prefixed_value 2 digits
  | String "-"%char digits => option_map Z.opp (decimal_value digits)
  | String "+"%char digits => decimal_value digits
  | t => decimal_value t
  end.

(** [BigInt(v)]. *)
Definition BigInt (js : JsNumbers) (v : JsValue) : Completion Z :=
  let of_string (s : string) : Completion Z :=
    match StringToBigInt s with
    | Some z => Normal z
    | None => SyntaxError ("Cannot convert " ++ s ++ " to a BigInt")
    end in
  match v with
  | VUndefined => TypeError "Cannot convert undefined to a BigInt"
  | VNull => TypeError "Cannot convert null to a BigInt"
  | VBool b => Normal (if b then 1 else 0)%Z
  | VNum lit =>
      match number_to_integer js lit with
      | Some z => Normal z
      | None =>
          RangeError ("The number " ++ number_to_string js lit
                      ++ " cannot be converted to a BigInt because it is not an integer")
      end
  | VStr s => of_string s
  | VArr _ | VObj _ => bind (ToString js v) of_string
  end.

(** The doubles [parseInt] and [Math.floor] return: [NaN], an infinity,
    or an integer (always one a double represents). *)
Inductive JsDouble : Set :=
| NaN
| Infinity (negative : bool)
| Integral (z : Z).

(** The double nearest to an integer: 53 significant bits, ties to even,
    overflow to an infinity. *)
Definition round_to_double (z : Z) : JsDouble :=
  (let a := Z.abs z in
   if a <? 2 ^ 53 then Integral z
   else
     let e := Z.log2 a - 52 in
     let q := a / 2 ^ e in
     let r := a mod 2 ^ e in
     let half := 2 ^ (e - 1) in
     let q' := if (half <? r) || ((r =? half) && Z.odd q) then q + 1 else q in
     let v := q' * 2 ^ e in
     if 2 ^ 1024 <=? v then Infinity (z <? 0) else Integral (Z.sgn z * v))%Z.

(** [x < y] and [x >= y] on doubles: false as soon as one is [NaN]. *)
Definition double_lt (x y : JsDouble) : bool :=
  match x, y with
  | NaN, _ | _, NaN => false
  | Infinity true, Infinity true => false
  | Infinity true, _ => true
  | _, Infinity true => false
  | Infinity false, _ => false
  | _, Infinity false => true
  | Integral a, Integral b => (a <? b)%Z
  end.

Definition double_ge (x y : JsDouble) : bool :=
  match x, y with
  | NaN, _ | _, NaN => false
  | _, _ => negb (double_lt x y)
  end.

(** [Number::toString] on these doubles. *)
Definition double_to_string (js : JsNumbers) (x : JsDouble) : string :=
  match x with
  | NaN => "NaN"
  | Infinity false => "Infinity"
  | Infinity true => "-Infinity"
  | Integral z =>
      if (Z.abs z <=? 2 ^ 53)%Z then Z_to_string z else large_integer_to_string js z
  end.

Fixpoint take_digits (s : string) : string :=
  match s with
  | EmptyString => EmptyString
  | String c rest => if is_digit c then String c (take_digits rest) else EmptyString
  end.

(** [parseInt(s, 10)] on a string: leading white space, a sign, then the
    longest run of decimal digits; [NaN] when there is none. *)
Definition string_parseInt (s : string) : JsDouble :=
  let t := trim_start s in
  let '(negative, u) :=
    match t with
    | String "-"%char r => (true, r)
    | String "+"%char r => (false, r)
    | _ => (false, t)
    end in
  match decimal_value (take_digits u) with
  | Some n => round_to_double (if negative then - n else n)%Z
  | None => NaN
  end.

(** [parseInt(v, 10)]. *)
Definition parseInt (js : JsNumbers) (v : JsValue) : Completion JsDouble :=
  bind (ToString js v) (fun s => Normal (string_parseInt s)).

(** ** Protocol types ([src/types.ts]) *)

Record PaymentRequirements : Type := {
  scheme : string;
  network : string;
  maxAmountRequired : string;
  resource : string;
  payTo : string
}.

Record VerifyRequest : Type := {
  paymentHeader : string;
  paymentRequirements : PaymentRequirements
}.

(** [SettleRequest] has the fields of [VerifyRequest]; [settle] hands its
    request to [verify] as it is. *)
Definition SettleRequest : Type := VerifyRequest.

(** Modelled from the spec: the declaration of [TronVerifyResponse] is not
    in [types.ts]; the spec's VerificationResult has [isValid],
    [invalidReason], [payer] and the echoed [paymentToken], as
    [VerifyResponse] has. *)
Record TronVerifyResponse : Type := {
  isValid : bool;
  invalidReason : option string;
  payer : option JsValue;
  paymentToken : option JsValue
}.

Definition invalid (reason : string) : TronVerifyResponse :=
  {| isValid := false; invalidReason := Some reason; payer := None; paymentToken := None |}.

(** Modelled from the spec: the declarations of [TronTransferPayload],
    [TronSignature] and [TronPaymentToken] are not in [types.ts]; the
    spec's TransferPayload has [from], [to], [value], [validAfter],
    [validBefore], [nonce] and an optional [tokenAddress], its Signature is
    a single signature string, its PaymentToken has [scheme], [network],
    [payload] and [signature]. *)
Module Token.

Record TronTransferPayload : Type := {
  from : string;
  to : string;
  value : string;
  validAfter : string;
  validBefore : string;
  nonce : string;
  tokenAddress : option string
}.

Record TronSignature : Type := { signature : string }.

Record TronPaymentToken : Type := {
  scheme : string;
  network : string;
  payload : TronTransferPayload;
  signature_of : TronSignature
}.

Definition payload_value (p : TronTransferPayload) : JsValue :=
  VObj ([("from", VStr (from p)); ("to", VStr (to p)); ("value", VStr (value p));
          ("validAfter", VStr (validAfter p)); ("validBefore", VStr (validBefore p));
          ("nonce", VStr (nonce p))]
         ++ match tokenAddress p with
            | Some a => [("tokenAddress", VStr a)]
            | None => []
            end)%list.

Definition signature_value (s : TronSignature) : JsValue :=
  VObj [("signature", VStr (signature s))].

(** The object a typed token is at run time. *)
Definition to_value (t : TronPaymentToken) : JsValue :=
  VObj [("scheme", VStr (scheme t)); ("network", VStr (network t));
        ("payload", payload_value (payload t));
        ("signature", signature_value (signature_of t))].

End Token.

(** ** [JSON.stringify] *)

Definition hex_char (n : N) : ascii :=
  (if n <? 10 then ascii_of_N (48 + n) else ascii_of_N (87 + n))%N.

Definition json_escape_char (c : ascii) : string :=
  match c with
  | "034"%char => String backslash (String dquote EmptyString)
  | "092"%char => String backslash (String backslash EmptyString)
  | "008"%char => String backslash "b"
  | "009"%char => String backslash "t"
  | "010"%char => String backslash "n"
  | "012"%char => String backslash "f"
  | "013"%char => String backslash "r"
  | _ =>
      let n := N_of_ascii c in
      if (n <? 32)%N
      then String backslash
             (String "u" (String "0" (String "0"
                (String (hex_char (n / 16)) (String (hex_char (n mod 16)) EmptyString)))))
      else String c EmptyString
  end.

Fixpoint json_escape (s : string) : string :=
  match s with
  | EmptyString => EmptyString
  | String c rest => json_escape_char c ++ json_escape rest
  end.

(** [QuoteJSONString]. *)
Definition json_quote (s : string) : string :=
  String dquote (json_escape s ++ String dquote EmptyString).

Fixpoint join_strings (separator : string) (l : list string) : string :=
  match l with
  | [] => EmptyString
  | [s] => s
  | s :: rest => s ++ separator ++ join_strings separator rest
  end.

(** [JSON.stringify(v)] without indentation; [None] is [undefined].  A
    property whose value is [undefined] is left out, an [undefined] array
    element is written [null]. *)
Fixpoint JSON_stringify (js : JsNumbers) (v : JsValue) {struct v} : option string :=
  match v with
  | VUndefined => None
  | VNull => Some "null"
  | VBool true => Some "true"
  | VBool false => Some "false"
  | VNum lit => Some (number_to_string js lit)
  | VStr s => Some (json_quote s)
  | VArr l =>
      Some ("[" ++ join_strings ","
                     (map (fun e => match JSON_stringify js e with
                                    | Some t => t
                                    | None => "null"
                                    end) l) ++ "]")
  | VObj fields =>
      Some ("{" ++ join_strings ","
                     (flat_map (fun kv => match JSON_stringify js (snd kv) with
                                          | Some t => [json_quote (fst kv) ++ ":" ++ t]
                                          | None => []
                                          end) fields) ++ "}")
  end.

(** ** [TronX402Service] ([src/services/tron-x402-service.ts]) *)

(** The TronWeb client of the service ([this.tronWeb]), as far as the
    service calls it. *)
Record TronWeb : Type := {
  toHex : string -> Completion string;
  address_toHex : string -> Completion string;
  trx_verifyMessage : string -> JsValue -> Completion JsValue
}.

Record SignatureCheck : Type := {
  valid : bool;
  reason : option string
}.

(** [`${reason}`] for an optional string. *)
Definition template_option (s : option string) : string :=
  match s with
  | Some t => t
  | None => "undefined"
  end.

(** [error instanceof Error ? error.message : fallback]. *)
Definition error_message (error : JsThrown) (fallback : string) : string :=
  match error with
  | ErrorObject _ message => message
  | NonError _ => fallback
  end.

(** [Buffer.from(paymentHeader, 'base64').toString('utf-8')], then
    [JSON.parse]; [null] when that throws. *)
Definition parsePaymentHeader (paymentHeader : string) : JsValue :=
  match
    try_catch
      (let decoded := base64_decode paymentHeader in
       JSON_parse decoded)
      (fun _ => Normal VNull)
  with
  | Normal v => v
  | Throw _ => VNull
  end.

(** [Buffer.from(JSON.stringify(paymentToken)).toString('base64')];
    [Buffer.from(undefined)] throws. *)
Definition encodePaymentHeader (js : JsNumbers) (paymentToken : JsValue) : Completion string :=
  match JSON_stringify js paymentToken with
  | Some text => Normal (base64_encode text)
  | None =>
      TypeError "The first argument must be of type string or an instance of Buffer, ArrayBuffer, or Array or an Array-like Object. Received undefined"
  end.

Section TronX402Service.

Variable js : JsNumbers.
Variable tronWeb : TronWeb.

(** What [Date.now()] returns when [verify] reads the clock, in
    milliseconds. *)
Variable Date_now : Z.

Local Open Scope completion_scope.

Definition normalizeAddress (address : JsValue) : Completion string :=
  try_catch
    (is_base58 <- startsWith address "T" ;;
     if is_base58 then
       s <- ToString js address ;;
       hex <- address_toHex tronWeb s ;;
       Normal (lowercase hex)
     else toLowerCase address)
    (fun _ => toLowerCase address).

Definition buildSignatureMessage (payload : JsValue) : Completion string :=
  from <- get payload "from" ;;
  to <- get payload "to" ;;
  value <- get payload "value" ;;
  validAfter <- get payload "validAfter" ;;
  validBefore <- get payload "validBefore" ;;
  nonce <- get payload "nonce" ;;
  let parts := [from; to; value; validAfter; validBefore; nonce] in
  tokenAddress <- get payload "tokenAddress" ;;
  let parts := if truthy js tokenAddress then (parts ++ [tokenAddress])%list else parts in
  array_join js "|" parts.

Definition verifyTronSignature (payload signature : JsValue) : Completion SignatureCheck :=
  try_catch
    (message <- buildSignatureMessage payload ;;
     messageHex <- toHex tronWeb message ;;
     signature_signature <- get signature "signature" ;;
     recoveredAddress <- trx_verifyMessage tronWeb messageHex signature_signature ;;
     recovered <- ToString js recoveredAddress ;;
     normalizedRecovered <- normalizeAddress (VStr recovered) ;;
     from <- get payload "from" ;;
     normalizedFrom <- normalizeAddress from ;;
     if negb (String.eqb normalizedRecovered normalizedFrom) then
       expected <- ToString js from ;;
       Normal {| valid := false;
                 reason := Some ("Signature verification failed: recovered " ++ recovered
                                 ++ ", expected " ++ expected) |}
     else Normal {| valid := true; reason := None |})
    (fun error =>
       Normal {| valid := false;
                 reason := Some ("Signature verification error: "
                                 ++ error_message error "Unknown error") |}).

Definition verify (request : VerifyRequest) : Completion TronVerifyResponse :=
  let paymentHeader := paymentHeader request in
  let paymentRequirements := paymentRequirements request in
  let paymentToken := parsePaymentHeader paymentHeader in
  if negb (truthy js paymentToken) then
    Normal (invalid "Invalid payment header format - unable to decode")
  else
  token_scheme <- get paymentToken "scheme" ;;
  if negb (strict_equal_string token_scheme (scheme paymentRequirements)) then
    got <- ToString js token_scheme ;;
    Normal (invalid ("Scheme mismatch: expected " ++ scheme paymentRequirements
                     ++ ", got " ++ got))
  else
  token_network <- get paymentToken "network" ;;
  if negb (strict_equal_string token_network (network paymentRequirements)) then
    got <- ToString js token_network ;;
    Normal (invalid ("Network mismatch: expected " ++ network paymentRequirements
                     ++ ", got " ++ got))
  else
  payload <- get paymentToken "payload" ;;
  signature <- get paymentToken "signature" ;;
  signatureValid <-
    (if strict_equal_string token_scheme "tron-transfer"
     then verifyTronSignature payload signature
     else Normal {| valid := true; reason := None |}) ;;
  if negb (valid signatureValid) then
    Normal {| isValid := false; invalidReason := reason signatureValid;
              payer := None; paymentToken := None |}
  else
  payload_value <- get payload "value" ;;
  paymentAmount <- BigInt js payload_value ;;
  requiredAmount <- BigInt js (VStr (maxAmountRequired paymentRequirements)) ;;
  if (paymentAmount <? requiredAmount)%Z then
    Normal (invalid ("Insufficient payment: required " ++ Z_to_string requiredAmount
                     ++ ", got " ++ Z_to_string paymentAmount))
  else
  payload_to <- get payload "to" ;;
  normalizedPayloadTo <- normalizeAddress payload_to ;;
  normalizedRequiredTo <- normalizeAddress (VStr (payTo paymentRequirements)) ;;
  if negb (String.eqb normalizedPayloadTo normalizedRequiredTo) then
    got <- ToString js payload_to ;;
    Normal (invalid ("Recipient mismatch: expected " ++ payTo paymentRequirements
                     ++ ", got " ++ got))
  else
  let now := Integral (Date_now / 1000)%Z in
  payload_validAfter <- get payload "validAfter" ;;
  validAfter <- parseInt js payload_validAfter ;;
  payload_validBefore <- get payload "validBefore" ;;
  validBefore <- parseInt js payload_validBefore ;;
  if double_lt now validAfter then
    Normal (invalid ("Payment not yet valid: validAfter " ++ double_to_string js validAfter
                     ++ ", current time " ++ double_to_string js now))
  else
  if double_ge now validBefore then
    Normal (invalid ("Payment expired: validBefore " ++ double_to_string js validBefore
                     ++ ", current time " ++ double_to_string js now))
  else
  payload_from <- get payload "from" ;;
  Normal {| isValid := true; invalidReason := None;
            payer := Some payload_from; paymentToken := Some paymentToken |}.

End TronX402Service.

(** ** [TronSettlementService] ([src/services/tron-settlement-service.ts]) *)

Module Settle.

Record Response : Type := {
  success : bool;
  transactionHash : option JsValue;
  network : string;
  settledAmount : option JsValue;
  error : option string
}.

End Settle.

Definition SettleResponse : Type := Settle.Response.

(** What the service asks of the wallet's TronWeb client and of the timer. *)
Inductive ChainCall : Type :=
| Contract (tokenAddress : JsValue)
    (* tronWeb.contract(TRC20_ABI, tokenAddress) *)
| TransferSend (to value : JsValue) (feeLimit callValue : Z)
    (* contract.methods.transfer(to, value).send({feeLimit, callValue}) *)
| SendTransaction (to : JsValue) (amount : JsDouble)
    (* tronWeb.trx.sendTransaction(to, amount) *)
| GetTransactionInfo (tx : JsValue)
    (* tronWeb.trx.getTransactionInfo(tx) *)
| Delay (ms : Z).
    (* setTimeout(resolve, ms) *)

(** The wallet's client: each call is answered, by a value or by a throw,
    from the calls made so far. *)
Definition ChainOracle : Type := list ChainCall -> ChainCall -> Completion JsValue.

(** A computation that calls the chain: from the calls made so far to its
    completion and the calls made by its end. *)
Definition Chain (A : Type) : Type := list ChainCall -> Completion A * list ChainCall.

Definition ret {A : Type} (a : A) : Chain A := fun h => (Normal a, h).

Definition lift {A : Type} (c : Completion A) : Chain A := fun h => (c, h).

Definition chain_bind {A B : Type} (m : Chain A) (f : A -> Chain B) : Chain B :=
  fun h =>
    match m h with
    | (Normal a, h') => f a h'
    | (Throw e, h') => (Throw e, h')
    end.

(** [try { m } catch (error) { handler error }]. *)
Definition chain_try {A : Type} (m : Chain A) (handler : JsThrown -> Chain A) : Chain A :=
  fun h =>
    match m h with
    | (Normal a, h') => (Normal a, h')
    | (Throw e, h') => handler e h'
    end.

Definition call (client : ChainOracle) (c : ChainCall) : Chain JsValue :=
  fun h => (client h c, (h ++ [c])%list).

Declare Scope chain_scope.
Delimit Scope chain_scope with chain.
Notation "x <- c ;; k" := (chain_bind c (fun x => k))
  (at level 61, c at next level, right associativity) : chain_scope.
Notation "c ;; k" := (chain_bind c (fun _ => k))
  (at level 61, right associativity) : chain_scope.

(** [this.delay(ms)]. *)
Definition delay (ms : Z) : Chain unit := fun h => (Normal tt, (h ++ [Delay ms])%list).

(** [this.logger.log(message)]: the console does nothing the engine sees;
    the message is evaluated, and that may throw. *)
Definition logger_log (message : Completion string) : Chain unit :=
  lift (bind message (fun _ => Normal tt)).

Definition maxAttempts : nat := 30.

(** How a confirmation loop ends: by a [return] inside it, or by leaving
    it with [confirmed] set or not. *)
Inductive LoopExit : Type :=
| Returned (r : SettleResponse)
| Left (confirmed : bool).

(** [Object.keys(v).length > 0]. *)
Definition has_keys (v : JsValue) : bool :=
  match v with
  | VObj (_ :: _) | VArr (_ :: _) => true
  | VStr s => negb (String.eqb s EmptyString)
  | _ => false
  end.

Section TronSettlementService.

Variable js : JsNumbers.

(** The verification service the settlement service obtains from
    [getTronX402Service()], and the reading of its clock. *)
Variable tronWeb : TronWeb.
Variable Date_now : Z.

(** [tronWalletServiceInstance]: the wallet's client, or [null]. *)
Variable tronWalletServiceInstance : option ChainOracle.

Local Open Scope chain_scope.

Definition isTronWalletServiceAvailable : bool :=
  match tronWalletServiceInstance with
  | Some _ => true
  | None => false
  end.

Definition getTronWalletService : Completion ChainOracle :=
  match tronWalletServiceInstance with
  | Some client => Normal client
  | None =>
      Throw (ErrorObject EError
               "TronWalletService not initialized. Ensure TRON_PRIVATE_KEY is configured.")
  end.

(** The loop of [executeTRC20Settlement],
    [while (!confirmed && attempts < maxAttempts)], entered with
    [confirmed = false]; [budget] is [maxAttempts - attempts]. *)
Fixpoint confirmTRC20 (client : ChainOracle) (network : string) (tx : JsValue)
  (budget : nat) {struct budget} : Chain LoopExit :=
  match budget with
  | O => ret (Left false)
  | S budget' =>
      delay 2000 ;;
      txInfo <- call client (GetTransactionInfo tx) ;;
      receipt <- lift (if truthy js txInfo then get txInfo "receipt" else Normal txInfo) ;;
      if truthy js receipt then
        result <- lift (get receipt "result") ;;
        let confirmed := strict_equal_string result "SUCCESS" in
        if negb confirmed && truthy js result then
          failure <- lift (ToString js result) ;;
          ret (Returned {| Settle.success := false;
                           Settle.network := network;
                           Settle.transactionHash := Some tx;
                           Settle.settledAmount := None;
                           Settle.error := Some ("Transaction failed: " ++ failure) |})
        else ret (Left confirmed)
      else confirmTRC20 client network tx budget'
  end.

Definition executeTRC20Settlement (paymentToken : JsValue) (network : string)
  : Chain SettleResponse :=
  client <- lift getTronWalletService ;;
  payload <- lift (get paymentToken "payload") ;;
  tokenAddress <- lift (get payload "tokenAddress") ;;
  if negb (truthy js tokenAddress) then
    ret {| Settle.success := false;
           Settle.network := network;
           Settle.transactionHash := None;
           Settle.settledAmount := None;
           Settle.error := Some "TRC20 token address not specified" |}
  else
  chain_try
    (_ <- call client (Contract tokenAddress) ;;
     to <- lift (get payload "to") ;;
     value <- lift (get payload "value") ;;
     tx <- call client (TransferSend to value 100000000 0) ;;
     logger_log (bind (ToString js tx) (fun s => Normal ("[TronSettlementService] Transaction submitted: " ++ s))) ;;
     exit <- confirmTRC20 client network tx maxAttempts ;;
     match exit with
     | Returned r => ret r
     | Left false =>
         ret {| Settle.success := false;
                Settle.network := network;
                Settle.transactionHash := Some tx;
                Settle.settledAmount := None;
                Settle.error := Some "Transaction confirmation timeout" |}
     | Left true =>
         logger_log (bind (ToString js tx) (fun s => Normal ("[TronSettlementService] Transaction confirmed: " ++ s))) ;;
         ret {| Settle.success := true;
                Settle.network := network;
                Settle.transactionHash := Some tx;
                Settle.settledAmount := Some value;
                Settle.error := None |}
     end)
    (fun error => lift (Throw error)).

(** The loop of [executeTRXSettlement]. *)
Fixpoint confirmTRX (client : ChainOracle) (txId : JsValue) (budget : nat) {struct budget}
  : Chain LoopExit :=
  match budget with
  | O => ret (Left false)
  | S budget' =>
      delay 2000 ;;
      txInfo <- call client (GetTransactionInfo txId) ;;
      if truthy js txInfo && has_keys txInfo then ret (Left true)
      else confirmTRX client txId budget'
  end.

Definition executeTRXSettlement (paymentToken : JsValue) (network : string)
  : Chain SettleResponse :=
  client <- lift getTronWalletService ;;
  payload <- lift (get paymentToken "payload") ;;
  chain_try
    (to <- lift (get payload "to") ;;
     value <- lift (get payload "value") ;;
     amount <- lift (parseInt js value) ;;
     tx <- call client (SendTransaction to amount) ;;
     tx_result <- lift (get tx "result") ;;
     if negb (truthy js tx_result) then
       ret {| Settle.success := false;
              Settle.network := network;
              Settle.transactionHash := None;
              Settle.settledAmount := None;
              Settle.error := Some "Transaction creation failed" |}
     else
     txid <- lift (get tx "txid") ;;
     txId <- (if truthy js txid then ret txid
              else
                transaction <- lift (get tx "transaction") ;;
                match transaction with
                | VUndefined | VNull => ret VUndefined
                | _ => lift (get transaction "txID")
                end) ;;
     logger_log (bind (ToString js txId) (fun s => Normal ("[TronSettlementService] Transaction submitted: " ++ s))) ;;
     exit <- confirmTRX client txId maxAttempts ;;
     match exit with
     | Returned r => ret r
     | Left false =>
         ret {| Settle.success := false;
                Settle.network := network;
                Settle.transactionHash := Some txId;
                Settle.settledAmount := None;
                Settle.error := Some "Transaction confirmation timeout" |}
     | Left true =>
         logger_log (bind (ToString js txId) (fun s => Normal ("[TronSettlementService] Transaction confirmed: " ++ s))) ;;
         ret {| Settle.success := true;
                Settle.network := network;
                Settle.transactionHash := Some txId;
                Settle.settledAmount := Some value;
                Settle.error := None |}
     end)
    (fun error => lift (Throw error)).

Definition settle (request : SettleRequest) : Chain SettleResponse :=
  let paymentHeader := paymentHeader request in
  let paymentRequirements := paymentRequirements request in
  if negb isTronWalletServiceAvailable then
    ret {| Settle.success := false;
           Settle.network := network paymentRequirements;
           Settle.transactionHash := None;
           Settle.settledAmount := None;
           Settle.error := Some "TRON settlement service unavailable - wallet not configured" |}
  else
  let paymentToken := parsePaymentHeader paymentHeader in
  if negb (truthy js paymentToken) then
    ret {| Settle.success := false;
           Settle.network := network paymentRequirements;
           Settle.transactionHash := None;
           Settle.settledAmount := None;
           Settle.error := Some "Invalid payment header format" |}
  else
  verification <- lift (verify js tronWeb Date_now request) ;;
  if negb (isValid verification) then
    ret {| Settle.success := false;
           Settle.network := network paymentRequirements;
           Settle.transactionHash := None;
           Settle.settledAmount := None;
           Settle.error := Some ("Verification failed: "
                                 ++ template_option (invalidReason verification)) |}
  else
  chain_try
    (token_scheme <- lift (get paymentToken "scheme") ;;
     if strict_equal_string token_scheme "tron-transfer" then
       payload <- lift (get paymentToken "payload") ;;
       tokenAddress <- lift (get payload "tokenAddress") ;;
       if truthy js tokenAddress
       then executeTRC20Settlement paymentToken (network paymentRequirements)
       else executeTRXSettlement paymentToken (network paymentRequirements)
     else
       got <- lift (ToString js token_scheme) ;;
       ret {| Settle.success := false;
              Settle.network := network paymentRequirements;
              Settle.transactionHash := None;
              Settle.settledAmount := None;
              Settle.error := Some ("Unsupported TRON payment scheme: " ++ got) |})
    (fun error =>
       ret {| Settle.success := false;
              Settle.network := network paymentRequirements;
              Settle.transactionHash := None;
              Settle.settledAmount := None;
              Settle.error := Some (error_message error "Unknown settlement error") |}).

End TronSettlementService.

(** A call that submits a transfer to the chain. *)
Definition is_submission (c : ChainCall) : bool :=
  match c with
  | TransferSend _ _ _ _ | SendTransaction _ _ => true
  | _ => false
  end.

Definition is_poll (c : ChainCall) : bool :=
  match c with
  | GetTransactionInfo _ => true
  | _ => false
  end.

(** ** Values that [JSON.stringify] and [JSON.parse] carry unchanged *)

Fixpoint distinct (keys : list string) : bool :=
  match keys with
  | [] => true
  | k :: rest => negb (existsb (String.eqb k) rest) && distinct rest
  end.

(** No [undefined] and no number inside, and no object with a repeated
    key: strings, booleans, [null], arrays and objects of such. *)
Fixpoint json_clean (v : JsValue) {struct v} : bool :=
  match v with
  | VUndefined | VNum _ => false
  | VNull | VBool _ | VStr _ => true
  | VArr l => forallb json_clean l
  | VObj fields =>
      distinct (map fst fields) && forallb (fun kv => json_clean (snd kv)) fields
  end.

Fixpoint join_tokens (separator : token) (l : list (list token)) : list token :=
  match l with
  | [] => []
  | [ts] => ts
  | ts :: rest => ts ++ separator :: join_tokens separator rest
  end.

(** The tokens of the text [JSON.stringify] writes for a clean value. *)
Fixpoint tokens_of (v : JsValue) {struct v} : list token :=
  match v with
  | VUndefined => []
  | VNull => [TNull]
  | VBool true => [TTrue]
  | VBool false => [TFalse]
  | VNum lit => [TNumber lit]
  | VStr s => [TString s]
  | VArr l => TLBracket :: join_tokens TComma (map tokens_of l) ++ [TRBracket]
  | VObj fields =>
      TLBrace
        :: join_tokens TComma
             (map (fun kv => TString (fst kv) :: TColon :: tokens_of (snd kv)) fields)
        ++ [TRBrace]
  end.

(** The text of a clean value lexes to its tokens. *)
Definition lexes_to_tokens (js : JsNumbers) (v : JsValue) : Prop :=
  exists txt, JSON_stringify js v = Some txt
    /\ forall rest, lex LTop (txt ++ rest) = option_map (app (tokens_of v)) (lex LTop rest).

(** What it means for the automaton to read the tokens of [v] where a
    value may start. *)
Definition parses_as_value (v : JsValue) : Prop :=
  forall stack x rest, x = XValue \/ x = XValueOrEnd ->
    parser_run (stack, x) (tokens_of v ++ rest)
    = match push_value v stack with
      | Some st => parser_run st rest
      | None => None
      end.

(** ** Notions the statements use *)

(** The value of [v.name] when reading it does not throw. *)
Definition property (v : JsValue) (name : string) : JsValue :=
  match v with
  | VObj fields => lookup name fields
  | _ => VUndefined
  end.

(** What a verification decides, without the echoed token. *)
Definition verdict (r : TronVerifyResponse) : bool * option string * option JsValue :=
  (isValid r, invalidReason r, payer r).

Definition map_completion {A B : Type} (f : A -> B) (c : Completion A) : Completion B :=
  match c with
  | Normal a => Normal (f a)
  | Throw e => Throw e
  end.

Definition is_hex_string (s : string) : bool :=
  forallb (fun c => match hex_digit c with Some _ => true | None => false end)
    (list_ascii_of_string s).

(** The account a hexadecimal address names: its 40 digits, lower-cased,
    after the TRON prefix [41] or the prefix [0x], or with no prefix (the
    three forms the comment in [normalizeAddress] lists). *)
Definition hex_account (address : string) : option string :=
  let s := lowercase address in
  let account (body : string) : option string :=
    if (String.length body =? 40)%nat && is_hex_string body then Some body else None in
  match s with
  | String "0"%char (String "x"%char body) => account body
  | String "4"%char (String "1"%char body) =>
      if (String.length body =? 40)%nat then account body else account s
  | _ => account s
  end.

(** ** A runtime for the examples

    The inputs of the examples hold no numeric literal and print no
    integer beyond 2^53, so the choice of [JsNumbers] does not show in
    them.  The TronWeb client knows one Base58 address, the USDT contract
    of the TRON main net, and recovers [signer] from every signature. *)
Definition example_numbers : JsNumbers :=
  {| number_to_string := fun lit => lit;
     number_is_zero := fun _ => false;
     number_to_integer := fun _ => None;
     large_integer_to_string := Z_to_string |}.

Definition example_tronWeb (signer : string) : TronWeb :=
  {| toHex := fun message => Normal message;
     address_toHex := fun address =>
       if String.eqb address "TR7NHqjeKQxGTCi8q8ZY4pL8otSzgjLj6t"
       then Normal "41a614f803b6fd780986a42c78ec9c7f77e6ded13c"
       else Throw (NonError (VStr "Invalid address provided"));
     trx_verifyMessage := fun _ _ => Normal (VStr signer) |}.

(** 2023-11-14T22:13:20Z, in milliseconds. *)
Definition example_now : Z := 1700000000000.

Definition example_requirements (scheme maxAmountRequired payTo : string)
  : PaymentRequirements :=
  {| scheme := scheme; network := "tron-shasta"; maxAmountRequired := maxAmountRequired;
     resource := "https://api.example/resource"; payTo := payTo |}.

Definition example_token (scheme value to : string) (tokenAddress : option string)
  : Token.TronPaymentToken :=
  {| Token.scheme := scheme;
     Token.network := "tron-shasta";
     Token.payload :=
       {| Token.from := "41b3dcf27c251da9363f1a4888257c16676cf54edf";
          Token.to := to;
          Token.value := value;
          Token.validAfter := "0";
          Token.validBefore := "9999999999";
          Token.nonce := "n1";
          Token.tokenAddress := tokenAddress |};
     Token.signature_of := {| Token.signature := "0xsig" |} |}.

(** The header of a typed token. *)
Definition header_of (t : Token.TronPaymentToken) : string :=
  match JSON_stringify example_numbers (Token.to_value t) with
  | Some text => base64_encode text
  | None => EmptyString
  end.

Definition with_signature (t : Token.TronPaymentToken) (signature : string)
  : Token.TronPaymentToken :=
  {| Token.scheme := Token.scheme t;
     Token.network := Token.network t;
     Token.payload := Token.payload t;
     Token.signature_of := {| Token.signature := signature |} |}.


(** ** Notions the statements on settlement use *)

(** [n] rounds of the confirmation loop that reach their poll: a delay of
    two seconds, then the status query. *)
Fixpoint poll_calls (tx : JsValue) (n : nat) : list ChainCall :=
  match n with
  | O => []
  | S n' => Delay 2000 :: GetTransactionInfo tx :: poll_calls tx n'
  end.

(** The answer to status poll number [i + 1], the [i] polls before it
    having left the loop running; [h0] holds the calls made before the
    loop. *)
Definition poll_answer (client : ChainOracle) (h0 : list ChainCall) (tx : JsValue) (i : nat)
  : Completion JsValue :=
  client (h0 ++ poll_calls tx i ++ [Delay 2000])%list (GetTransactionInfo tx).

(** [txInfo && txInfo.receipt]. *)
Definition receipt_of (js : JsNumbers) (txInfo : JsValue) : JsValue :=
  if truthy js txInfo then property txInfo "receipt" else txInfo.

(** A poll answered with no receipt: the loop goes on. *)
Definition no_receipt (js : JsNumbers) (answer : Completion JsValue) : Prop :=
  exists txInfo, answer = Normal txInfo /\ truthy js (receipt_of js txInfo) = false.

(** A poll answered with a receipt whose [result] is [result]. *)
Definition receipt_with (js : JsNumbers) (answer : Completion JsValue) (result : JsValue) : Prop :=
  exists txInfo,
    answer = Normal txInfo
    /\ truthy js (receipt_of js txInfo) = true
    /\ property (receipt_of js txInfo) "result" = result.

(** A wallet client for the examples: the contract call and both
    submissions succeed, and status poll number [i + 1] gets [answers i]. *)
Definition example_client (answers : nat -> Completion JsValue) : ChainOracle :=
  fun h c =>
    match c with
    | Contract _ => Normal (VObj [])
    | TransferSend _ _ _ _ =>
        Normal (VStr "7c2d4206c03a883dd9066d620335dc1be272a8dc733cfa3f6d10308faa37facc")
    | SendTransaction _ _ =>
        Normal (VObj [("result", VBool true);
                      ("txid", VStr "9f0b1c2d3e4f5a6b7c8d9e0f1a2b3c4d5e6f708192a3b4c5d6e7f8091a2b3c4d")])
    | GetTransactionInfo _ => answers (List.length (filter is_poll h))
    | Delay _ => Normal VUndefined
    end.

Definition receipt_answer (result : string) : Completion JsValue :=
  Normal (VObj [("id", VStr "7c2d4206c03a883dd9066d620335dc1be272a8dc733cfa3f6d10308faa37facc");
                ("receipt", VObj [("result", VStr result)])]).

(** The answer of a node that does not know the transaction yet. *)
Definition unknown_answer : Completion JsValue := Normal (VObj []).

(** ** Notions the further statements use *)

(** A string of decimal digits. *)
Definition all_digits (s : string) : bool := forallb is_digit (list_ascii_of_string s).



(** A poll whose answer is a non-empty object: the native path takes the
    transaction as confirmed. *)
Definition status_known (js : JsNumbers) (answer : Completion JsValue) : Prop :=
  exists txInfo, answer = Normal txInfo /\ truthy js txInfo && has_keys txInfo = true.

Definition status_unknown (js : JsNumbers) (answer : Completion JsValue) : Prop :=
  exists txInfo, answer = Normal txInfo /\ truthy js txInfo && has_keys txInfo = false.

(** ** [TronWalletService] ([src/services/tron-wallet-service.ts]) *)

Section TronWalletService.

Variable js : JsNumbers.

(** [this.tronWeb], the client built with the private key. *)
Variable tronWeb : TronWeb.

(** [verifySignature(message, signature, address)]. *)
Definition verifySignature (message : string) (signature address : JsValue)
  : Completion bool :=
  try_catch
    (recoveredAddress <- trx_verifyMessage tronWeb message signature ;;
     recovered <- ToString js recoveredAddress ;;
     lowered <- toLowerCase address ;;
     Normal (String.eqb (lowercase recovered) lowered))%completion
    (fun _ => Normal false).

End TronWalletService.

(** [process.env], for the two variables the services read. *)
Record ProcessEnv : Type := {
  TRON_PRIVATE_KEY : option string;
  TRON_FULL_HOST : option string
}.

(** [s || fallback] for an optional string. *)
Definition or_default (s : option string) (fallback : string) : string :=
  match s with
  | Some (String c rest) => String c rest
  | _ => fallback
  end.

(** [initializeTronWalletService(server)]: from the instance held so far
    to the completion of the call and the instance held after it.
    [new_TronWalletService] is the constructor, which builds the TronWeb
    client and derives the address, and may throw; the log does nothing
    the services see. *)
Definition initializeTronWalletService
  (new_TronWalletService : string -> string -> Completion ChainOracle)
  (env : ProcessEnv) (tronWalletServiceInstance : option ChainOracle)
  : Completion unit * option ChainOracle :=
  let privateKey := TRON_PRIVATE_KEY env in
  let fullHost := or_default (TRON_FULL_HOST env) "https://api.shasta.trongrid.io" in
  match privateKey with
  | Some (String c rest) =>
      match new_TronWalletService (String c rest) fullHost with
      | Normal instance => (Normal tt, Some instance)
      | Throw error => (Throw error, tronWalletServiceInstance)
      end
  | _ => (Normal tt, tronWalletServiceInstance)
  end.

(** ** The routes [POST /tron/verify] and [POST /tron/settle] *)

Module Api.

(** [ApiResponse<T>] as a reply carries it, with the status code of the
    reply; no reply of the two routes sets [details]. *)
Record Response (D : Type) : Type := {
  statusCode : Z;
  status : string;
  code : string;
  message : string;
  data : option D
}.

Arguments statusCode {D} _.
Arguments status {D} _.
Arguments code {D} _.
Arguments message {D} _.
Arguments data {D} _.

End Api.

(** [reply.code(statusCode).send({ status: 'error', code, message })]. *)
Definition error_reply {D : Type} (statusCode : Z) (code message : string)
  : Api.Response D :=
  {| Api.statusCode := statusCode; Api.status := "error"; Api.code := code;
     Api.message := message; Api.data := None |}.

(** [const { paymentHeader, paymentRequirements } = request.body]. *)
Definition destructure_body (body : JsValue) : Completion (JsValue * JsValue) :=
  match body with
  | VUndefined =>
      TypeError
        "Cannot destructure property 'paymentHeader' of 'request.body' as it is undefined."
  | VNull =>
      TypeError "Cannot destructure property 'paymentHeader' of 'request.body' as it is null."
  | _ => Normal (property body "paymentHeader", property body "paymentRequirements")
  end.

(** [paymentRequirements.network.startsWith(prefix)], reached with a
    truthy [network]: a method of strings only. *)
Definition network_startsWith (network : JsValue) (prefix : string) : Completion bool :=
  match network with
  | VStr s => Normal (string_startsWith prefix s)
  | VUndefined => TypeError "Cannot read properties of undefined (reading 'startsWith')"
  | VNull => TypeError "Cannot read properties of null (reading 'startsWith')"
  | _ => TypeError "paymentRequirements.network.startsWith is not a function"
  end.

(** A request body whose fields have the types [VerifyRequest] declares. *)
Definition as_string (v : JsValue) : option string :=
  match v with
  | VStr s => Some s
  | _ => None
  end.

Definition as_requirements (v : JsValue) : option PaymentRequirements :=
  match as_string (property v "scheme"), as_string (property v "network"),
        as_string (property v "maxAmountRequired"), as_string (property v "resource"),
        as_string (property v "payTo") with
  | Some scheme, Some network, Some maxAmountRequired, Some resource, Some payTo =>
      Some {| scheme := scheme; network := network; maxAmountRequired := maxAmountRequired;
              resource := resource; payTo := payTo |}
  | _, _, _, _, _ => None
  end.

Definition as_request (paymentHeader paymentRequirements : JsValue) : option VerifyRequest :=
  match as_string paymentHeader, as_requirements paymentRequirements with
  | Some header, Some requirements =>
      Some {| paymentHeader := header; paymentRequirements := requirements |}
  | _, _ => None
  end.

Section TronRoutes.

Variable js : JsNumbers.
Variable tronWeb : TronWeb.
Variable Date_now : Z.
Variable tronWalletServiceInstance : option ChainOracle.

(** What the two services do with a request that has not the declared
    type (a header that is no string, a requirement that is no string):
    the engine is modelled on typed requests, and the routes are proved
    for every behaviour outside them. *)
Variable untyped_verify : JsValue -> JsValue -> Completion TronVerifyResponse.
Variable untyped_settle : JsValue -> JsValue -> Chain SettleResponse.

(** [getTronX402Service().verify({ paymentHeader, paymentRequirements })]. *)
Definition tronX402Service_verify (paymentHeader paymentRequirements : JsValue)
  : Completion TronVerifyResponse :=
  match as_request paymentHeader paymentRequirements with
  | Some request => verify js tronWeb Date_now request
  | None => untyped_verify paymentHeader paymentRequirements
  end.

(** [getTronSettlementService().settle({ paymentHeader, paymentRequirements })]. *)
Definition tronSettlementService_settle (paymentHeader paymentRequirements : JsValue)
  : Chain SettleResponse :=
  match as_request paymentHeader paymentRequirements with
  | Some request => settle js tronWeb Date_now tronWalletServiceInstance request
  | None => untyped_settle paymentHeader paymentRequirements
  end.

(** The handler of [POST /tron/verify] on [request.body].  The two
    operands of [!scheme || !network] are property reads of a truthy
    value, which have no effect, so both are read at once. *)
Definition tronVerifyPost (body : JsValue) : Completion (Api.Response TronVerifyResponse) :=
  (fields <- destructure_body body ;;
   let '(paymentHeader, paymentRequirements) := fields in
   if negb (truthy js paymentHeader) then
     Normal (error_reply 400 "MISSING_PAYMENT_HEADER" "paymentHeader is required")
   else
   if negb (truthy js paymentRequirements) then
     Normal (error_reply 400 "MISSING_REQUIREMENTS" "paymentRequirements is required")
   else
   requirements_scheme <- get paymentRequirements "scheme" ;;
   requirements_network <- get paymentRequirements "network" ;;
   if negb (truthy js requirements_scheme) || negb (truthy js requirements_network) then
     Normal (error_reply 400 "INVALID_REQUIREMENTS"
               "scheme and network are required in paymentRequirements")
   else
   tron <- network_startsWith requirements_network "tron-" ;;
   if negb tron then
     Normal (error_reply 400 "INVALID_NETWORK"
               "This endpoint only supports TRON networks (tron-mainnet, tron-shasta, tron-nile)")
   else
   try_catch
     (result <- tronX402Service_verify paymentHeader paymentRequirements ;;
      if isValid result then
        Normal {| Api.statusCode := 200;
                  Api.status := "success";
                  Api.code := "TRON_PAYMENT_VALID";
                  Api.message :=
                    "TRON payment signature and requirements verified successfully";
                  Api.data := Some result |}
      else
        Normal {| Api.statusCode := 400;
                  Api.status := "error";
                  Api.code := "TRON_PAYMENT_INVALID";
                  Api.message :=
                    or_default (invalidReason result) "TRON payment verification failed";
                  Api.data := Some result |})
     (fun error =>
        Normal (error_reply 500 "TRON_VERIFICATION_ERROR"
                  (error_message error "Unknown verification error"))))%completion.

Local Open Scope chain_scope.

(** The handler of [POST /tron/settle]. *)
Definition tronSettlePost (body : JsValue) : Chain (Api.Response SettleResponse) :=
  fields <- lift (destructure_body body) ;;
  let '(paymentHeader, paymentRequirements) := fields in
  if negb (truthy js paymentHeader) then
    ret (error_reply 400 "MISSING_PAYMENT_HEADER" "paymentHeader is required")
  else
  if negb (truthy js paymentRequirements) then
    ret (error_reply 400 "MISSING_REQUIREMENTS" "paymentRequirements is required")
  else
  requirements_scheme <- lift (get paymentRequirements "scheme") ;;
  requirements_network <- lift (get paymentRequirements "network") ;;
  requirements_payTo <- lift (get paymentRequirements "payTo") ;;
  if negb (truthy js requirements_scheme) || negb (truthy js requirements_network)
     || negb (truthy js requirements_payTo) then
    ret (error_reply 400 "INVALID_REQUIREMENTS"
           "scheme, network, and payTo are required in paymentRequirements")
  else
  tron <- lift (network_startsWith requirements_network "tron-") ;;
  if negb tron then
    ret (error_reply 400 "INVALID_NETWORK"
           "This endpoint only supports TRON networks (tron-mainnet, tron-shasta, tron-nile)")
  else
  if negb (isTronWalletServiceAvailable tronWalletServiceInstance) then
    ret (error_reply 503 "TRON_SETTLEMENT_UNAVAILABLE"
           "TRON settlement service is not available - facilitator wallet not configured")
  else
  chain_try
    (result <- tronSettlementService_settle paymentHeader paymentRequirements ;;
     if Settle.success result then
       ret {| Api.statusCode := 200;
              Api.status := "success";
              Api.code := "TRON_SETTLEMENT_EXECUTED";
              Api.message := "TRON payment settled successfully on-chain";
              Api.data := Some result |}
     else
       ret {| Api.statusCode := 400;
              Api.status := "error";
              Api.code := "TRON_SETTLEMENT_FAILED";
              Api.message :=
                or_default (Settle.error result) "TRON settlement execution failed";
              Api.data := Some result |})
    (fun error =>
       ret (error_reply 500 "TRON_SETTLEMENT_ERROR"
              (error_message error "Unknown settlement error"))).

End TronRoutes.

(** ** The tables of [GET /supported] ([src/api/routes/supported.ts]) *)

Module Supported.

Record PaymentScheme : Type := {
  scheme : string;
  network : string;
  chainId : Z;
  token : string;
  tokenAddress : option string;
  description : string
}.

Record NetworkInfo : Type := {
  name : string;
  network_chainId : Z;
  rpcUrl : string;
  explorerUrl : string
}.

Record TokenInfo : Type := {
  symbol : string;
  token_name : string;
  address : option string;
  decimals : Z;
  token_network : string
}.

Definition CRONOS_SCHEMES : list PaymentScheme :=
  [ {| scheme := "exact"; network := "cronos-testnet"; chainId := 338; token := "TCRO";
       tokenAddress := None; description := "Exact amount payment with native TCRO" |};
    {| scheme := "exact"; network := "cronos-mainnet"; chainId := 25; token := "CRO";
       tokenAddress := None; description := "Exact amount payment with native CRO" |};
    {| scheme := "eip-3009"; network := "cronos-testnet"; chainId := 338; token := "USDC";
       tokenAddress := Some "0x5425890298aed601595a70AB815c96711a31Bc65";
       description := "EIP-3009 transferWithAuthorization for USDC" |} ].

Definition TRON_SCHEMES : list PaymentScheme :=
  [ {| scheme := "tron-transfer"; network := "tron-mainnet"; chainId := 728126428;
       token := "TRX"; tokenAddress := None;
       description := "Native TRX transfer on TRON mainnet" |};
    {| scheme := "tron-transfer"; network := "tron-shasta"; chainId := 2494104990;
       token := "TRX"; tokenAddress := None;
       description := "Native TRX transfer on TRON Shasta testnet" |};
    {| scheme := "tron-transfer"; network := "tron-nile"; chainId := 3448148188;
       token := "TRX"; tokenAddress := None;
       description := "Native TRX transfer on TRON Nile testnet" |};
    {| scheme := "tron-transfer"; network := "tron-mainnet"; chainId := 728126428;
       token := "USDT"; tokenAddress := Some "TR7NHqjeKQxGTCi8q8ZY4pL8otSzgjLj6t";
       description := "TRC20 USDT transfer on TRON mainnet" |};
    {| scheme := "tron-transfer"; network := "tron-shasta"; chainId := 2494104990;
       token := "USDT"; tokenAddress := Some "TG3XXyExBkPp9nzdajDZsozEu4BkaSJozs";
       description := "TRC20 USDT transfer on TRON Shasta testnet" |} ].

Definition SUPPORTED_SCHEMES : list PaymentScheme := CRONOS_SCHEMES ++ TRON_SCHEMES.

Definition SUPPORTED_NETWORKS : list NetworkInfo :=
  [ {| name := "Cronos Testnet"; network_chainId := 338;
       rpcUrl := "https://evm-t3.cronos.org";
       explorerUrl := "https://explorer.cronos.org/testnet" |};
    {| name := "Cronos Mainnet"; network_chainId := 25;
       rpcUrl := "https://evm.cronos.org"; explorerUrl := "https://explorer.cronos.org" |};
    {| name := "TRON Mainnet"; network_chainId := 728126428;
       rpcUrl := "https://api.trongrid.io"; explorerUrl := "https://tronscan.org" |};
    {| name := "TRON Shasta Testnet"; network_chainId := 2494104990;
       rpcUrl := "https://api.shasta.trongrid.io";
       explorerUrl := "https://shasta.tronscan.org" |};
    {| name := "TRON Nile Testnet"; network_chainId := 3448148188;
       rpcUrl := "https://nile.trongrid.io"; explorerUrl := "https://nile.tronscan.org" |} ].

Definition SUPPORTED_TOKENS : list TokenInfo :=
  [ {| symbol := "TCRO"; token_name := "Testnet CRO"; address := None; decimals := 18;
       token_network := "cronos-testnet" |};
    {| symbol := "CRO"; token_name := "Cronos"; address := None; decimals := 18;
       token_network := "cronos-mainnet" |};
    {| symbol := "USDC"; token_name := "USD Coin";
       address := Some "0x5425890298aed601595a70AB815c96711a31Bc65"; decimals := 6;
       token_network := "cronos-testnet" |};
    {| symbol := "TRX"; token_name := "TRON"; address := None; decimals := 6;
       token_network := "tron-mainnet" |};
    {| symbol := "TRX"; token_name := "TRON (Shasta)"; address := None; decimals := 6;
       token_network := "tron-shasta" |};
    {| symbol := "TRX"; token_name := "TRON (Nile)"; address := None; decimals := 6;
       token_network := "tron-nile" |};
    {| symbol := "USDT"; token_name := "Tether USD";
       address := Some "TR7NHqjeKQxGTCi8q8ZY4pL8otSzgjLj6t"; decimals := 6;
       token_network := "tron-mainnet" |};
    {| symbol := "USDT"; token_name := "Tether USD (Shasta)";
       address := Some "TG3XXyExBkPp9nzdajDZsozEu4BkaSJozs"; decimals := 6;
       token_network := "tron-shasta" |} ].

(** The entry of [SUPPORTED_TOKENS] a scheme refers to: the token of
    that symbol and address on that network. *)
Definition names_token (s : PaymentScheme) (t : TokenInfo) : bool :=
  String.eqb (token s) (symbol t) && String.eqb (network s) (token_network t)
  && match tokenAddress s, address t with
     | Some a, Some b => String.eqb a b
     | None, None => true
     | _, _ => false
     end.

Definition on_network (s : PaymentScheme) (n : NetworkInfo) : bool :=
  Z.eqb (chainId s) (network_chainId n).

End Supported.

(** ** Notions the statements on the calls of a settlement use *)

(** A result that reports a failure: no settled amount, and an error. *)
Definition failure (r : SettleResponse) : Prop :=
  Settle.success r = false
  /\ Settle.settledAmount r = None
  /\ exists message, Settle.error r = Some message.

(** The calls the contract path adds to the chain: none, the calls up to
    a failure before the submission, or one submission and the status
    polls that follow it. *)
Inductive contract_calls (T : JsValue) : list ChainCall -> Prop :=
| contract_none : contract_calls T []
| contract_only :
    contract_calls T [Contract (property (property T "payload") "tokenAddress")]
| contract_transfer (tx : JsValue) (n : nat) :
    n <= 30 ->
    contract_calls T
      (Contract (property (property T "payload") "tokenAddress")
       :: TransferSend (property (property T "payload") "to")
            (property (property T "payload") "value") 100000000 0
       :: poll_calls tx n).

(** The calls the native path adds: none, or one submission and the
    status polls that follow it. *)
Inductive native_calls (js : JsNumbers) (T : JsValue) : list ChainCall -> Prop :=
| native_none : native_calls js T []
| native_transfer (amount : JsDouble) (tx : JsValue) (n : nat) :
    n <= 30 ->
    parseInt js (property (property T "payload") "value") = Normal amount ->
    native_calls js T
      (SendTransaction (property (property T "payload") "to") amount :: poll_calls tx n).

(** The calls of one settlement, by the path the payload selects. *)
Definition settlement_calls (js : JsNumbers) (T : JsValue) (new : list ChainCall) : Prop :=
  if truthy js (property (property T "payload") "tokenAddress")
  then contract_calls T new
  else native_calls js T new.

(** What a result says of the calls [new] made for it: a success names
    the amount of the token and, as [transactionHash], the identifier
    whose status was polled (whatever the submission gave for it,
    [undefined] included); a failure has an error and no settled
    amount. *)
Definition result_reports (js : JsNumbers) (T : JsValue) (new : list ChainCall)
  (r : SettleResponse) : Prop :=
  if Settle.success r then
    Settle.settledAmount r = Some (property (property T "payload") "value")
    /\ Settle.error r = None
    /\ (exists tx, Settle.transactionHash r = Some tx /\ In (GetTransactionInfo tx) new)
    /\ exists c, In c new /\ is_submission c = true
  else
    Settle.settledAmount r = None /\ exists message, Settle.error r = Some message.

(** What holds of a run of [settle] on [request] from the calls [h]: the
    calls it adds, what its result says of them, and where it can throw. *)
Definition settle_outcome (js : JsNumbers) (tronWeb : TronWeb) (now : Z)
  (request : SettleRequest) (h : list ChainCall)
  (run : Completion SettleResponse * list ChainCall) : Prop :=
  let T := parsePaymentHeader (paymentHeader request) in
  exists new,
    snd run = (h ++ new)%list
    /\ settlement_calls js T new
    /\ (forall r, fst run = Normal r -> result_reports js T new r)
    /\ (forall e, fst run = Throw e ->
          verify js tronWeb now request = Throw e /\ new = [])
    /\ (new <> [] ->
          strict_equal_string (property T "scheme") "tron-transfer" = true
          /\ exists r, verify js tronWeb now request = Normal r /\ isValid r = true).

(** A request to settle 1000 units of the Shasta USDT contract, and one to
    settle 1000 sun. *)
Definition example_contract_request : SettleRequest :=
  {| paymentHeader :=
       header_of (example_token "tron-transfer" "1000"
                    "41a614f803b6fd780986a42c78ec9c7f77e6ded13c"
                    (Some "TG3XXyExBkPp9nzdajDZsozEu4BkaSJozs"));
     paymentRequirements :=
       example_requirements "tron-transfer" "1000"
         "41a614f803b6fd780986a42c78ec9c7f77e6ded13c" |}.

Definition example_native_request : SettleRequest :=
  {| paymentHeader :=
       header_of (example_token "tron-transfer" "1000"
                    "41a614f803b6fd780986a42c78ec9c7f77e6ded13c" None);
     paymentRequirements :=
       example_requirements "tron-transfer" "1000"
         "41a614f803b6fd780986a42c78ec9c7f77e6ded13c" |}.

(** A client whose broadcast answer is [{result: true}], with no [txid]
    and no [transaction], and whose node knows every transaction. *)
Definition client_without_txid : ChainOracle :=
  fun _ c =>
    match c with
    | SendTransaction _ _ => Normal (VObj [("result", VBool true)])
    | GetTransactionInfo _ => receipt_answer "SUCCESS"
    | _ => Normal (VObj [])
    end.

(** ** Notions the statements on the signed message use *)

(** The part of the signed message that follows the nonce: the token
    address, when the payload has a non-empty one. *)
Definition address_part (p : Token.TronTransferPayload) : string :=
  match Token.tokenAddress p with
  | Some (String c a) => "|" ++ String c a
  | _ => EmptyString
  end.

(** The text [buildSignatureMessage] joins for a typed payload. *)
Definition signed_message (p : Token.TronTransferPayload) : string :=
  Token.from p ++ "|" ++ Token.to p ++ "|" ++ Token.value p ++ "|"
  ++ Token.validAfter p ++ "|" ++ Token.validBefore p ++ "|" ++ Token.nonce p
  ++ address_part p.

(** No ['|'] in [s]. *)
Definition delimiter_free (s : string) : bool :=
  forallb (fun c => negb (Ascii.eqb c "|")) (list_ascii_of_string s).

(** [p] with the token address moved to the end of the nonce. *)
Definition address_in_nonce (p : Token.TronTransferPayload) (a : string)
  : Token.TronTransferPayload :=
  {| Token.from := Token.from p;
     Token.to := Token.to p;
     Token.value := Token.value p;
     Token.validAfter := Token.validAfter p;
     Token.validBefore := Token.validBefore p;
     Token.nonce := Token.nonce p ++ "|" ++ a;
     Token.tokenAddress := None |}.

(** The token address a payload has for the engine: an empty one counts
    as none. *)
Definition effective_tokenAddress (p : Token.TronTransferPayload) : option string :=
  match Token.tokenAddress p with
  | Some (String c a) => Some (String c a)
  | _ => None
  end.


(** ** Notions the statements on the routes use *)

(** The JSON body of a typed request. *)
Definition requirements_value (R : PaymentRequirements) : JsValue :=
  VObj [("scheme", VStr (scheme R)); ("network", VStr (network R));
        ("maxAmountRequired", VStr (maxAmountRequired R)); ("resource", VStr (resource R));
        ("payTo", VStr (payTo R))].

Definition request_body (request : VerifyRequest) : JsValue :=
  VObj [("paymentHeader", VStr (paymentHeader request));
        ("paymentRequirements", requirements_value (paymentRequirements request))].

(** A typed request that passes the checks [POST /tron/verify] makes
    before it calls the service. *)
Definition passes_verify_checks (request : VerifyRequest) : bool :=
  negb (String.eqb (paymentHeader request) EmptyString)
  && negb (String.eqb (scheme (paymentRequirements request)) EmptyString)
  && string_startsWith "tron-" (network (paymentRequirements request)).

(** The same for [POST /tron/settle], which asks for [payTo] as well. *)
Definition passes_settle_checks (request : SettleRequest) : bool :=
  passes_verify_checks request
  && negb (String.eqb (payTo (paymentRequirements request)) EmptyString).

(** A service that rejects what is not typed, for the examples. *)
Definition example_untyped_verify (paymentHeader paymentRequirements : JsValue)
  : Completion TronVerifyResponse :=
  TypeError "The first argument must be of type string".

Definition example_untyped_settle (paymentHeader paymentRequirements : JsValue)
  : Chain SettleResponse :=
  lift (TypeError "The first argument must be of type string").

(** The result of [verify] on the request to settle 1000 sun, and the
    reply [POST /tron/verify] gives to it. *)
Definition example_valid_result : TronVerifyResponse :=
  {| isValid := true; invalidReason := None;
     payer := Some (VStr "41b3dcf27c251da9363f1a4888257c16676cf54edf");
     paymentToken :=
       Some (Token.to_value
               (example_token "tron-transfer" "1000"
                  "41a614f803b6fd780986a42c78ec9c7f77e6ded13c" None)) |}.

Definition example_valid_reply : Api.Response TronVerifyResponse :=
  {| Api.statusCode := 200;
     Api.status := "success";
     Api.code := "TRON_PAYMENT_VALID";
     Api.message := "TRON payment signature and requirements verified successfully";
     Api.data := Some example_valid_result |}.

(** ** Notions the statement on repeated settlement uses *)

(** A client that answers a call alike whatever was called before. *)
Definition history_blind (client : ChainOracle) : Prop :=
  forall h h' c, client h c = client h' c.

(** A computation that goes the same way from any history: it completes
    as it does from none, and adds the calls it adds to none. *)
Definition uniform {A : Type} (m : Chain A) : Prop :=
  forall h, m h = (fst (m []), (h ++ snd (m []))%list).

(** A client that confirms every transfer at the first poll. *)
Definition confirming_client : ChainOracle :=
  fun _ c =>
    match c with
    | Contract _ => Normal (VObj [])
    | TransferSend _ _ _ _ =>
        Normal (VStr "7c2d4206c03a883dd9066d620335dc1be272a8dc733cfa3f6d10308faa37facc")
    | SendTransaction _ _ =>
        Normal (VObj [("result", VBool true);
                      ("txid", VStr "9f0b1c2d3e4f5a6b7c8d9e0f1a2b3c4d5e6f708192a3b4c5d6e7f8091a2b3c4d")])
    | GetTransactionInfo _ => receipt_answer "SUCCESS"
    | Delay _ => Normal VUndefined
    end.

(* ================================================================== *)
(** * Part II. Lemmas and theorems                                     *)
(* ================================================================== *)

(** ** Base64 *)

Lemma unbase64_base64_char (x : sextet) : unbase64 (base64_char x) = Some x.
Proof. destruct x as [[] [] [] [] [] []]; reflexivity. Qed.

Lemma base64_char_not_pad (x : sextet) : Ascii.eqb (base64_char x) base64_pad = false.
Proof. destruct x as [[] [] [] [] [] []]; reflexivity. Qed.

Lemma bytes_of_sextets_group (a b c : ascii) (l : list sextet) :
  bytes_of_sextets (sextet_1 a :: sextet_2 a b :: sextet_3 b c :: sextet_4 c :: l)
  = String a (String b (String c (bytes_of_sextets l))).
Proof. destruct a, b, c; reflexivity. Qed.

Lemma base64_sextets_char (x : sextet) (s : string) :
  base64_sextets (String (base64_char x) s) = x :: base64_sextets s.
Proof.
  cbn [base64_sextets]. now rewrite base64_char_not_pad, unbase64_base64_char.
Qed.

(** A string of characters up to U+007F is its own sequence of low
    bytes. *)
Lemma low_bytes_ascii (s : string) : ascii_text s = true -> low_bytes s = s.
Proof.
  unfold low_bytes. induction s as [|c s IH]; [reflexivity|].
  cbn [ascii_text code_units]. intros H. apply andb_true_iff in H as [Hc Hs].
  rewrite Hc. cbn [map string_of_list_ascii]. rewrite (IH Hs). f_equal.
  apply N.ltb_lt in Hc. rewrite N.mod_small by lia. apply ascii_N_embedding.
Qed.

Lemma base64_char_ascii (x : sextet) : (N_of_ascii (base64_char x) <? 128)%N = true.
Proof. destruct x as [[] [] [] [] [] []]; reflexivity. Qed.

Lemma base64_encode_ascii_steps (s : string) :
  ascii_text (base64_encode s) = true
  /\ (forall a, ascii_text (base64_encode (String a s)) = true)
  /\ (forall a b, ascii_text (base64_encode (String a (String b s))) = true).
Proof.
  induction s as [|c s IH].
  - repeat split.
    + intros a. cbn [base64_encode ascii_text]. now rewrite !base64_char_ascii.
    + intros a b. cbn [base64_encode ascii_text]. now rewrite !base64_char_ascii.
  - destruct IH as (IH0 & IH1 & IH2). repeat split.
    + apply IH1.
    + intros a. apply IH2.
    + intros a b. cbn [base64_encode ascii_text]. now rewrite !base64_char_ascii, IH0.
Qed.

Lemma base64_encode_ascii (s : string) : ascii_text (base64_encode s) = true.
Proof. apply base64_encode_ascii_steps. Qed.

Lemma base64_sextets_encode_steps (s : string) :
  bytes_of_sextets (base64_sextets (base64_encode s)) = s
  /\ (forall a, bytes_of_sextets (base64_sextets (base64_encode (String a s))) = String a s)
  /\ (forall a b, bytes_of_sextets (base64_sextets (base64_encode (String a (String b s))))
                  = String a (String b s)).
Proof.
  induction s as [|c s IH].
  - repeat split.
    + intros a. cbn [base64_encode].
      rewrite !base64_sextets_char. destruct a; reflexivity.
    + intros a b. cbn [base64_encode].
      rewrite !base64_sextets_char. destruct a, b; reflexivity.
  - destruct IH as (IH0 & IH1 & IH2). repeat split.
    + apply IH1.
    + intros a. apply IH2.
    + intros a b. cbn [base64_encode].
      rewrite !base64_sextets_char, bytes_of_sextets_group. now rewrite IH0.
Qed.

Lemma base64_decode_encode (s : string) : base64_decode (base64_encode s) = s.
Proof.
  unfold base64_decode. rewrite (low_bytes_ascii _ (base64_encode_ascii s)).
  apply base64_sextets_encode_steps.
Qed.

Example base64_decode_e30 : base64_decode "e30=" = "{}".
Proof. reflexivity. Qed.

Example base64_decode_lenient : base64_decode " e3 !0" = "{}".
Proof. reflexivity. Qed.

(** U+0141 is read as [A], U+00E9 is skipped. *)
Example base64_decode_low_byte :
  base64_decode (String "101" (String "197" (String "129" "30="))) = base64_decode "eA30="
  /\ base64_decode (String "101" (String "195" (String "169" "30="))) = "{}".
Proof. split; reflexivity. Qed.

(** ** Induction on values *)

Lemma JsValue_rect' (P : JsValue -> Type) (Q : list JsValue -> Type)
  (R : list (string * JsValue) -> Type)
  (Hundefined : P VUndefined) (Hnull : P VNull)
  (Hbool : forall b, P (VBool b)) (Hnum : forall lit, P (VNum lit))
  (Hstr : forall s, P (VStr s))
  (Harr : forall l, Q l -> P (VArr l))
  (Hobj : forall fields, R fields -> P (VObj fields))
  (Qnil : Q []) (Qcons : forall v l, P v -> Q l -> Q (v :: l))
  (Rnil : R []) (Rcons : forall k v fields, P v -> R fields -> R ((k, v) :: fields)) :
  forall v, P v.
Proof.
  fix IH 1. intros [ | | b | lit | s | l | fields ].
  - exact Hundefined.
  - exact Hnull.
  - apply Hbool.
  - apply Hnum.
  - apply Hstr.
  - apply Harr. induction l as [|v l IHl]; [exact Qnil | apply Qcons; [apply IH | exact IHl]].
  - apply Hobj. induction fields as [|[k v] fields IHf];
      [exact Rnil | apply Rcons; [apply IH | exact IHf]].
Defined.

Lemma JsValue_ind' (P : JsValue -> Prop)
  (Hundefined : P VUndefined) (Hnull : P VNull)
  (Hbool : forall b, P (VBool b)) (Hnum : forall lit, P (VNum lit))
  (Hstr : forall s, P (VStr s))
  (Harr : forall l, Forall P l -> P (VArr l))
  (Hobj : forall fields, Forall (fun kv => P (snd kv)) fields -> P (VObj fields)) :
  forall v, P v.
Proof.
  apply (JsValue_rect' P (Forall P) (Forall (fun kv => P (snd kv)))); auto.
Qed.

(** ** [JSON.parse] after [JSON.stringify] *)

Lemma string_app_nil_r (s : string) : s ++ "" = s.
Proof. induction s as [|c s IH]; simpl; [reflexivity | now rewrite IH]. Qed.

Lemma string_app_assoc (a b c : string) : (a ++ b) ++ c = a ++ (b ++ c).
Proof. induction a as [|x a IH]; simpl; [reflexivity | now rewrite IH]. Qed.

Lemma emit_some (t : token) (r : option (list token)) :
  emit (Some t) r = option_map (cons t) r.
Proof. now destruct r. Qed.

Lemma option_map_app_nil (r : option (list token)) : option_map (app []) r = r.
Proof. now destruct r. Qed.

Lemma option_map_app_cons (a b : list token) (t : token) (r : option (list token)) :
  option_map (app a) (option_map (cons t) (option_map (app b) r))
  = option_map (app (a ++ t :: b)) r.
Proof. destruct r; simpl; [now rewrite <- app_assoc | reflexivity]. Qed.

Lemma lex_escape_char (c : ascii) (acc tail : string) :
  lex (LString acc None) (json_escape_char c ++ tail)
  = lex (LString (acc ++ String c "") None) tail.
Proof. destruct c as [[] [] [] [] [] [] [] []]; reflexivity. Qed.

Lemma lex_string_body (s : string) : forall acc rest,
  lex (LString acc None) (json_escape s ++ String dquote rest)
  = option_map (cons (TString (acc ++ s))) (lex LTop rest).
Proof.
  induction s as [|c s IH]; intros acc rest.
  - cbn. rewrite string_app_nil_r. now destruct (lex LTop rest).
  - cbn [json_escape]. rewrite string_app_assoc, lex_escape_char, IH.
    now rewrite string_app_assoc.
Qed.

Lemma lex_quote (s rest : string) :
  lex LTop (json_quote s ++ rest) = option_map (cons (TString s)) (lex LTop rest).
Proof.
  unfold json_quote. cbn [append lex lex_top dquote emit].
  rewrite string_app_assoc. cbn [append].
  change (String "034" rest) with (String dquote rest).
  rewrite (lex_string_body s "" rest). now destruct (lex LTop rest).
Qed.

Lemma lex_punctuation (c : ascii) (t : token) (rest : string) :
  lex_top c = Some (Some t, LTop) ->
  lex LTop (String c EmptyString ++ rest) = option_map (cons t) (lex LTop rest).
Proof. intros H. cbn [append lex]. rewrite H. apply emit_some. Qed.

Lemma lex_comma (rest : string) :
  lex LTop ("," ++ rest) = option_map (cons TComma) (lex LTop rest).
Proof. now apply lex_punctuation. Qed.

Lemma lex_join {A : Type} (f : A -> string) (tk : A -> list token) (l : list A) :
  Forall (fun a => forall rest,
            lex LTop (f a ++ rest) = option_map (app (tk a)) (lex LTop rest)) l ->
  forall rest,
    lex LTop (join_strings "," (map f l) ++ rest)
    = option_map (app (join_tokens TComma (map tk l))) (lex LTop rest).
Proof.
  induction 1 as [|a l Ha Hl IH]; intros rest.
  - cbn. now rewrite option_map_app_nil.
  - destruct l as [|b l].
    + cbn. apply Ha.
    + change (join_strings "," (map f (a :: b :: l)))
        with (f a ++ "," ++ join_strings "," (map f (b :: l))).
      change (join_tokens TComma (map tk (a :: b :: l)))
        with (tk a ++ TComma :: join_tokens TComma (map tk (b :: l)))%list.
      rewrite !string_app_assoc, Ha, lex_comma, IH.
      apply option_map_app_cons.
Qed.

Lemma stringify_fields_clean (js : JsNumbers) (fields : list (string * JsValue)) :
  Forall (fun kv => json_clean (snd kv) = true -> lexes_to_tokens js (snd kv)) fields ->
  forallb (fun kv => json_clean (snd kv)) fields = true ->
  flat_map (fun kv => match JSON_stringify js (snd kv) with
                      | Some t => [json_quote (fst kv) ++ ":" ++ t]
                      | None => []
                      end) fields
  = map (fun kv => json_quote (fst kv) ++ ":"
                   ++ match JSON_stringify js (snd kv) with
                      | Some t => t
                      | None => "null"
                      end) fields.
Proof.
  induction 1 as [|[k v] fields Hv _ IH]; intros Hclean; [reflexivity|].
  cbn in Hclean. apply andb_true_iff in Hclean as [Hc Hrest].
  cbn [flat_map map fst snd] in *. rewrite (IH Hrest).
  destruct (Hv Hc) as (txt & Htxt & _). now rewrite Htxt.
Qed.

Lemma option_map_bracket (open close : token) (ts : list token) (r : option (list token)) :
  option_map (cons open) (option_map (app ts) (option_map (cons close) r))
  = option_map (app (open :: ts ++ [close])) r.
Proof. destruct r; cbn; [now rewrite <- app_assoc | reflexivity]. Qed.

Lemma lex_stringify (js : JsNumbers) (v : JsValue) :
  json_clean v = true -> lexes_to_tokens js v.
Proof.
  induction v as [ | | b | lit | s | l IH | fields IH ] using JsValue_ind';
    intros Hclean; try discriminate.
  - exists "null". split; [reflexivity|]. intros rest. cbn. now destruct (lex LTop rest).
  - destruct b; eexists; (split; [reflexivity|]); intros rest; cbn;
      now destruct (lex LTop rest).
  - exists (json_quote s). split; [reflexivity|]. intros rest. apply lex_quote.
  - exists ("[" ++ join_strings ","
                     (map (fun e => match JSON_stringify js e with
                                    | Some t => t
                                    | None => "null"
                                    end) l) ++ "]").
    split; [reflexivity|]. intros rest.
    cbn [json_clean] in Hclean.
    assert (Hl : Forall (fun e => forall rest,
                lex LTop (match JSON_stringify js e with Some t => t | None => "null" end ++ rest)
                = option_map (app (tokens_of e)) (lex LTop rest)) l).
    { rewrite forallb_forall in Hclean. rewrite Forall_forall in IH |- *.
      intros e He. destruct (IH e He (Hclean e He)) as (txt & -> & Hlex). exact Hlex. }
    rewrite !string_app_assoc, (lex_punctuation "[" TLBracket) by reflexivity.
    rewrite (lex_join _ _ l Hl), (lex_punctuation "]" TRBracket) by reflexivity.
    apply option_map_bracket.
  - exists ("{" ++ join_strings ","
                     (flat_map (fun kv => match JSON_stringify js (snd kv) with
                                          | Some t => [json_quote (fst kv) ++ ":" ++ t]
                                          | None => []
                                          end) fields) ++ "}").
    split; [reflexivity|]. intros rest.
    cbn [json_clean] in Hclean. apply andb_true_iff in Hclean as [_ Hclean].
    rewrite (stringify_fields_clean js fields IH Hclean).
    assert (Hl : Forall (fun kv => forall rest,
                lex LTop ((json_quote (fst kv) ++ ":"
                           ++ match JSON_stringify js (snd kv) with
                              | Some t => t | None => "null" end) ++ rest)
                = option_map (app (TString (fst kv) :: TColon :: tokens_of (snd kv)))
                    (lex LTop rest)) fields).
    { rewrite forallb_forall in Hclean. rewrite Forall_forall in IH |- *.
      intros kv Hkv rest'. destruct (IH kv Hkv (Hclean kv Hkv)) as (txt & -> & Hlex).
      rewrite !string_app_assoc, lex_quote, (lex_punctuation ":" TColon) by reflexivity.
      rewrite Hlex. now destruct (lex LTop rest'). }
    rewrite !string_app_assoc, (lex_punctuation "{" TLBrace) by reflexivity.
    rewrite (lex_join _ _ fields Hl), (lex_punctuation "}" TRBrace) by reflexivity.
    apply option_map_bracket.
Qed.

Lemma obj_set_fresh (k : string) (v : JsValue) (fields : list (string * JsValue)) :
  existsb (String.eqb k) (map fst fields) = false ->
  obj_set k v fields = (fields ++ [(k, v)])%list.
Proof.
  induction fields as [|[k' v'] fields IH]; cbn; [reflexivity|].
  intros H. apply orb_false_iff in H as [Hk Hrest].
  rewrite String.eqb_sym, Hk. now rewrite IH.
Qed.

Lemma distinct_app_cons (done : list string) (k : string) (rest : list string) :
  distinct (done ++ k :: rest) = true ->
  existsb (String.eqb k) done = false /\ distinct ((done ++ [k]) ++ rest) = true.
Proof.
  rewrite <- app_assoc. cbn [app]. intros H. split; [|exact H].
  induction done as [|d done IH]; [reflexivity|].
  cbn in H |- *. apply andb_true_iff in H as [Hd Hrest].
  rewrite (IH Hrest), orb_false_r.
  apply negb_true_iff in Hd. rewrite existsb_app in Hd.
  apply orb_false_iff in Hd as [_ Hd]. cbn in Hd.
  apply orb_false_iff in Hd as [Hd _]. now rewrite String.eqb_sym.
Qed.

Lemma parser_elements (l : list JsValue) :
  Forall parses_as_value l -> l <> [] ->
  forall acc x stack rest, x = XValue \/ x = XValueOrEnd ->
    parser_run (FArr acc :: stack, x)
      (join_tokens TComma (map tokens_of l) ++ TRBracket :: rest)
    = match push_value (VArr (rev acc ++ l)) stack with
      | Some st => parser_run st rest
      | None => None
      end.
Proof.
  induction 1 as [|e l He Hl IH]; intros Hne acc x stack rest Hx; [congruence|].
  destruct l as [|e' l].
  - cbn [map join_tokens]. rewrite (He _ _ _ Hx). cbn. reflexivity.
  - change (join_tokens TComma (map tokens_of (e :: e' :: l)))
      with (tokens_of e ++ TComma :: join_tokens TComma (map tokens_of (e' :: l)))%list.
    rewrite <- app_assoc, (He _ _ _ Hx). cbn [push_value app parser_run parser_step].
    rewrite (IH ltac:(discriminate) (e :: acc) XValue stack rest (or_introl eq_refl)).
    cbn [rev]. now rewrite <- app_assoc.
Qed.

Lemma parser_fields (fields : list (string * JsValue)) :
  Forall (fun kv => parses_as_value (snd kv)) fields -> fields <> [] ->
  forall done x stack rest, x = XKey \/ x = XKeyOrEnd ->
    distinct (map fst (done ++ fields)) = true ->
    parser_run (FObj done :: stack, x)
      (join_tokens TComma
         (map (fun kv => TString (fst kv) :: TColon :: tokens_of (snd kv)) fields)
       ++ TRBrace :: rest)
    = match push_value (VObj (done ++ fields)) stack with
      | Some st => parser_run st rest
      | None => None
      end.
Proof.
  induction 1 as [|[k v] fields Hv Hf IH]; intros Hne done x stack rest Hx Hd; [congruence|].
  rewrite map_app in Hd. cbn [map fst] in Hd. cbn [snd] in Hv.
  apply distinct_app_cons in Hd as [Hfresh Hd].
  assert (Hstep : forall rest',
    parser_run (FObj done :: stack, x) (TString k :: TColon :: tokens_of v ++ rest')
    = parser_run (FObj (done ++ [(k, v)]) :: stack, XCommaOrEnd) rest').
  { intros rest'. destruct Hx as [-> | ->]; cbn [parser_run parser_step open_key];
      rewrite (Hv _ XValue _ (or_introl eq_refl)); cbn [push_value];
      now rewrite (obj_set_fresh k v done Hfresh). }
  destruct fields as [|kv' fields].
  - cbn [map join_tokens fst snd app]. rewrite Hstep. cbn. reflexivity.
  - change (join_tokens TComma
              (map (fun kv => TString (fst kv) :: TColon :: tokens_of (snd kv))
                 ((k, v) :: kv' :: fields)))
      with ((TString k :: TColon :: tokens_of v)
            ++ TComma :: join_tokens TComma
                 (map (fun kv => TString (fst kv) :: TColon :: tokens_of (snd kv))
                    (kv' :: fields)))%list.
    rewrite <- app_assoc. cbn [app]. rewrite Hstep. cbn [parser_run parser_step].
    rewrite (IH ltac:(discriminate) (done ++ [(k, v)])%list XKey stack rest (or_introl eq_refl)).
    + now rewrite <- app_assoc.
    + rewrite !map_app. cbn [map fst]. exact Hd.
Qed.

Lemma parser_tokens_of (v : JsValue) : json_clean v = true -> parses_as_value v.
Proof.
  induction v as [ | | b | lit | s | l IH | fields IH ] using JsValue_ind';
    intros Hclean; try discriminate.
  - intros stack x rest [-> | ->]; reflexivity.
  - intros stack x rest [-> | ->]; destruct b; reflexivity.
  - intros stack x rest [-> | ->]; reflexivity.
  - cbn [json_clean] in Hclean.
    assert (Hl : Forall parses_as_value l).
    { rewrite forallb_forall in Hclean. rewrite Forall_forall in IH |- *. auto. }
    intros stack x rest Hx. cbn [tokens_of].
    assert (Hopen : forall ts, parser_run (stack, x) (TLBracket :: ts)
                               = parser_run (FArr [] :: stack, XValueOrEnd) ts).
    { intros ts. now destruct Hx as [-> | ->]. }
    cbn [app]. rewrite Hopen, <- app_assoc. cbn [app].
    destruct l as [|e l].
    + reflexivity.
    + now rewrite (parser_elements (e :: l) Hl ltac:(discriminate) [] XValueOrEnd stack rest
                    (or_intror eq_refl)).
  - cbn [json_clean] in Hclean. apply andb_true_iff in Hclean as [Hd Hclean].
    assert (Hl : Forall (fun kv => parses_as_value (snd kv)) fields).
    { rewrite forallb_forall in Hclean. rewrite Forall_forall in IH |- *. auto. }
    intros stack x rest Hx. cbn [tokens_of].
    assert (Hopen : forall ts, parser_run (stack, x) (TLBrace :: ts)
                               = parser_run (FObj [] :: stack, XKeyOrEnd) ts).
    { intros ts. now destruct Hx as [-> | ->]. }
    cbn [app]. rewrite Hopen, <- app_assoc. cbn [app].
    destruct fields as [|kv fields].
    + reflexivity.
    + now rewrite (parser_fields (kv :: fields) Hl ltac:(discriminate) [] XKeyOrEnd stack rest
                    (or_intror eq_refl) Hd).
Qed.

(** [JSON.parse(JSON.stringify(v))] is [v] for a clean [v]. *)
Lemma JSON_parse_stringify (js : JsNumbers) (v : JsValue) :
  json_clean v = true ->
  exists text, JSON_stringify js v = Some text /\ JSON_parse text = Normal v.
Proof.
  intros Hclean. destruct (lex_stringify js v Hclean) as (text & Htext & Hlex).
  exists text. split; [exact Htext|].
  unfold JSON_parse. rewrite <- (string_app_nil_r text), Hlex. cbn [lex option_map].
  now rewrite (parser_tokens_of v Hclean [] XValue [] (or_introl eq_refl)).
Qed.

Lemma token_value_clean (t : Token.TronPaymentToken) : json_clean (Token.to_value t) = true.
Proof. destruct t as [s n [f to v va vb nn [ta|]] [sg]]; reflexivity. Qed.

Lemma parsePaymentHeader_encode (js : JsNumbers) (v : JsValue) :
  json_clean v = true ->
  exists header,
    encodePaymentHeader js v = Normal header /\ parsePaymentHeader header = v.
Proof.
  intros Hclean. destruct (JSON_parse_stringify js v Hclean) as (text & Htext & Hparse).
  exists (base64_encode text). unfold encodePaymentHeader, parsePaymentHeader.
  now rewrite Htext, base64_decode_encode, Hparse.
Qed.

(** C9. Round trip: encoding a structurally valid payment token and
    decoding the header it gives yields the token itself,
    [parsePaymentHeader(encodePaymentHeader(t)) == t]. *)
Theorem parsePaymentHeader_encodePaymentHeader (js : JsNumbers) (t : Token.TronPaymentToken) :
  exists header,
    encodePaymentHeader js (Token.to_value t) = Normal header
    /\ parsePaymentHeader header = Token.to_value t.
Proof. apply parsePaymentHeader_encode, token_value_clean. Qed.

(** ** The verification engine *)

Lemma get_truthy (js : JsNumbers) (v : JsValue) (name : string) :
  truthy js v = true -> get v name = Normal (property v name).
Proof. destruct v; cbn; intros H; try discriminate; reflexivity. Qed.


Lemma strict_equal_string_other (s : JsValue) (x : string) :
  s <> VStr x -> strict_equal_string s x = false.
Proof.
  destruct s; try reflexivity. cbn. intros H. apply String.eqb_neq. congruence.
Qed.

(** The scheme check of [verify] on a token with another scheme: the
    reason prints that scheme. *)
Lemma verify_scheme_check (js : JsNumbers) (tronWeb : TronWeb) (now : Z)
  (header : string) (R : PaymentRequirements) :
  truthy js (parsePaymentHeader header) = true ->
  strict_equal_string (property (parsePaymentHeader header) "scheme") (scheme R) = false ->
  verify js tronWeb now {| paymentHeader := header; paymentRequirements := R |}
  = bind (ToString js (property (parsePaymentHeader header) "scheme"))
      (fun got =>
         Normal (invalid ("Scheme mismatch: expected " ++ scheme R ++ ", got " ++ got))).
Proof.
  intros Htruthy Hneq. unfold verify. cbn [paymentHeader paymentRequirements].
  rewrite Htruthy. cbn [negb]. rewrite (get_truthy js _ _ Htruthy). cbn [bind].
  rewrite Hneq. reflexivity.
Qed.

(** C6, as the code has it.  For every requirements [R] and every header
    that decodes to a token [T] (any truthy value) whose [scheme] is not
    the string [X] that [R] names, [verify] stops at the scheme check,
    whatever the other fields of the token and of the requirements, the
    clock and the TronWeb client are.  It answers [isValid: false] with
    the reason "Scheme mismatch: expected X, got Y", where [Y] is the
    scheme of the token as the template literal prints it: the scheme
    itself when it is a string, "undefined" when the token has none.
    When the scheme is an object with a property [toString] of its own,
    printing it throws, and [verify] throws that TypeError instead of
    answering. *)
Theorem verify_scheme_mismatch (js : JsNumbers) (tronWeb : TronWeb) (now : Z)
  (header : string) (R : PaymentRequirements) (T : JsValue) :
  parsePaymentHeader header = T ->
  truthy js T = true ->
  property T "scheme" <> VStr (scheme R) ->
  verify js tronWeb now {| paymentHeader := header; paymentRequirements := R |}
  = bind (ToString js (property T "scheme"))
      (fun Y =>
         Normal {| isValid := false;
                   invalidReason :=
                     Some ("Scheme mismatch: expected " ++ scheme R ++ ", got " ++ Y);
                   payer := None;
                   paymentToken := None |})
  /\ (forall Y, property T "scheme" = VStr Y ->
        verify js tronWeb now {| paymentHeader := header; paymentRequirements := R |}
        = Normal {| isValid := false;
                    invalidReason :=
                      Some ("Scheme mismatch: expected " ++ scheme R ++ ", got " ++ Y);
                    payer := None;
                    paymentToken := None |})
  /\ (property T "scheme" = VUndefined ->
        verify js tronWeb now {| paymentHeader := header; paymentRequirements := R |}
        = Normal {| isValid := false;
                    invalidReason :=
                      Some ("Scheme mismatch: expected " ++ scheme R ++ ", got undefined");
                    payer := None;
                    paymentToken := None |})
  /\ (forall fields, property T "scheme" = VObj fields -> has_own "toString" fields = true ->
        verify js tronWeb now {| paymentHeader := header; paymentRequirements := R |}
        = Throw (ErrorObject ETypeError "Cannot convert object to primitive value")).
Proof.
  intros HT Htruthy Hneq. subst T.
  pose proof (verify_scheme_check js tronWeb now header R Htruthy
                (strict_equal_string_other _ _ Hneq)) as Hverify.
  split; [exact Hverify|]. rewrite Hverify. split; [|split].
  - intros Y ->. reflexivity.
  - intros ->. reflexivity.
  - intros fields -> Hown. cbn [ToString]. rewrite Hown. reflexivity.
Qed.

Lemma verify_scheme_mismatch_witness :
  verify example_numbers (example_tronWeb "41b3dcf27c251da9363f1a4888257c16676cf54edf")
    example_now
    {| paymentHeader :=
         header_of (example_token "tron-transfer" "1000"
                      "41a614f803b6fd780986a42c78ec9c7f77e6ded13c" None);
       paymentRequirements :=
         example_requirements "exact" "1000" "41a614f803b6fd780986a42c78ec9c7f77e6ded13c" |}
  = Normal {| isValid := false;
              invalidReason := Some "Scheme mismatch: expected exact, got tron-transfer";
              payer := None;
              paymentToken := None |}.
Proof.
  refine (proj1 (proj2
            (verify_scheme_mismatch example_numbers
               (example_tronWeb "41b3dcf27c251da9363f1a4888257c16676cf54edf") example_now
               (header_of (example_token "tron-transfer" "1000"
                             "41a614f803b6fd780986a42c78ec9c7f77e6ded13c" None))
               (example_requirements "exact" "1000"
                  "41a614f803b6fd780986a42c78ec9c7f77e6ded13c")
               (Token.to_value (example_token "tron-transfer" "1000"
                                  "41a614f803b6fd780986a42c78ec9c7f77e6ded13c" None))
               _ _ _)) "tron-transfer" _).
  - vm_compute. reflexivity.
  - reflexivity.
  - discriminate.
  - reflexivity.
Defined.

(** C6 fails as stated.  The header [eyJzY2hlbWUiOnsidG9TdHJpbmciOiIwIn19]
    decodes to the token [{"scheme":{"toString":"0"}}], whose scheme is not
    the scheme "exact" of the requirements; printing that scheme for the
    reason throws, and [verify] throws the TypeError: it returns no
    result.  A token without a scheme is answered with "got undefined". *)
Lemma verify_throws_on_unprintable_scheme :
  parsePaymentHeader "eyJzY2hlbWUiOnsidG9TdHJpbmciOiIwIn19"
  = VObj [("scheme", VObj [("toString", VStr "0")])]
  /\ verify example_numbers (example_tronWeb "41b3dcf27c251da9363f1a4888257c16676cf54edf")
       example_now
       {| paymentHeader := "eyJzY2hlbWUiOnsidG9TdHJpbmciOiIwIn19";
          paymentRequirements :=
            example_requirements "exact" "1000"
              "41a614f803b6fd780986a42c78ec9c7f77e6ded13c" |}
     = Throw (ErrorObject ETypeError "Cannot convert object to primitive value")
  /\ verify example_numbers (example_tronWeb "41b3dcf27c251da9363f1a4888257c16676cf54edf")
       example_now
       {| paymentHeader := "e30=";
          paymentRequirements :=
            example_requirements "exact" "1000"
              "41a614f803b6fd780986a42c78ec9c7f77e6ded13c" |}
     = Normal (invalid "Scheme mismatch: expected exact, got undefined").
Proof. repeat split; vm_compute; reflexivity. Qed.

(** C3, as the code has it.  [parsePaymentHeader] answers null exactly
    when [JSON.parse] throws on the decoded text or that text is the
    literal [null]; whatever else [JSON.parse] returns is returned as it
    is.  Nothing of its structure is checked: every value that JSON
    carries unchanged (null, booleans, strings, arrays and objects of
    such), be it a complete token, an object that lacks [scheme],
    [network], [payload] or [signature], or no object at all, is what
    [parsePaymentHeader] returns for the header that encodes it. *)
Theorem parsePaymentHeader_checks_no_structure (js : JsNumbers) :
  (forall header,
     parsePaymentHeader header = VNull <->
       throws (JSON_parse (base64_decode header)) = true
       \/ JSON_parse (base64_decode header) = Normal VNull)
  /\ (forall header v,
        JSON_parse (base64_decode header) = Normal v -> parsePaymentHeader header = v)
  /\ (forall v,
        json_clean v = true ->
        exists text,
          JSON_stringify js v = Some text
          /\ parsePaymentHeader (base64_encode text) = v).
Proof.
  split; [|split].
  - intros header. unfold parsePaymentHeader.
    destruct (JSON_parse (base64_decode header)) as [v|e]; cbn.
    + split; [intros ->; now right | intros [H|H]; [discriminate | now inversion H]].
    + split; [now left | reflexivity].
  - intros header v H. unfold parsePaymentHeader. now rewrite H.
  - intros v Hclean. destruct (JSON_parse_stringify js v Hclean) as (text & Htext & Hparse).
    exists text. split; [exact Htext|]. unfold parsePaymentHeader.
    now rewrite base64_decode_encode, Hparse.
Qed.

(** C3 fails as stated: the header [e30=] decodes to the empty object,
    [eyJzY2hlbWUiOiJleGFjdCJ9] to an object with a scheme and nothing
    else, and [e3!0], which is not Base64, to the empty object again; none
    is answered by null. *)
Lemma parsePaymentHeader_returns_incomplete_token :
  parsePaymentHeader "e30=" = VObj []
  /\ parsePaymentHeader "eyJzY2hlbWUiOiJleGFjdCJ9" = VObj [("scheme", VStr "exact")]
  /\ parsePaymentHeader "e3!0" = VObj [].
Proof. repeat split; reflexivity. Qed.








(** C10, as the code has it: for a token whose scheme is the
    requirements' and is not 'tron-transfer', [verify] consults neither the
    signature field nor TronWeb's signature check: two calls on tokens that
    differ only in the signature field, made with any two signature
    checkers, agree on [isValid], [invalidReason] and [payer] (and throw
    alike); a valid result echoes the token it was given, signature
    included. *)
Theorem verify_ignores_signature (js : JsNumbers) (tw : TronWeb) (now : Z)
  (toHex' : string -> Completion string)
  (verifyMessage' : string -> JsValue -> Completion JsValue)
  (header1 header2 : string) (R : PaymentRequirements) :
  let tw' := {| toHex := toHex'; address_toHex := address_toHex tw;
                trx_verifyMessage := verifyMessage' |} in
  let T1 := parsePaymentHeader header1 in
  let T2 := parsePaymentHeader header2 in
  truthy js T1 = true ->
  truthy js T2 = true ->
  (forall name, name <> "signature" -> property T1 name = property T2 name) ->
  property T1 "scheme" = VStr (scheme R) ->
  scheme R <> "tron-transfer" ->
  map_completion verdict
    (verify js tw now {| paymentHeader := header1; paymentRequirements := R |})
  = map_completion verdict
      (verify js tw' now {| paymentHeader := header2; paymentRequirements := R |})
  /\ (forall r,
        verify js tw now {| paymentHeader := header1; paymentRequirements := R |} = Normal r ->
        isValid r = true -> paymentToken r = Some T1).
Proof.
  intros tw' T1 T2 Ht1 Ht2 Hsame Hscheme Hnot.
  assert (Hprop : forall name, name <> "signature" -> property T2 name = property T1 name)
    by (intros; symmetry; auto).
  unfold verify. cbn [paymentHeader paymentRequirements]. fold T1 T2.
  rewrite Ht1, Ht2. cbn [negb].
  rewrite !(get_truthy js T1), !(get_truthy js T2) by assumption.
  rewrite !Hprop by discriminate. rewrite Hscheme.
  cbn [bind strict_equal_string]. rewrite String.eqb_refl. cbn [negb].
  apply String.eqb_neq in Hnot. rewrite Hnot.
  destruct (strict_equal_string (property T1 "network") (network R)); cbn [negb bind valid].
  2: { destruct (ToString js (property T1 "network")); split; try reflexivity;
       cbn; intros r Hr; inversion Hr; subst; discriminate. }
  set (payload := property T1 "payload").
  unfold normalizeAddress, tw'. cbn [address_toHex].
  repeat match goal with
         | |- context [bind ?c _] =>
             lazymatch c with
             | context [bind] => fail
             | _ => destruct c; cbn [bind]
             end
         | |- context [if ?c then _ else _] => destruct c
         end;
    (split; [reflexivity | intros r Hr; inversion Hr; subst; try discriminate; reflexivity]).
Qed.

Lemma with_signature_same_properties (t : Token.TronPaymentToken) (signature name : string) :
  name <> "signature" ->
  property (Token.to_value t) name = property (Token.to_value (with_signature t signature)) name.
Proof.
  intros Hname. cbn -[String.eqb].
  repeat match goal with
         | |- context [String.eqb ?k name] => destruct (String.eqb_spec k name)
         end; try reflexivity; congruence.
Qed.

Lemma verify_ignores_signature_witness :
  map_completion verdict
    (verify example_numbers (example_tronWeb "41b3dcf27c251da9363f1a4888257c16676cf54edf")
       example_now
       {| paymentHeader :=
            header_of (example_token "exact" "1000"
                         "41a614f803b6fd780986a42c78ec9c7f77e6ded13c" None);
          paymentRequirements :=
            example_requirements "exact" "1000" "TR7NHqjeKQxGTCi8q8ZY4pL8otSzgjLj6t" |})
  = map_completion verdict
      (verify example_numbers
         {| toHex := fun _ => Throw (NonError VNull);
            address_toHex :=
              address_toHex (example_tronWeb "41b3dcf27c251da9363f1a4888257c16676cf54edf");
            trx_verifyMessage := fun _ _ => Throw (NonError VNull) |}
         example_now
         {| paymentHeader :=
              header_of (with_signature
                           (example_token "exact" "1000"
                              "41a614f803b6fd780986a42c78ec9c7f77e6ded13c" None)
                           "0xforged");
            paymentRequirements :=
              example_requirements "exact" "1000" "TR7NHqjeKQxGTCi8q8ZY4pL8otSzgjLj6t" |}).
Proof.
  refine (proj1 (verify_ignores_signature example_numbers
            (example_tronWeb "41b3dcf27c251da9363f1a4888257c16676cf54edf") example_now
            (fun _ => Throw (NonError VNull)) (fun _ _ => Throw (NonError VNull))
            (header_of (example_token "exact" "1000"
                          "41a614f803b6fd780986a42c78ec9c7f77e6ded13c" None))
            (header_of (with_signature
                          (example_token "exact" "1000"
                             "41a614f803b6fd780986a42c78ec9c7f77e6ded13c" None)
                          "0xforged"))
            (example_requirements "exact" "1000" "TR7NHqjeKQxGTCi8q8ZY4pL8otSzgjLj6t")
            _ _ _ _ _)).
  - reflexivity.
  - reflexivity.
  - intros name Hname.
    change (parsePaymentHeader
              (header_of (example_token "exact" "1000"
                            "41a614f803b6fd780986a42c78ec9c7f77e6ded13c" None)))
      with (Token.to_value (example_token "exact" "1000"
                              "41a614f803b6fd780986a42c78ec9c7f77e6ded13c" None)).
    change (parsePaymentHeader
              (header_of (with_signature
                            (example_token "exact" "1000"
                               "41a614f803b6fd780986a42c78ec9c7f77e6ded13c" None)
                            "0xforged")))
      with (Token.to_value (with_signature
                              (example_token "exact" "1000"
                                 "41a614f803b6fd780986a42c78ec9c7f77e6ded13c" None)
                              "0xforged")).
    now apply with_signature_same_properties.
  - reflexivity.
  - discriminate.
Defined.

(** C10 fails as stated: two tokens that differ only in the signature
    field, both valid, get results that differ, because a valid result
    carries the token it was given. *)
Lemma verify_echoes_signature :
  (forall name, name <> "signature" ->
     property (Token.to_value (example_token "exact" "1000"
                                 "41a614f803b6fd780986a42c78ec9c7f77e6ded13c" None)) name
     = property (Token.to_value
                   (with_signature
                      (example_token "exact" "1000"
                         "41a614f803b6fd780986a42c78ec9c7f77e6ded13c" None)
                      "0xforged")) name)
  /\ verify example_numbers (example_tronWeb "41b3dcf27c251da9363f1a4888257c16676cf54edf")
       example_now
       {| paymentHeader :=
            header_of (example_token "exact" "1000"
                         "41a614f803b6fd780986a42c78ec9c7f77e6ded13c" None);
          paymentRequirements :=
            example_requirements "exact" "1000" "TR7NHqjeKQxGTCi8q8ZY4pL8otSzgjLj6t" |}
     <> verify example_numbers (example_tronWeb "41b3dcf27c251da9363f1a4888257c16676cf54edf")
          example_now
          {| paymentHeader :=
               header_of (with_signature
                            (example_token "exact" "1000"
                               "41a614f803b6fd780986a42c78ec9c7f77e6ded13c" None)
                            "0xforged");
             paymentRequirements :=
               example_requirements "exact" "1000" "TR7NHqjeKQxGTCi8q8ZY4pL8otSzgjLj6t" |}.
Proof.
  split.
  - intros name. apply with_signature_same_properties.
  - vm_compute. discriminate.
Qed.

(** ** The settlement engine *)

(** C1. [settle] gets to its re-verification when a signer is configured
    and the header decodes.  Every transfer submission in the calls
    [settle] leaves behind that was not there before was made after that
    re-verification returned [isValid: true]; when it returns
    [isValid: false], [settle] returns [success: false] with the error
    "Verification failed: <reason>" and calls the chain not at all; when
    [settle] stops before it, no call is made either. *)
Theorem settle_reverifies (js : JsNumbers) (tronWeb : TronWeb) (now : Z)
  (wallet : option ChainOracle) (request : SettleRequest) (h : list ChainCall) :
  let reaches_verification :=
    isTronWalletServiceAvailable wallet
    && truthy js (parsePaymentHeader (paymentHeader request)) in
  let run := settle js tronWeb now wallet request h in
  (forall c, In c (snd run) -> is_submission c = true ->
     In c h \/ (reaches_verification = true
                /\ exists r, verify js tronWeb now request = Normal r /\ isValid r = true))
  /\ (reaches_verification = true ->
      forall r, verify js tronWeb now request = Normal r -> isValid r = false ->
        run = (Normal {| Settle.success := false;
                         Settle.transactionHash := None;
                         Settle.network := network (paymentRequirements request);
                         Settle.settledAmount := None;
                         Settle.error := Some ("Verification failed: "
                                               ++ template_option (invalidReason r)) |},
               h))
  /\ (reaches_verification = false ->
      snd run = h /\ exists r, fst run = Normal r /\ Settle.success r = false).
Proof.
  cbn zeta. unfold settle.
  destruct (isTronWalletServiceAvailable wallet); cbn [negb andb].
  2: { cbn. split; [|split]; [auto | discriminate | ].
       intros _. split; [reflexivity | eexists; split; reflexivity]. }
  destruct (truthy js (parsePaymentHeader (paymentHeader request))); cbn [negb].
  2: { cbn. split; [|split].
       - intros c Hc _. now left.
       - discriminate.
       - intros _. split; [reflexivity | eexists; split; reflexivity]. }
  unfold chain_bind, lift.
  destruct (verify js tronWeb now request) as [r|e]; cbn beta iota.
  - destruct (isValid r) eqn:Hvalid; cbn [negb].
    + split; [|split]; [|intros _ r' Hr' | discriminate].
      * intros c Hc Hsub. right. eauto.
      * inversion Hr'; subst. congruence.
    + cbn. split; [|split]; [auto | | discriminate].
      intros _ r' Hr' _. inversion Hr'; subst. reflexivity.
  - cbn. split; [|split]; [auto | discriminate | discriminate].
Qed.

Lemma settle_reverifies_witness :
  settle example_numbers (example_tronWeb "41b3dcf27c251da9363f1a4888257c16676cf54edf")
    example_now (Some (example_client (fun _ => receipt_answer "SUCCESS")))
    {| paymentHeader :=
         header_of (example_token "tron-transfer" "999"
                      "41a614f803b6fd780986a42c78ec9c7f77e6ded13c" None);
       paymentRequirements :=
         example_requirements "tron-transfer" "1000"
           "41a614f803b6fd780986a42c78ec9c7f77e6ded13c" |} []
  = (Normal {| Settle.success := false;
               Settle.transactionHash := None;
               Settle.network := "tron-shasta";
               Settle.settledAmount := None;
               Settle.error :=
                 Some "Verification failed: Insufficient payment: required 1000, got 999" |},
     []).
Proof.
  refine (proj1 (proj2 (settle_reverifies example_numbers
            (example_tronWeb "41b3dcf27c251da9363f1a4888257c16676cf54edf")
            example_now (Some (example_client (fun _ => receipt_answer "SUCCESS")))
            {| paymentHeader :=
                 header_of (example_token "tron-transfer" "999"
                              "41a614f803b6fd780986a42c78ec9c7f77e6ded13c" None);
               paymentRequirements :=
                 example_requirements "tron-transfer" "1000"
                   "41a614f803b6fd780986a42c78ec9c7f77e6ded13c" |} []))
            _ (invalid "Insufficient payment: required 1000, got 999") _ _);
    vm_compute; reflexivity.
Defined.

Lemma poll_calls_app (tx : JsValue) (h : list ChainCall) (n : nat) :
  ((h ++ [Delay 2000; GetTransactionInfo tx]) ++ poll_calls tx n
   = h ++ poll_calls tx (S n))%list.
Proof. now rewrite <- app_assoc. Qed.

Lemma poll_answer_shift (client : ChainOracle) (h : list ChainCall) (tx : JsValue) (i : nat) :
  poll_answer client (h ++ [Delay 2000; GetTransactionInfo tx]) tx i
  = poll_answer client h tx (S i).
Proof. unfold poll_answer. now rewrite <- app_assoc. Qed.

Lemma poll_answer_first (client : ChainOracle) (h : list ChainCall) (tx : JsValue) :
  poll_answer client h tx 0 = client (h ++ [Delay 2000])%list (GetTransactionInfo tx).
Proof. reflexivity. Qed.

Section ConfirmationLoop.

Variable js : JsNumbers.
Variable client : ChainOracle.
Variable network : string.
Variable tx : JsValue.

(** One round of the loop, by the answer its poll gets. *)
Lemma confirmTRC20_round (budget : nat) (h : list ChainCall) :
  confirmTRC20 js client network tx (S budget) h
  = let h' := (h ++ [Delay 2000; GetTransactionInfo tx])%list in
    match poll_answer client h tx 0 with
    | Throw e => (Throw e, h')
    | Normal txInfo =>
        if truthy js (receipt_of js txInfo) then
          let result := property (receipt_of js txInfo) "result" in
          if negb (strict_equal_string result "SUCCESS") && truthy js result then
            match ToString js result with
            | Normal failure =>
                (Normal (Returned {| Settle.success := false;
                                     Settle.transactionHash := Some tx;
                                     Settle.network := network;
                                     Settle.settledAmount := None;
                                     Settle.error := Some ("Transaction failed: " ++ failure) |}),
                 h')
            | Throw e => (Throw e, h')
            end
          else (Normal (Left (strict_equal_string result "SUCCESS")), h')
        else confirmTRC20 js client network tx budget h'
    end.
Proof.
  rewrite poll_answer_first. cbn zeta.
  cbn [confirmTRC20]. unfold chain_bind, delay, call, lift, ret.
  rewrite <- app_assoc. cbn [app].
  destruct (client (h ++ [Delay 2000])%list (GetTransactionInfo tx)) as [txInfo|e];
    [|reflexivity].
  unfold receipt_of.
  destruct (truthy js txInfo) eqn:Hinfo.
  - rewrite (get_truthy js txInfo "receipt" Hinfo).
    destruct (truthy js (property txInfo "receipt")) eqn:Hreceipt; [|reflexivity].
    rewrite (get_truthy js _ "result" Hreceipt).
    destruct (negb _ && truthy js _); [|reflexivity].
    now destruct (ToString js (property (property txInfo "receipt") "result")).
  - now rewrite Hinfo.
Qed.

Lemma confirmTRC20_no_receipt (k budget : nat) : forall h,
  (forall i, i < k -> no_receipt js (poll_answer client h tx i)) ->
  confirmTRC20 js client network tx (k + budget) h
  = confirmTRC20 js client network tx budget (h ++ poll_calls tx k)%list.
Proof.
  induction k as [|k IH]; intros h Hpending.
  - cbn. now rewrite app_nil_r.
  - cbn [Nat.add]. rewrite confirmTRC20_round. cbn zeta.
    destruct (Hpending 0 ltac:(lia)) as (txInfo & -> & ->).
    rewrite IH, poll_calls_app; [reflexivity|].
    intros i Hi. rewrite poll_answer_shift. apply Hpending. lia.
Qed.

Lemma confirmTRC20_calls (budget : nat) : forall h,
  exists n, n <= budget
    /\ snd (confirmTRC20 js client network tx budget h) = (h ++ poll_calls tx n)%list.
Proof.
  induction budget as [|budget IH]; intros h.
  - exists 0. split; [lia|]. cbn. now rewrite app_nil_r.
  - rewrite confirmTRC20_round. cbn zeta.
    assert (Hone : exists n, n <= S budget
              /\ (h ++ [Delay 2000; GetTransactionInfo tx] = h ++ poll_calls tx n)%list)
      by (exists 1; split; [lia | reflexivity]).
    destruct (poll_answer client h tx 0) as [txInfo|e]; [|exact Hone].
    destruct (truthy js (receipt_of js txInfo)).
    + destruct (negb _ && truthy js _); [|exact Hone].
      destruct (ToString js _); exact Hone.
    + destruct (IH (h ++ [Delay 2000; GetTransactionInfo tx])%list) as (n & Hn & ->).
      exists (S n). split; [lia | apply poll_calls_app].
Qed.

End ConfirmationLoop.

Lemma poll_answer_after (client : ChainOracle) (h : list ChainCall) (tx : JsValue) (k : nat) :
  poll_answer client (h ++ poll_calls tx k) tx 0 = poll_answer client h tx k.
Proof. unfold poll_answer. cbn [poll_calls app]. now rewrite <- app_assoc. Qed.

Lemma poll_calls_succ (tx : JsValue) (h : list ChainCall) (k : nat) :
  ((h ++ poll_calls tx k) ++ [Delay 2000; GetTransactionInfo tx]
   = h ++ poll_calls tx (S k))%list.
Proof.
  rewrite <- app_assoc. f_equal.
  induction k as [|k IH]; [reflexivity|]. cbn [poll_calls app]. now rewrite IH.
Qed.

(** How the loop ends when poll number [k + 1] is the first to bring a
    receipt. *)
Lemma confirmTRC20_receipt (js : JsNumbers) (client : ChainOracle) (network : string)
  (tx : JsValue) (h : list ChainCall) (k : nat) (result : JsValue) :
  k < maxAttempts ->
  (forall i, i < k -> no_receipt js (poll_answer client h tx i)) ->
  receipt_with js (poll_answer client h tx k) result ->
  confirmTRC20 js client network tx maxAttempts h
  = let h' := (h ++ poll_calls tx (S k))%list in
    if negb (strict_equal_string result "SUCCESS") && truthy js result then
      match ToString js result with
      | Normal failure =>
          (Normal (Returned {| Settle.success := false;
                               Settle.transactionHash := Some tx;
                               Settle.network := network;
                               Settle.settledAmount := None;
                               Settle.error := Some ("Transaction failed: " ++ failure) |}),
           h')
      | Throw e => (Throw e, h')
      end
    else (Normal (Left (strict_equal_string result "SUCCESS")), h').
Proof.
  intros Hk Hpending (txInfo & Hanswer & Hreceipt & Hresult).
  replace maxAttempts with (k + S (maxAttempts - S k)) by lia.
  rewrite (confirmTRC20_no_receipt js client network tx k _ h Hpending).
  rewrite confirmTRC20_round, poll_answer_after, Hanswer. cbn zeta.
  now rewrite Hreceipt, Hresult, poll_calls_succ.
Qed.

Lemma confirmTRC20_timeout (js : JsNumbers) (client : ChainOracle) (network : string)
  (tx : JsValue) (h : list ChainCall) :
  (forall i, i < maxAttempts -> no_receipt js (poll_answer client h tx i)) ->
  confirmTRC20 js client network tx maxAttempts h
  = (Normal (Left false), (h ++ poll_calls tx maxAttempts)%list).
Proof.
  intros Hpending.
  replace maxAttempts with (maxAttempts + 0) at 1 by lia.
  now rewrite (confirmTRC20_no_receipt js client network tx maxAttempts 0 h Hpending).
Qed.

(** [executeTRC20Settlement] once the transfer is submitted: the loop,
    then the result its exit selects. *)
Lemma executeTRC20Settlement_submitted (js : JsNumbers) (client : ChainOracle)
  (network : string) (T payload tokenAddress to value tx : JsValue) (h : list ChainCall) :
  get T "payload" = Normal payload ->
  get payload "tokenAddress" = Normal tokenAddress ->
  truthy js tokenAddress = true ->
  get payload "to" = Normal to ->
  get payload "value" = Normal value ->
  (exists contract, client h (Contract tokenAddress) = Normal contract) ->
  client (h ++ [Contract tokenAddress])%list (TransferSend to value 100000000 0) = Normal tx ->
  (exists printed, ToString js tx = Normal printed) ->
  executeTRC20Settlement js (Some client) T network h
  = match confirmTRC20 js client network tx maxAttempts
            (h ++ [Contract tokenAddress; TransferSend to value 100000000 0])%list with
    | (Normal (Returned r), h') => (Normal r, h')
    | (Normal (Left false), h') =>
        (Normal {| Settle.success := false;
                   Settle.transactionHash := Some tx;
                   Settle.network := network;
                   Settle.settledAmount := None;
                   Settle.error := Some "Transaction confirmation timeout" |}, h')
    | (Normal (Left true), h') =>
        (Normal {| Settle.success := true;
                   Settle.transactionHash := Some tx;
                   Settle.network := network;
                   Settle.settledAmount := Some value;
                   Settle.error := None |}, h')
    | (Throw e, h') => (Throw e, h')
    end.
Proof.
  intros Hpayload Haddress Htruthy Hto Hvalue (contract & Hcontract) Hsend (printed & Hprinted).
  unfold executeTRC20Settlement, getTronWalletService, logger_log, chain_bind, chain_try,
    lift, call, ret.
  rewrite Hpayload, Haddress, Htruthy. cbn [negb].
  rewrite Hcontract, Hto, Hvalue, Hsend, Hprinted. cbn [bind].
  rewrite <- app_assoc. cbn [app].
  destruct (confirmTRC20 _ _ _ _ _ _) as [[[r|[|]]|e] h']; reflexivity.
Qed.

(** How the loop ends when poll number [k + 1] is the first that does not
    leave it running, and throws. *)
Lemma confirmTRC20_throws (js : JsNumbers) (client : ChainOracle) (network : string)
  (tx : JsValue) (h : list ChainCall) (k : nat) (e : JsThrown) :
  k < maxAttempts ->
  (forall i, i < k -> no_receipt js (poll_answer client h tx i)) ->
  poll_answer client h tx k = Throw e ->
  confirmTRC20 js client network tx maxAttempts h
  = (Throw e, (h ++ poll_calls tx (S k))%list).
Proof.
  intros Hk Hpending Hanswer.
  replace maxAttempts with (k + S (maxAttempts - S k)) by lia.
  rewrite (confirmTRC20_no_receipt js client network tx k _ h Hpending).
  rewrite confirmTRC20_round, poll_answer_after, Hanswer. cbn zeta.
  now rewrite poll_calls_succ.
Qed.

(** C8, as the code has it.  Once the contract transfer is submitted with
    identifier [tx], the confirmation loop polls the status at most 30
    times, each poll after a delay of 2000 ms, and the first poll that
    brings a receipt, poll [k + 1 <= 30], is the last one.  The result of
    that receipt decides.  SUCCESS gives [success: true] with [tx] and
    [settledAmount = payload.value].  Any other truthy result gives
    [success: false] with [tx] and the error "Transaction failed:
    <result>"; should the result have no printed form, the settlement
    throws.  A receipt without a result, or with a falsy one (null, the
    empty string), gives [success: false] with [tx] and the error
    "Transaction confirmation timeout", at once and not after thirty
    polls.  Thirty polls without a receipt give that timeout result too,
    and a poll that throws ends the settlement with what it throws. *)
Theorem executeTRC20Settlement_confirmation (js : JsNumbers) (client : ChainOracle)
  (network : string) (T payload tokenAddress to value tx : JsValue) (h : list ChainCall) :
  get T "payload" = Normal payload ->
  get payload "tokenAddress" = Normal tokenAddress ->
  truthy js tokenAddress = true ->
  get payload "to" = Normal to ->
  get payload "value" = Normal value ->
  (exists contract, client h (Contract tokenAddress) = Normal contract) ->
  client (h ++ [Contract tokenAddress])%list (TransferSend to value 100000000 0) = Normal tx ->
  (exists printed, ToString js tx = Normal printed) ->
  let h0 := (h ++ [Contract tokenAddress; TransferSend to value 100000000 0])%list in
  let run := executeTRC20Settlement js (Some client) T network h in
  let timeout :=
    {| Settle.success := false;
       Settle.transactionHash := Some tx;
       Settle.network := network;
       Settle.settledAmount := None;
       Settle.error := Some "Transaction confirmation timeout" |} in
  (exists n, n <= 30 /\ snd run = (h0 ++ poll_calls tx n)%list)
  /\ (forall k result, k < 30 ->
        (forall i, i < k -> no_receipt js (poll_answer client h0 tx i)) ->
        receipt_with js (poll_answer client h0 tx k) result ->
        run = (if strict_equal_string result "SUCCESS" then
                 Normal {| Settle.success := true;
                           Settle.transactionHash := Some tx;
                           Settle.network := network;
                           Settle.settledAmount := Some value;
                           Settle.error := None |}
               else if truthy js result then
                 bind (ToString js result)
                   (fun failure =>
                      Normal {| Settle.success := false;
                                Settle.transactionHash := Some tx;
                                Settle.network := network;
                                Settle.settledAmount := None;
                                Settle.error := Some ("Transaction failed: " ++ failure) |})
               else Normal timeout,
               (h0 ++ poll_calls tx (S k))%list))
  /\ ((forall i, i < 30 -> no_receipt js (poll_answer client h0 tx i)) ->
      run = (Normal timeout, (h0 ++ poll_calls tx 30)%list))
  /\ (forall k e, k < 30 ->
        (forall i, i < k -> no_receipt js (poll_answer client h0 tx i)) ->
        poll_answer client h0 tx k = Throw e ->
        run = (Throw e, (h0 ++ poll_calls tx (S k))%list)).
Proof.
  intros Hpayload Haddress Htruthy Hto Hvalue Hcontract Hsend Hprinted h0 run timeout.
  assert (Hrun := executeTRC20Settlement_submitted js client network T payload tokenAddress
                    to value tx h Hpayload Haddress Htruthy Hto Hvalue Hcontract Hsend Hprinted).
  fold h0 run in Hrun. split; [|split; [|split]].
  - destruct (confirmTRC20_calls js client network tx maxAttempts h0) as (n & Hn & Hcalls).
    exists n. split; [exact Hn|]. rewrite Hrun.
    destruct (confirmTRC20 js client network tx maxAttempts h0) as [[[r|[|]]|e] h'];
      exact Hcalls.
  - intros k result Hk Hpending Hreceipt. rewrite Hrun.
    rewrite (confirmTRC20_receipt js client network tx h0 k _ Hk Hpending Hreceipt).
    cbn zeta.
    destruct (strict_equal_string result "SUCCESS"), (truthy js result); cbn [negb andb];
      try reflexivity.
    now destruct (ToString js result).
  - intros Hpending. rewrite Hrun.
    now rewrite (confirmTRC20_timeout js client network tx h0 Hpending).
  - intros k e Hk Hpending Hanswer. rewrite Hrun.
    now rewrite (confirmTRC20_throws js client network tx h0 k e Hk Hpending Hanswer).
Qed.

(** The third poll brings a receipt with result REVERT: a failure that
    carries the transaction identifier, after exactly three polls. *)
Lemma executeTRC20Settlement_confirmation_witness :
  executeTRC20Settlement example_numbers
    (Some (example_client
             (fun i => if Nat.eqb i 2 then receipt_answer "REVERT" else unknown_answer)))
    (Token.to_value (example_token "tron-transfer" "1000"
                       "41a614f803b6fd780986a42c78ec9c7f77e6ded13c"
                       (Some "TG3XXyExBkPp9nzdajDZsozEu4BkaSJozs")))
    "tron-shasta" []
  = (Normal {| Settle.success := false;
               Settle.transactionHash :=
                 Some (VStr "7c2d4206c03a883dd9066d620335dc1be272a8dc733cfa3f6d10308faa37facc");
               Settle.network := "tron-shasta";
               Settle.settledAmount := None;
               Settle.error := Some "Transaction failed: REVERT" |},
     [Contract (VStr "TG3XXyExBkPp9nzdajDZsozEu4BkaSJozs");
      TransferSend (VStr "41a614f803b6fd780986a42c78ec9c7f77e6ded13c") (VStr "1000")
        100000000 0]
     ++ poll_calls
          (VStr "7c2d4206c03a883dd9066d620335dc1be272a8dc733cfa3f6d10308faa37facc") 3)%list.
Proof.
  refine (proj1 (proj2
    (executeTRC20Settlement_confirmation example_numbers
       (example_client
          (fun i => if Nat.eqb i 2 then receipt_answer "REVERT" else unknown_answer))
       "tron-shasta"
       (Token.to_value (example_token "tron-transfer" "1000"
                          "41a614f803b6fd780986a42c78ec9c7f77e6ded13c"
                          (Some "TG3XXyExBkPp9nzdajDZsozEu4BkaSJozs")))
       (Token.payload_value
          (Token.payload (example_token "tron-transfer" "1000"
                            "41a614f803b6fd780986a42c78ec9c7f77e6ded13c"
                            (Some "TG3XXyExBkPp9nzdajDZsozEu4BkaSJozs"))))
       (VStr "TG3XXyExBkPp9nzdajDZsozEu4BkaSJozs")
       (VStr "41a614f803b6fd780986a42c78ec9c7f77e6ded13c") (VStr "1000")
       (VStr "7c2d4206c03a883dd9066d620335dc1be272a8dc733cfa3f6d10308faa37facc") []
       _ _ _ _ _ _ _ _))
    2 (VStr "REVERT") _ _ _); try reflexivity.
  - eexists. reflexivity.
  - eexists. reflexivity.
  - lia.
  - intros [|[|i]] Hi; [| |lia]; eexists; split; reflexivity.
  - eexists. repeat split; reflexivity.
Defined.

(** C8 fails as stated.  The first poll brings a receipt whose result is
    the empty string: not a success.  The loop ends, and the settlement
    reports "Transaction confirmation timeout" after this one poll: the
    error does not carry the result of the receipt, and no attempt but the
    first was made. *)
Lemma executeTRC20Settlement_times_out_on_first_receipt :
  executeTRC20Settlement example_numbers
    (Some (example_client (fun _ => receipt_answer "")))
    (Token.to_value (example_token "tron-transfer" "1000"
                       "41a614f803b6fd780986a42c78ec9c7f77e6ded13c"
                       (Some "TG3XXyExBkPp9nzdajDZsozEu4BkaSJozs")))
    "tron-shasta" []
  = (Normal {| Settle.success := false;
               Settle.transactionHash :=
                 Some (VStr "7c2d4206c03a883dd9066d620335dc1be272a8dc733cfa3f6d10308faa37facc");
               Settle.network := "tron-shasta";
               Settle.settledAmount := None;
               Settle.error := Some "Transaction confirmation timeout" |},
     [Contract (VStr "TG3XXyExBkPp9nzdajDZsozEu4BkaSJozs");
      TransferSend (VStr "41a614f803b6fd780986a42c78ec9c7f77e6ded13c") (VStr "1000")
        100000000 0;
      Delay 2000;
      GetTransactionInfo
        (VStr "7c2d4206c03a883dd9066d620335dc1be272a8dc733cfa3f6d10308faa37facc")]).
Proof. vm_compute. reflexivity. Qed.

(** C7 fails on the code: a contract transfer is submitted, the first
    status poll throws, and the result [settle] builds in its [catch] has
    no [transactionHash], although the calls show the submission. *)
Lemma settle_drops_transactionHash :
  settle example_numbers (example_tronWeb "41b3dcf27c251da9363f1a4888257c16676cf54edf")
    example_now
    (Some (example_client
             (fun _ => Throw (ErrorObject EError "Request failed with status code 503"))))
    {| paymentHeader :=
         header_of (example_token "tron-transfer" "1000"
                      "41a614f803b6fd780986a42c78ec9c7f77e6ded13c"
                      (Some "TG3XXyExBkPp9nzdajDZsozEu4BkaSJozs"));
       paymentRequirements :=
         example_requirements "tron-transfer" "1000"
           "41a614f803b6fd780986a42c78ec9c7f77e6ded13c" |} []
  = (Normal {| Settle.success := false;
               Settle.transactionHash := None;
               Settle.network := "tron-shasta";
               Settle.settledAmount := None;
               Settle.error := Some "Request failed with status code 503" |},
     [Contract (VStr "TG3XXyExBkPp9nzdajDZsozEu4BkaSJozs");
      TransferSend (VStr "41a614f803b6fd780986a42c78ec9c7f77e6ded13c") (VStr "1000")
        100000000 0;
      Delay 2000;
      GetTransactionInfo
        (VStr "7c2d4206c03a883dd9066d620335dc1be272a8dc733cfa3f6d10308faa37facc")]).
Proof. vm_compute. reflexivity. Qed.

(** C4 fails on the code in the native path.  [verify] compares exactly:
    9007199254740992 is refused against a requirement of 9007199254740993.
    [settle] then hands [parseInt(payload.value, 10)], a double, to
    [sendTransaction]: for the value 9007199254740993 it submits
    9007199254740992 and reports [settledAmount] 9007199254740993; for the
    value 0x3e8, which [BigInt] reads as 1000, it submits 0. *)
Lemma settle_native_amount_is_a_double :
  verify example_numbers (example_tronWeb "41b3dcf27c251da9363f1a4888257c16676cf54edf")
    example_now
    {| paymentHeader :=
         header_of (example_token "tron-transfer" "9007199254740992"
                      "41a614f803b6fd780986a42c78ec9c7f77e6ded13c" None);
       paymentRequirements :=
         example_requirements "tron-transfer" "9007199254740993"
           "41a614f803b6fd780986a42c78ec9c7f77e6ded13c" |}
  = Normal (invalid
              "Insufficient payment: required 9007199254740993, got 9007199254740992")
  /\ settle example_numbers (example_tronWeb "41b3dcf27c251da9363f1a4888257c16676cf54edf")
       example_now (Some (example_client (fun _ => receipt_answer "SUCCESS")))
       {| paymentHeader :=
            header_of (example_token "tron-transfer" "9007199254740993"
                         "41a614f803b6fd780986a42c78ec9c7f77e6ded13c" None);
          paymentRequirements :=
            example_requirements "tron-transfer" "9007199254740993"
              "41a614f803b6fd780986a42c78ec9c7f77e6ded13c" |} []
     = (Normal {| Settle.success := true;
                  Settle.transactionHash :=
                    Some (VStr "9f0b1c2d3e4f5a6b7c8d9e0f1a2b3c4d5e6f708192a3b4c5d6e7f8091a2b3c4d");
                  Settle.network := "tron-shasta";
                  Settle.settledAmount := Some (VStr "9007199254740993");
                  Settle.error := None |},
        [SendTransaction (VStr "41a614f803b6fd780986a42c78ec9c7f77e6ded13c")
           (Integral 9007199254740992);
         Delay 2000;
         GetTransactionInfo
           (VStr "9f0b1c2d3e4f5a6b7c8d9e0f1a2b3c4d5e6f708192a3b4c5d6e7f8091a2b3c4d")])
  /\ snd (settle example_numbers
            (example_tronWeb "41b3dcf27c251da9363f1a4888257c16676cf54edf")
            example_now (Some (example_client (fun _ => receipt_answer "SUCCESS")))
            {| paymentHeader :=
                 header_of (example_token "tron-transfer" "0x3e8"
                              "41a614f803b6fd780986a42c78ec9c7f77e6ded13c" None);
               paymentRequirements :=
                 example_requirements "tron-transfer" "1000"
                   "41a614f803b6fd780986a42c78ec9c7f77e6ded13c" |} [])
     = [SendTransaction (VStr "41a614f803b6fd780986a42c78ec9c7f77e6ded13c") (Integral 0);
        Delay 2000;
        GetTransactionInfo
          (VStr "9f0b1c2d3e4f5a6b7c8d9e0f1a2b3c4d5e6f708192a3b4c5d6e7f8091a2b3c4d")].
Proof. repeat split; vm_compute; reflexivity. Qed.

(** C5 fails on the code for the [0x] form: the same account written
    [0x...] and [41...] (or in Base58) gets two normal forms, and [verify]
    reports a recipient mismatch. *)
Lemma normalizeAddress_keeps_0x_prefix :
  hex_account "0xa614f803b6fd780986a42c78ec9c7f77e6ded13c"
  = hex_account "41A614F803B6FD780986A42C78EC9C7F77E6DED13C"
  /\ hex_account "0xa614f803b6fd780986a42c78ec9c7f77e6ded13c"
     = Some "a614f803b6fd780986a42c78ec9c7f77e6ded13c"
  /\ normalizeAddress example_numbers
       (example_tronWeb "41b3dcf27c251da9363f1a4888257c16676cf54edf")
       (VStr "0xa614f803b6fd780986a42c78ec9c7f77e6ded13c")
     = Normal "0xa614f803b6fd780986a42c78ec9c7f77e6ded13c"
  /\ normalizeAddress example_numbers
       (example_tronWeb "41b3dcf27c251da9363f1a4888257c16676cf54edf")
       (VStr "41A614F803B6FD780986A42C78EC9C7F77E6DED13C")
     = Normal "41a614f803b6fd780986a42c78ec9c7f77e6ded13c"
  /\ normalizeAddress example_numbers
       (example_tronWeb "41b3dcf27c251da9363f1a4888257c16676cf54edf")
       (VStr "TR7NHqjeKQxGTCi8q8ZY4pL8otSzgjLj6t")
     = Normal "41a614f803b6fd780986a42c78ec9c7f77e6ded13c"
  /\ verify example_numbers (example_tronWeb "41b3dcf27c251da9363f1a4888257c16676cf54edf")
       example_now
       {| paymentHeader :=
            header_of (example_token "exact" "1000"
                         "0xa614f803b6fd780986a42c78ec9c7f77e6ded13c" None);
          paymentRequirements :=
            example_requirements "exact" "1000" "TR7NHqjeKQxGTCi8q8ZY4pL8otSzgjLj6t" |}
     = Normal (invalid
                 "Recipient mismatch: expected TR7NHqjeKQxGTCi8q8ZY4pL8otSzgjLj6t, got 0xa614f803b6fd780986a42c78ec9c7f77e6ded13c").
Proof. repeat split; vm_compute; reflexivity. Qed.

(** ** Decimal strings *)

Lemma digit_code (c : ascii) : is_digit c = true -> 48 <= nat_of_ascii c <= 57.
Proof. destruct c as [[] [] [] [] [] [] [] []]; cbn; intros H; try discriminate H; lia. Qed.

Lemma is_space_bytes_digit_first (c : ascii) (l : list nat) :
  is_digit c = true -> is_space_bytes (nat_of_ascii c :: l) = false.
Proof.
  intros H. apply digit_code in H. set (n := nat_of_ascii c) in *.
  destruct l as [|b [|d [|? ?]]]; cbn [is_space_bytes]; try reflexivity;
    repeat match goal with
           | |- context [(?x =? ?k)%nat] =>
               replace (x =? k)%nat with false by (symmetry; apply Nat.eqb_neq; lia)
           | |- context [(n <=? ?k)%nat] =>
               replace (n <=? k)%nat with false by (symmetry; apply Nat.leb_gt; lia)
           end; cbn; rewrite ?andb_false_r; reflexivity.
Qed.

Lemma is_space_bytes_digit_last (c : ascii) (l : list nat) :
  is_digit c = true -> is_space_bytes (l ++ [nat_of_ascii c]) = false.
Proof.
  intros H. apply digit_code in H. set (n := nat_of_ascii c) in *.
  assert (Hne : forall k, k < 48 \/ 57 < k -> (n =? k)%nat = false)
    by (intros k Hk; apply Nat.eqb_neq; lia).
  assert (Hle : forall k, 57 < k -> (k <=? n)%nat = false)
    by (intros k Hk; apply Nat.leb_gt; lia).
  destruct l as [|a [|b [|d l]]]; cbn [app is_space_bytes].
  - rewrite (Hne 32) by lia. replace (n <=? 13)%nat with false
      by (symmetry; apply Nat.leb_gt; lia). now rewrite andb_false_r.
  - rewrite (Hne 160) by lia. now rewrite andb_false_r.
  - rewrite (Hne 128), (Hne 168), (Hne 169), (Hne 175), (Hne 159), (Hne 191), (Hle 128) by lia.
    now rewrite !andb_false_r.
  - now destruct l.
Qed.

Lemma strip_one_space_digit (c : ascii) (s : string) :
  is_digit c = true -> strip_one_space (String c s) = None.
Proof.
  intros H. cbn [strip_one_space]. rewrite !(is_space_bytes_digit_first c) by assumption.
  destruct s as [|b [|d s]]; try reflexivity;
    now rewrite !(is_space_bytes_digit_first c) by assumption.
Qed.

Lemma strip_one_space_end_digit (c : ascii) (r : string) :
  is_digit c = true -> strip_one_space_end (String c r) = None.
Proof.
  intros H. cbn [strip_one_space_end].
  pose proof (is_space_bytes_digit_last c [] H) as H1.
  pose proof (fun b => is_space_bytes_digit_last c [b] H) as H2.
  pose proof (fun a b => is_space_bytes_digit_last c [a; b] H) as H3.
  cbn [app] in H1, H2, H3. rewrite H1.
  destruct r as [|b [|a r]]; try reflexivity; rewrite H2; try reflexivity.
  now rewrite H3.
Qed.

Lemma string_rev_involutive (s : string) : string_rev (string_rev s) = s.
Proof.
  unfold string_rev.
  now rewrite list_ascii_of_string_of_list_ascii, rev_involutive,
    string_of_list_ascii_of_string.
Qed.

Lemma all_digits_head_rev (s : string) :
  all_digits s = true -> s <> "" ->
  exists c r, string_rev s = String c r /\ is_digit c = true.
Proof.
  unfold all_digits, string_rev. intros Hall Hne.
  assert (Hrev : forallb is_digit (rev (list_ascii_of_string s)) = true).
  { rewrite forallb_forall in Hall |- *. intros x Hx. apply Hall. now apply in_rev. }
  destruct (rev (list_ascii_of_string s)) as [|c l] eqn:Hl.
  - exfalso. apply Hne. apply (f_equal (@rev ascii)) in Hl. rewrite rev_involutive in Hl.
    cbn in Hl. rewrite <- (string_of_list_ascii_of_string s), Hl. reflexivity.
  - cbn in Hrev. apply andb_true_iff in Hrev as [Hc _]. cbn. eauto.
Qed.

(** Digits have no white space to trim. *)
Lemma trim_digits (s : string) : all_digits s = true -> s <> "" -> trim s = s.
Proof.
  intros Hall Hne. unfold trim.
  assert (Hstart : trim_start s = s).
  { unfold trim_start. destruct s as [|c s]; [congruence|].
    cbn in Hall. apply andb_true_iff in Hall as [Hc _].
    cbn [String.length trim_start_fuel]. now rewrite strip_one_space_digit. }
  rewrite Hstart. destruct (all_digits_head_rev s Hall Hne) as (c & r & Hrev & Hc).
  rewrite Hrev.
  destruct (String.length s) as [|n] eqn:Hlen; [now destruct s|].
  cbn [trim_end_fuel]. rewrite strip_one_space_end_digit by assumption.
  now rewrite <- Hrev, string_rev_involutive.
Qed.

Lemma StringToBigInt_digits (s : string) :
  all_digits s = true -> s <> "" -> StringToBigInt s = decimal_value s.
Proof.
  intros Hall Hne. unfold StringToBigInt. rewrite (trim_digits s Hall Hne).
  destruct s as [|c s]; [congruence|].
  cbn in Hall. apply andb_true_iff in Hall as [Hc Hs].
  destruct c as [[] [] [] [] [] [] [] []]; try discriminate Hc; try reflexivity.
  destruct s as [|d s]; [reflexivity|].
  cbn in Hs. apply andb_true_iff in Hs as [Hd _].
  destruct d as [[] [] [] [] [] [] [] []]; try discriminate Hd; reflexivity.
Qed.

Lemma string_of_uint_digits (d : Decimal.uint) :
  all_digits (NilEmpty.string_of_uint d) = true.
Proof. induction d; cbn; auto. Qed.

Lemma string_of_uint_nonempty (d : Decimal.uint) :
  d <> Decimal.Nil -> NilEmpty.string_of_uint d <> "".
Proof. destruct d; cbn; congruence. Qed.

Lemma Z_to_string_digits (z : Z) :
  (0 <= z)%Z ->
  all_digits (Z_to_string z) = true /\ Z_to_string z <> ""
  /\ decimal_value (Z_to_string z) = Some z.
Proof.
  intros Hz. unfold Z_to_string.
  assert (Hd : exists d, Z.to_int z = Decimal.Pos d) by (destruct z; cbn; eauto; lia).
  destruct Hd as (d & Hd). pose proof (DecimalZ.of_to z) as Hof. rewrite Hd in *.
  cbn [NilZero.string_of_int Z.of_int] in *. unfold NilZero.string_of_uint.
  assert (Hgeneral : d <> Decimal.Nil ->
            all_digits (NilEmpty.string_of_uint d) = true
            /\ NilEmpty.string_of_uint d <> ""
            /\ decimal_value (NilEmpty.string_of_uint d) = Some z).
  { intros Hne. split; [apply string_of_uint_digits|].
    split; [now apply string_of_uint_nonempty|].
    unfold decimal_value.
    destruct (NilEmpty.string_of_uint d) eqn:Hs; [now apply string_of_uint_nonempty in Hs|].
    rewrite <- Hs, NilEmpty.usu. cbn. now rewrite Hof. }
  destruct d; try (apply Hgeneral; discriminate).
  cbn in Hof. subst z. repeat split. discriminate.
Qed.

(** [BigInt] reads back the decimal form of a natural number, whatever its
    size. *)
Lemma StringToBigInt_decimal (z : Z) : (0 <= z)%Z -> StringToBigInt (Z_to_string z) = Some z.
Proof.
  intros Hz. destruct (Z_to_string_digits z Hz) as (Hall & Hne & Hvalue).
  now rewrite StringToBigInt_digits.
Qed.

Lemma take_digits_all (s : string) : all_digits s = true -> take_digits s = s.
Proof.
  induction s as [|c s IH]; cbn; [reflexivity|].
  intros H. apply andb_true_iff in H as [Hc Hs]. now rewrite Hc, IH.
Qed.

(** [parseInt] reads the decimal form of a natural number and rounds it to
    a double. *)
Lemma string_parseInt_decimal (z : Z) :
  (0 <= z)%Z -> string_parseInt (Z_to_string z) = round_to_double z.
Proof.
  intros Hz. destruct (Z_to_string_digits z Hz) as (Hall & Hne & Hvalue).
  unfold string_parseInt.
  assert (Hstart : trim_start (Z_to_string z) = Z_to_string z).
  { unfold trim_start. destruct (Z_to_string z) as [|c s]; [congruence|].
    cbn in Hall. apply andb_true_iff in Hall as [Hc _].
    cbn [String.length trim_start_fuel]. now rewrite strip_one_space_digit. }
  rewrite Hstart.
  assert (Hsign : match Z_to_string z with
                  | String "-"%char r => (true, r)
                  | String "+"%char r => (false, r)
                  | _ => (false, Z_to_string z)
                  end = (false, Z_to_string z)).
  { destruct (Z_to_string z) as [|c s]; [reflexivity|].
    cbn in Hall. apply andb_true_iff in Hall as [Hc _].
    destruct c as [[] [] [] [] [] [] [] []]; try discriminate Hc; reflexivity. }
  rewrite Hsign. now rewrite take_digits_all, Hvalue.
Qed.

Lemma round_to_double_safe (z : Z) :
  (Z.abs z < 2 ^ 53)%Z -> round_to_double z = Integral z.
Proof. intros H. unfold round_to_double. apply Z.ltb_lt in H. now rewrite H. Qed.





Lemma to_lower_idempotent (c : ascii) : to_lower (to_lower c) = to_lower c.
Proof. destruct c as [[] [] [] [] [] [] [] []]; reflexivity. Qed.

Lemma lowercase_idempotent (s : string) : lowercase (lowercase s) = lowercase s.
Proof.
  induction s as [|c s IH]; cbn; [reflexivity|]. now rewrite to_lower_idempotent, IH.
Qed.

(** X2. [normalizeAddress] never throws on a string, and what it returns
    is in lower case. *)
Theorem normalizeAddress_total (js : JsNumbers) (tronWeb : TronWeb) (address : string) :
  exists canonical,
    normalizeAddress js tronWeb (VStr address) = Normal canonical
    /\ lowercase canonical = canonical.
Proof.
  unfold normalizeAddress. cbn.
  destruct (string_startsWith "T" address); cbn.
  - destruct (address_toHex tronWeb address); cbn; eexists; split;
      try reflexivity; apply lowercase_idempotent.
  - eexists. split; [reflexivity | apply lowercase_idempotent].
Qed.

(** X3. A Base58 address and the hexadecimal form TronWeb gives for it, in
    any letter case, have the same normal form. *)
Theorem normalizeAddress_base58_hex (js : JsNumbers) (tronWeb : TronWeb)
  (base58 hex hex' : string) :
  string_startsWith "T" base58 = true ->
  address_toHex tronWeb base58 = Normal hex ->
  string_startsWith "T" hex' = false ->
  lowercase hex' = lowercase hex ->
  normalizeAddress js tronWeb (VStr base58) = normalizeAddress js tronWeb (VStr hex').
Proof.
  intros Hbase58 Hhex Hnot Hsame. unfold normalizeAddress. cbn.
  rewrite Hbase58, Hnot. cbn. rewrite Hhex. cbn. now rewrite Hsame.
Qed.

Lemma normalizeAddress_base58_hex_witness :
  normalizeAddress example_numbers (example_tronWeb "41b3dcf27c251da9363f1a4888257c16676cf54edf")
    (VStr "TR7NHqjeKQxGTCi8q8ZY4pL8otSzgjLj6t")
  = normalizeAddress example_numbers
      (example_tronWeb "41b3dcf27c251da9363f1a4888257c16676cf54edf")
      (VStr "41A614F803B6FD780986A42C78EC9C7F77E6DED13C").
Proof.
  refine (normalizeAddress_base58_hex example_numbers
            (example_tronWeb "41b3dcf27c251da9363f1a4888257c16676cf54edf")
            "TR7NHqjeKQxGTCi8q8ZY4pL8otSzgjLj6t"
            "41a614f803b6fd780986a42c78ec9c7f77e6ded13c"
            "41A614F803B6FD780986A42C78EC9C7F77E6DED13C" _ _ _ _); reflexivity.
Defined.

(** X4. For a decimal amount below 2^53 the number [parseInt] hands to
    [sendTransaction] is the integer [BigInt] compared in [verify]. *)
Theorem parseInt_agrees_with_BigInt (js : JsNumbers) (amount : Z) :
  (0 <= amount < 2 ^ 53)%Z ->
  parseInt js (VStr (Z_to_string amount)) = Normal (Integral amount)
  /\ BigInt js (VStr (Z_to_string amount)) = Normal amount.
Proof.
  intros H. unfold parseInt, BigInt. cbn [ToString bind].
  rewrite string_parseInt_decimal, round_to_double_safe, StringToBigInt_decimal by lia.
  split; reflexivity.
Qed.

Lemma parseInt_agrees_with_BigInt_witness :
  parseInt example_numbers (VStr "9007199254740991") = Normal (Integral 9007199254740991)
  /\ BigInt example_numbers (VStr "9007199254740991") = Normal 9007199254740991%Z.
Proof. apply (parseInt_agrees_with_BigInt example_numbers 9007199254740991). lia. Defined.

(** With no signer configured [settle] answers that settlement is
    unavailable and calls neither [verify] nor the chain. *)
Lemma settle_unavailable (js : JsNumbers) (tronWeb : TronWeb) (now : Z)
  (request : SettleRequest) (h : list ChainCall) :
  settle js tronWeb now None request h
  = (Normal {| Settle.success := false;
               Settle.transactionHash := None;
               Settle.network := network (paymentRequirements request);
               Settle.settledAmount := None;
               Settle.error :=
                 Some "TRON settlement service unavailable - wallet not configured" |},
     h).
Proof. reflexivity. Qed.

(** X6. A receipt that has no [result] ends the loop of the contract path
    at once, as a confirmation timeout that carries the transaction
    identifier. *)
Theorem executeTRC20Settlement_receipt_without_result (js : JsNumbers)
  (client : ChainOracle) (network : string)
  (T payload tokenAddress to value tx : JsValue) (h : list ChainCall) (k : nat)
  (result : JsValue) :
  get T "payload" = Normal payload ->
  get payload "tokenAddress" = Normal tokenAddress ->
  truthy js tokenAddress = true ->
  get payload "to" = Normal to ->
  get payload "value" = Normal value ->
  (exists contract, client h (Contract tokenAddress) = Normal contract) ->
  client (h ++ [Contract tokenAddress])%list (TransferSend to value 100000000 0) = Normal tx ->
  (exists printed, ToString js tx = Normal printed) ->
  let h0 := (h ++ [Contract tokenAddress; TransferSend to value 100000000 0])%list in
  k < 30 ->
  (forall i, i < k -> no_receipt js (poll_answer client h0 tx i)) ->
  receipt_with js (poll_answer client h0 tx k) result ->
  truthy js result = false ->
  executeTRC20Settlement js (Some client) T network h
  = (Normal {| Settle.success := false;
               Settle.transactionHash := Some tx;
               Settle.network := network;
               Settle.settledAmount := None;
               Settle.error := Some "Transaction confirmation timeout" |},
     (h0 ++ poll_calls tx (S k))%list).
Proof.
  intros Hpayload Haddress Htruthy Hto Hvalue Hcontract Hsend Hprinted h0 Hk Hpending
    Hreceipt Hresult.
  rewrite (executeTRC20Settlement_submitted js client network T payload tokenAddress
             to value tx h Hpayload Haddress Htruthy Hto Hvalue Hcontract Hsend Hprinted).
  fold h0. rewrite (confirmTRC20_receipt js client network tx h0 k _ Hk Hpending Hreceipt).
  cbn zeta. rewrite Hresult, andb_false_r.
  assert (Hnot : strict_equal_string result "SUCCESS" = false)
    by (destruct result; cbn in *; try reflexivity; destruct s; cbn in *; congruence).
  now rewrite Hnot.
Qed.

Lemma executeTRC20Settlement_receipt_without_result_witness :
  executeTRC20Settlement example_numbers
    (Some (example_client
             (fun _ => Normal (VObj [("receipt", VObj [("net_usage", VStr "345")])]))))
    (Token.to_value (example_token "tron-transfer" "1000"
                       "41a614f803b6fd780986a42c78ec9c7f77e6ded13c"
                       (Some "TG3XXyExBkPp9nzdajDZsozEu4BkaSJozs")))
    "tron-shasta" []
  = (Normal {| Settle.success := false;
               Settle.transactionHash :=
                 Some (VStr "7c2d4206c03a883dd9066d620335dc1be272a8dc733cfa3f6d10308faa37facc");
               Settle.network := "tron-shasta";
               Settle.settledAmount := None;
               Settle.error := Some "Transaction confirmation timeout" |},
     [Contract (VStr "TG3XXyExBkPp9nzdajDZsozEu4BkaSJozs");
      TransferSend (VStr "41a614f803b6fd780986a42c78ec9c7f77e6ded13c") (VStr "1000")
        100000000 0]
     ++ poll_calls
          (VStr "7c2d4206c03a883dd9066d620335dc1be272a8dc733cfa3f6d10308faa37facc") 1)%list.
Proof.
  refine (executeTRC20Settlement_receipt_without_result example_numbers
       (example_client
          (fun _ => Normal (VObj [("receipt", VObj [("net_usage", VStr "345")])])))
       "tron-shasta"
       (Token.to_value (example_token "tron-transfer" "1000"
                          "41a614f803b6fd780986a42c78ec9c7f77e6ded13c"
                          (Some "TG3XXyExBkPp9nzdajDZsozEu4BkaSJozs")))
       (Token.payload_value
          (Token.payload (example_token "tron-transfer" "1000"
                            "41a614f803b6fd780986a42c78ec9c7f77e6ded13c"
                            (Some "TG3XXyExBkPp9nzdajDZsozEu4BkaSJozs"))))
       (VStr "TG3XXyExBkPp9nzdajDZsozEu4BkaSJozs")
       (VStr "41a614f803b6fd780986a42c78ec9c7f77e6ded13c") (VStr "1000")
       (VStr "7c2d4206c03a883dd9066d620335dc1be272a8dc733cfa3f6d10308faa37facc") []
       0 VUndefined _ _ _ _ _ _ _ _ _ _ _ _); try reflexivity.
  - eexists. reflexivity.
  - eexists. reflexivity.
  - lia.
  - intros i Hi. lia.
  - eexists. repeat split; reflexivity.
Defined.

(** X7. A header that decodes to a token [T] (any truthy value) with the
    scheme of the requirements [R] and a [network] that is not the string
    [X] that [R] names is stopped at the network check, whatever else the
    token and the requirements hold.  [verify] answers with the reason
    "Network mismatch: expected X, got Y", where [Y] is the network of the
    token as the template literal prints it: the network itself when it
    is a string, "undefined" when the token has none.  When the network is
    an object with a property [toString] of its own, [verify] throws the
    TypeError of printing it. *)
Theorem verify_network_mismatch (js : JsNumbers) (tronWeb : TronWeb) (now : Z)
  (header : string) (R : PaymentRequirements) (T : JsValue) :
  parsePaymentHeader header = T ->
  truthy js T = true ->
  property T "scheme" = VStr (scheme R) ->
  property T "network" <> VStr (network R) ->
  verify js tronWeb now {| paymentHeader := header; paymentRequirements := R |}
  = bind (ToString js (property T "network"))
      (fun Y =>
         Normal (invalid ("Network mismatch: expected " ++ network R ++ ", got " ++ Y)))
  /\ (forall Y, property T "network" = VStr Y ->
        verify js tronWeb now {| paymentHeader := header; paymentRequirements := R |}
        = Normal (invalid ("Network mismatch: expected " ++ network R ++ ", got " ++ Y)))
  /\ (property T "network" = VUndefined ->
        verify js tronWeb now {| paymentHeader := header; paymentRequirements := R |}
        = Normal (invalid ("Network mismatch: expected " ++ network R ++ ", got undefined")))
  /\ (forall fields, property T "network" = VObj fields -> has_own "toString" fields = true ->
        verify js tronWeb now {| paymentHeader := header; paymentRequirements := R |}
        = Throw (ErrorObject ETypeError "Cannot convert object to primitive value")).
Proof.
  intros HT Htruthy Hscheme Hneq. subst T.
  assert (Hverify :
    verify js tronWeb now {| paymentHeader := header; paymentRequirements := R |}
    = bind (ToString js (property (parsePaymentHeader header) "network"))
        (fun Y =>
           Normal (invalid ("Network mismatch: expected " ++ network R ++ ", got " ++ Y)))).
  { unfold verify. cbn [paymentHeader paymentRequirements].
    rewrite Htruthy. cbn [negb]. rewrite !(get_truthy js _ _ Htruthy), Hscheme.
    cbn [bind strict_equal_string]. rewrite String.eqb_refl. cbn [negb].
    now rewrite (strict_equal_string_other _ _ Hneq). }
  split; [exact Hverify|]. rewrite Hverify. split; [|split].
  - intros Y ->. reflexivity.
  - intros ->. reflexivity.
  - intros fields -> Hown. cbn [ToString]. rewrite Hown. reflexivity.
Qed.

(** A token for tron-shasta against requirements for tron-mainnet; a
    token without a network; a token whose network cannot be printed. *)
Lemma verify_network_mismatch_witness :
  verify example_numbers (example_tronWeb "41b3dcf27c251da9363f1a4888257c16676cf54edf")
    example_now
    {| paymentHeader :=
         header_of (example_token "tron-transfer" "1000"
                      "41a614f803b6fd780986a42c78ec9c7f77e6ded13c" None);
       paymentRequirements :=
         {| scheme := "tron-transfer"; network := "tron-mainnet";
            maxAmountRequired := "1000"; resource := "https://api.example.com/report";
            payTo := "41a614f803b6fd780986a42c78ec9c7f77e6ded13c" |} |}
  = Normal (invalid "Network mismatch: expected tron-mainnet, got tron-shasta")
  /\ verify example_numbers (example_tronWeb "41b3dcf27c251da9363f1a4888257c16676cf54edf")
       example_now
       {| paymentHeader := "eyJzY2hlbWUiOiJleGFjdCJ9";
          paymentRequirements :=
            example_requirements "exact" "1000"
              "41a614f803b6fd780986a42c78ec9c7f77e6ded13c" |}
     = Normal (invalid "Network mismatch: expected tron-shasta, got undefined")
  /\ verify example_numbers (example_tronWeb "41b3dcf27c251da9363f1a4888257c16676cf54edf")
       example_now
       {| paymentHeader := "eyJzY2hlbWUiOiJleGFjdCIsIm5ldHdvcmsiOnsidG9TdHJpbmciOiIwIn19";
          paymentRequirements :=
            example_requirements "exact" "1000"
              "41a614f803b6fd780986a42c78ec9c7f77e6ded13c" |}
     = Throw (ErrorObject ETypeError "Cannot convert object to primitive value").
Proof.
  split; [|split].
  - refine (proj1 (proj2
              (verify_network_mismatch example_numbers
                 (example_tronWeb "41b3dcf27c251da9363f1a4888257c16676cf54edf") example_now
                 (header_of (example_token "tron-transfer" "1000"
                               "41a614f803b6fd780986a42c78ec9c7f77e6ded13c" None))
                 {| scheme := "tron-transfer"; network := "tron-mainnet";
                    maxAmountRequired := "1000"; resource := "https://api.example.com/report";
                    payTo := "41a614f803b6fd780986a42c78ec9c7f77e6ded13c" |}
                 (Token.to_value (example_token "tron-transfer" "1000"
                                    "41a614f803b6fd780986a42c78ec9c7f77e6ded13c" None))
                 _ _ _ _)) "tron-shasta" _);
      [vm_compute; reflexivity | reflexivity | reflexivity | discriminate | reflexivity].
  - refine (proj1 (proj2 (proj2
              (verify_network_mismatch example_numbers
                 (example_tronWeb "41b3dcf27c251da9363f1a4888257c16676cf54edf") example_now
                 "eyJzY2hlbWUiOiJleGFjdCJ9"
                 (example_requirements "exact" "1000"
                    "41a614f803b6fd780986a42c78ec9c7f77e6ded13c")
                 (VObj [("scheme", VStr "exact")])
                 _ _ _ _))) _);
      [vm_compute; reflexivity | reflexivity | reflexivity | discriminate | reflexivity].
  - refine (proj2 (proj2 (proj2
              (verify_network_mismatch example_numbers
                 (example_tronWeb "41b3dcf27c251da9363f1a4888257c16676cf54edf") example_now
                 "eyJzY2hlbWUiOiJleGFjdCIsIm5ldHdvcmsiOnsidG9TdHJpbmciOiIwIn19"
                 (example_requirements "exact" "1000"
                    "41a614f803b6fd780986a42c78ec9c7f77e6ded13c")
                 (VObj [("scheme", VStr "exact");
                        ("network", VObj [("toString", VStr "0")])])
                 _ _ _ _))) [("toString", VStr "0")] _ _);
      [vm_compute; reflexivity | reflexivity | reflexivity | discriminate
      | reflexivity | reflexivity].
Defined.

Lemma confirmTRX_round (js : JsNumbers) (client : ChainOracle) (tx : JsValue)
  (budget : nat) (h : list ChainCall) :
  confirmTRX js client tx (S budget) h
  = let h' := (h ++ [Delay 2000; GetTransactionInfo tx])%list in
    match poll_answer client h tx 0 with
    | Throw e => (Throw e, h')
    | Normal txInfo =>
        if truthy js txInfo && has_keys txInfo then (Normal (Left true), h')
        else confirmTRX js client tx budget h'
    end.
Proof.
  rewrite poll_answer_first. cbn zeta.
  cbn [confirmTRX]. unfold chain_bind, delay, call, lift, ret.
  rewrite <- app_assoc. cbn [app].
  destruct (client (h ++ [Delay 2000])%list (GetTransactionInfo tx)) as [txInfo|e];
    [|reflexivity].
  now destruct (truthy js txInfo && has_keys txInfo).
Qed.

Lemma confirmTRX_unknown (js : JsNumbers) (client : ChainOracle) (tx : JsValue)
  (k budget : nat) : forall h,
  (forall i, i < k -> status_unknown js (poll_answer client h tx i)) ->
  confirmTRX js client tx (k + budget) h
  = confirmTRX js client tx budget (h ++ poll_calls tx k)%list.
Proof.
  induction k as [|k IH]; intros h Hpending.
  - cbn. now rewrite app_nil_r.
  - cbn [Nat.add]. rewrite confirmTRX_round. cbn zeta.
    destruct (Hpending 0 ltac:(lia)) as (txInfo & -> & ->).
    rewrite IH, poll_calls_app; [reflexivity|].
    intros i Hi. rewrite poll_answer_shift. apply Hpending. lia.
Qed.

Lemma executeTRXSettlement_submitted (js : JsNumbers) (client : ChainOracle)
  (network : string) (T payload to value tx txId : JsValue) (amount : JsDouble)
  (h : list ChainCall) :
  get T "payload" = Normal payload ->
  get payload "to" = Normal to ->
  get payload "value" = Normal value ->
  parseInt js value = Normal amount ->
  client h (SendTransaction to amount) = Normal tx ->
  (exists result, get tx "result" = Normal result /\ truthy js result = true) ->
  get tx "txid" = Normal txId ->
  truthy js txId = true ->
  (exists printed, ToString js txId = Normal printed) ->
  executeTRXSettlement js (Some client) T network h
  = match confirmTRX js client txId maxAttempts (h ++ [SendTransaction to amount])%list with
    | (Normal (Returned r), h') => (Normal r, h')
    | (Normal (Left false), h') =>
        (Normal {| Settle.success := false;
                   Settle.transactionHash := Some txId;
                   Settle.network := network;
                   Settle.settledAmount := None;
                   Settle.error := Some "Transaction confirmation timeout" |}, h')
    | (Normal (Left true), h') =>
        (Normal {| Settle.success := true;
                   Settle.transactionHash := Some txId;
                   Settle.network := network;
                   Settle.settledAmount := Some value;
                   Settle.error := None |}, h')
    | (Throw e, h') => (Throw e, h')
    end.
Proof.
  intros Hpayload Hto Hvalue Hamount Hsend (result & Hresult & Htruthy) Htxid Hid
    (printed & Hprinted).
  unfold executeTRXSettlement, getTronWalletService, logger_log, chain_bind, chain_try,
    lift, call, ret.
  rewrite Hpayload, Hto, Hvalue, Hamount, Hsend, Hresult, Htruthy. cbn [negb].
  rewrite Htxid, Hid, Hprinted. cbn [bind].
  destruct (confirmTRX _ _ _ _ _) as [[[r|[|]]|e] h']; reflexivity.
Qed.

(** X8. On the native path the first status answer that is a non-empty
    object, at poll [k + 1 <= 30], ends the loop as [success: true] with
    the transaction identifier and [settledAmount = payload.value],
    whatever that answer holds; thirty polls without one end it as a
    confirmation timeout that carries the identifier. *)
Theorem executeTRXSettlement_confirmation (js : JsNumbers) (client : ChainOracle)
  (network : string) (T payload to value tx txId : JsValue) (amount : JsDouble)
  (h : list ChainCall) :
  get T "payload" = Normal payload ->
  get payload "to" = Normal to ->
  get payload "value" = Normal value ->
  parseInt js value = Normal amount ->
  client h (SendTransaction to amount) = Normal tx ->
  (exists result, get tx "result" = Normal result /\ truthy js result = true) ->
  get tx "txid" = Normal txId ->
  truthy js txId = true ->
  (exists printed, ToString js txId = Normal printed) ->
  let h0 := (h ++ [SendTransaction to amount])%list in
  let run := executeTRXSettlement js (Some client) T network h in
  (forall k, k < 30 ->
     (forall i, i < k -> status_unknown js (poll_answer client h0 txId i)) ->
     status_known js (poll_answer client h0 txId k) ->
     run = (Normal {| Settle.success := true;
                      Settle.transactionHash := Some txId;
                      Settle.network := network;
                      Settle.settledAmount := Some value;
                      Settle.error := None |},
            (h0 ++ poll_calls txId (S k))%list))
  /\ ((forall i, i < 30 -> status_unknown js (poll_answer client h0 txId i)) ->
      run = (Normal {| Settle.success := false;
                       Settle.transactionHash := Some txId;
                       Settle.network := network;
                       Settle.settledAmount := None;
                       Settle.error := Some "Transaction confirmation timeout" |},
             (h0 ++ poll_calls txId 30)%list)).
Proof.
  intros Hpayload Hto Hvalue Hamount Hsend Hresult Htxid Hid Hprinted h0 run.
  assert (Hrun := executeTRXSettlement_submitted js client network T payload to value tx
                    txId amount h Hpayload Hto Hvalue Hamount Hsend Hresult Htxid Hid
                    Hprinted).
  fold h0 run in Hrun. split.
  - intros k Hk Hpending (txInfo & Hanswer & Hknown). rewrite Hrun.
    replace maxAttempts with (k + S (maxAttempts - S k)) by (unfold maxAttempts; lia).
    rewrite (confirmTRX_unknown js client txId k _ h0 Hpending).
    rewrite confirmTRX_round, poll_answer_after, Hanswer. cbn zeta.
    now rewrite Hknown, poll_calls_succ.
  - intros Hpending. rewrite Hrun.
    replace maxAttempts with (maxAttempts + 0) at 1 by lia.
    now rewrite (confirmTRX_unknown js client txId maxAttempts 0 h0 Hpending).
Qed.

(** The second poll answers with a receipt whose result is REVERT: the
    native path reports success all the same. *)
Lemma executeTRXSettlement_confirmation_witness :
  executeTRXSettlement example_numbers
    (Some (example_client
             (fun i => if Nat.eqb i 1 then receipt_answer "REVERT" else unknown_answer)))
    (Token.to_value (example_token "tron-transfer" "1000"
                       "41a614f803b6fd780986a42c78ec9c7f77e6ded13c" None))
    "tron-shasta" []
  = (Normal {| Settle.success := true;
               Settle.transactionHash :=
                 Some (VStr "9f0b1c2d3e4f5a6b7c8d9e0f1a2b3c4d5e6f708192a3b4c5d6e7f8091a2b3c4d");
               Settle.network := "tron-shasta";
               Settle.settledAmount := Some (VStr "1000");
               Settle.error := None |},
     [SendTransaction (VStr "41a614f803b6fd780986a42c78ec9c7f77e6ded13c") (Integral 1000)]
     ++ poll_calls
          (VStr "9f0b1c2d3e4f5a6b7c8d9e0f1a2b3c4d5e6f708192a3b4c5d6e7f8091a2b3c4d") 2)%list.
Proof.
  refine (proj1 (executeTRXSettlement_confirmation example_numbers
       (example_client
          (fun i => if Nat.eqb i 1 then receipt_answer "REVERT" else unknown_answer))
       "tron-shasta"
       (Token.to_value (example_token "tron-transfer" "1000"
                          "41a614f803b6fd780986a42c78ec9c7f77e6ded13c" None))
       (Token.payload_value
          (Token.payload (example_token "tron-transfer" "1000"
                            "41a614f803b6fd780986a42c78ec9c7f77e6ded13c" None)))
       (VStr "41a614f803b6fd780986a42c78ec9c7f77e6ded13c") (VStr "1000")
       (VObj [("result", VBool true);
              ("txid", VStr "9f0b1c2d3e4f5a6b7c8d9e0f1a2b3c4d5e6f708192a3b4c5d6e7f8091a2b3c4d")])
       (VStr "9f0b1c2d3e4f5a6b7c8d9e0f1a2b3c4d5e6f708192a3b4c5d6e7f8091a2b3c4d")
       (Integral 1000) [] _ _ _ _ _ _ _ _ _) 1 _ _ _); try reflexivity.
  - eexists. split; reflexivity.
  - eexists. reflexivity.
  - lia.
  - intros i Hi. assert (i = 0) as -> by lia. eexists. split; reflexivity.
  - eexists. split; reflexivity.
Defined.

(** X9. [verifyTronSignature] fails closed: when the recovery of the
    signer throws, it returns a check that is not valid, with the reason
    "Signature verification error: ..." and throws nothing. *)
Theorem verifyTronSignature_fails_closed (js : JsNumbers) (tronWeb : TronWeb)
  (payload signature s : JsValue) (message messageHex : string) (error : JsThrown) :
  buildSignatureMessage js payload = Normal message ->
  toHex tronWeb message = Normal messageHex ->
  get signature "signature" = Normal s ->
  trx_verifyMessage tronWeb messageHex s = Throw error ->
  verifyTronSignature js tronWeb payload signature
  = Normal {| valid := false;
              reason := Some ("Signature verification error: "
                              ++ error_message error "Unknown error") |}.
Proof.
  intros Hmessage Hhex Hs Hthrow. unfold verifyTronSignature.
  now rewrite Hmessage; cbn [bind]; rewrite Hhex; cbn [bind]; rewrite Hs; cbn [bind];
    rewrite Hthrow.
Qed.

(** A client whose signature recovery rejects with an [Error]. *)
Lemma verifyTronSignature_fails_closed_witness :
  verifyTronSignature example_numbers
    {| toHex := fun message => Normal message;
       address_toHex := fun address => Normal address;
       trx_verifyMessage := fun _ _ => Throw (ErrorObject EError "Invalid signature length") |}
    (Token.payload_value
       (Token.payload (example_token "tron-transfer" "1000"
                         "41a614f803b6fd780986a42c78ec9c7f77e6ded13c" None)))
    (VObj [("signature", VStr "0xsig")])
  = Normal {| valid := false;
              reason := Some "Signature verification error: Invalid signature length" |}.
Proof.
  refine (verifyTronSignature_fails_closed example_numbers
            {| toHex := fun message => Normal message;
               address_toHex := fun address => Normal address;
               trx_verifyMessage :=
                 fun _ _ => Throw (ErrorObject EError "Invalid signature length") |}
            (Token.payload_value
               (Token.payload (example_token "tron-transfer" "1000"
                                 "41a614f803b6fd780986a42c78ec9c7f77e6ded13c" None)))
            (VObj [("signature", VStr "0xsig")]) (VStr "0xsig")
            "41b3dcf27c251da9363f1a4888257c16676cf54edf|41a614f803b6fd780986a42c78ec9c7f77e6ded13c|1000|0|9999999999|n1"
            "41b3dcf27c251da9363f1a4888257c16676cf54edf|41a614f803b6fd780986a42c78ec9c7f77e6ded13c|1000|0|9999999999|n1"
            (ErrorObject EError "Invalid signature length") _ _ _ _); reflexivity.
Defined.



(** ** What [settle] leaves on the chain *)

Lemma get_property (v : JsValue) (name : string) (x : JsValue) :
  get v name = Normal x -> x = property v name.
Proof. destruct v; cbn; intros H; inversion H; reflexivity. Qed.


Lemma confirmTRC20_returned (js : JsNumbers) (client : ChainOracle) (network : string)
  (tx : JsValue) (budget : nat) : forall h r,
  fst (confirmTRC20 js client network tx budget h) = Normal (Returned r) -> failure r.
Proof.
  induction budget as [|budget IH]; intros h r.
  - cbn. discriminate.
  - rewrite confirmTRC20_round. cbn zeta.
    destruct (poll_answer client h tx 0) as [txInfo|e]; [|discriminate].
    destruct (truthy js (receipt_of js txInfo)); [|apply IH].
    destruct (negb _ && truthy js _); [|discriminate].
    destruct (ToString js _); [|discriminate].
    cbn. intros H. inversion H. split; [reflexivity|]. split; [reflexivity|]. cbn. eauto.
Qed.

Lemma confirmTRX_calls (js : JsNumbers) (client : ChainOracle) (tx : JsValue)
  (budget : nat) : forall h,
  exists n, n <= budget
    /\ snd (confirmTRX js client tx budget h) = (h ++ poll_calls tx n)%list.
Proof.
  induction budget as [|budget IH]; intros h.
  - exists 0. split; [lia|]. cbn. now rewrite app_nil_r.
  - rewrite confirmTRX_round. cbn zeta.
    assert (Hone : exists n, n <= S budget
              /\ (h ++ [Delay 2000; GetTransactionInfo tx] = h ++ poll_calls tx n)%list)
      by (exists 1; split; [lia | reflexivity]).
    destruct (poll_answer client h tx 0) as [txInfo|e]; [|exact Hone].
    destruct (truthy js txInfo && has_keys txInfo); [exact Hone|].
    destruct (IH (h ++ [Delay 2000; GetTransactionInfo tx])%list) as (n & Hn & ->).
    exists (S n). split; [lia | apply poll_calls_app].
Qed.

Lemma confirmTRX_not_returned (js : JsNumbers) (client : ChainOracle) (tx : JsValue)
  (budget : nat) : forall h r,
  fst (confirmTRX js client tx budget h) <> Normal (Returned r).
Proof.
  induction budget as [|budget IH]; intros h r.
  - cbn. discriminate.
  - rewrite confirmTRX_round. cbn zeta.
    destruct (poll_answer client h tx 0) as [txInfo|e]; [|discriminate].
    destruct (truthy js txInfo && has_keys txInfo); [discriminate | apply IH].
Qed.

(** A loop left as confirmed has polled the identifier. *)
Lemma confirmTRC20_polls (js : JsNumbers) (client : ChainOracle) (network : string)
  (tx : JsValue) (budget : nat) : forall h,
  exists n, n <= budget
    /\ snd (confirmTRC20 js client network tx budget h) = (h ++ poll_calls tx n)%list
    /\ (fst (confirmTRC20 js client network tx budget h) = Normal (Left true) ->
        In (GetTransactionInfo tx) (poll_calls tx n)).
Proof.
  induction budget as [|budget IH]; intros h.
  - exists 0. split; [lia|]. cbn. rewrite app_nil_r. split; [reflexivity | discriminate].
  - rewrite confirmTRC20_round. cbn zeta.
    assert (Hone : forall c : Completion LoopExit,
              exists n, n <= S budget
                /\ snd (c, (h ++ [Delay 2000; GetTransactionInfo tx])%list)
                   = (h ++ poll_calls tx n)%list
                /\ (fst (c, (h ++ [Delay 2000; GetTransactionInfo tx])%list)
                    = Normal (Left true) ->
                    In (GetTransactionInfo tx) (poll_calls tx n))).
    { intros c. exists 1. split; [lia|]. split; [reflexivity|]. intros _. right. now left. }
    destruct (poll_answer client h tx 0) as [txInfo|e]; [|apply Hone].
    destruct (truthy js (receipt_of js txInfo)).
    + destruct (negb _ && truthy js _); [|apply Hone].
      destruct (ToString js _); apply Hone.
    + destruct (IH (h ++ [Delay 2000; GetTransactionInfo tx])%list) as (n & Hn & Hcalls & Hin).
      exists (S n). split; [lia|]. split; [now rewrite Hcalls, poll_calls_app|].
      intros H. right. right. now apply Hin.
Qed.

Lemma confirmTRX_polls (js : JsNumbers) (client : ChainOracle) (tx : JsValue)
  (budget : nat) : forall h,
  exists n, n <= budget
    /\ snd (confirmTRX js client tx budget h) = (h ++ poll_calls tx n)%list
    /\ (fst (confirmTRX js client tx budget h) = Normal (Left true) ->
        In (GetTransactionInfo tx) (poll_calls tx n)).
Proof.
  induction budget as [|budget IH]; intros h.
  - exists 0. split; [lia|]. cbn. rewrite app_nil_r. split; [reflexivity | discriminate].
  - rewrite confirmTRX_round. cbn zeta.
    assert (Hone : forall c : Completion LoopExit,
              exists n, n <= S budget
                /\ snd (c, (h ++ [Delay 2000; GetTransactionInfo tx])%list)
                   = (h ++ poll_calls tx n)%list
                /\ (fst (c, (h ++ [Delay 2000; GetTransactionInfo tx])%list)
                    = Normal (Left true) ->
                    In (GetTransactionInfo tx) (poll_calls tx n))).
    { intros c. exists 1. split; [lia|]. split; [reflexivity|]. intros _. right. now left. }
    destruct (poll_answer client h tx 0) as [txInfo|e]; [|apply Hone].
    destruct (truthy js txInfo && has_keys txInfo); [apply Hone|].
    destruct (IH (h ++ [Delay 2000; GetTransactionInfo tx])%list) as (n & Hn & Hcalls & Hin).
    exists (S n). split; [lia|]. split; [now rewrite Hcalls, poll_calls_app|].
    intros H. right. right. now apply Hin.
Qed.

Lemma settlement_calls_nil (js : JsNumbers) (T : JsValue) : settlement_calls js T [].
Proof. unfold settlement_calls. destruct (truthy js _); constructor. Qed.

Lemma failure_reports (js : JsNumbers) (T : JsValue) (new : list ChainCall)
  (r : SettleResponse) : failure r -> result_reports js T new r.
Proof. intros (Hs & Ha & He). unfold result_reports. rewrite Hs. now split. Qed.

Ltac settled_early :=
  cbn [fst snd];
  first
    [ exists []; rewrite app_nil_r; split; [reflexivity|];
      split; [constructor|];
      intros r Hr;
      first [discriminate Hr | inversion Hr; subst; cbn; split; [reflexivity | eauto]]
    | eexists; split; [reflexivity|];
      split; [constructor; lia|];
      intros r Hr;
      first [discriminate Hr | inversion Hr; subst; cbn; split; [reflexivity | eauto]] ].

Lemma executeTRC20Settlement_calls (js : JsNumbers) (client : ChainOracle)
  (T : JsValue) (network : string) (h : list ChainCall) :
  exists new,
    snd (executeTRC20Settlement js (Some client) T network h) = (h ++ new)%list
    /\ contract_calls T new
    /\ forall r, fst (executeTRC20Settlement js (Some client) T network h) = Normal r ->
         result_reports js T new r.
Proof.
  unfold executeTRC20Settlement, getTronWalletService, chain_bind, chain_try, logger_log,
    lift, call, ret.
  destruct (get T "payload") as [payload|e] eqn:Hpayload; [|settled_early].
  apply get_property in Hpayload. subst payload.
  destruct (get (property T "payload") "tokenAddress") as [a|e] eqn:Ha; [|settled_early].
  apply get_property in Ha. subst a.
  destruct (truthy js (property (property T "payload") "tokenAddress")) eqn:Htruthy;
    cbn [negb]; [|settled_early].
  destruct (client h _) as [contract|e]; [|settled_early].
  destruct (get (property T "payload") "to") as [to|e] eqn:Hto; [|settled_early].
  apply get_property in Hto. subst to.
  destruct (get (property T "payload") "value") as [value|e] eqn:Hvalue; [|settled_early].
  apply get_property in Hvalue. subst value.
  destruct (client _ (TransferSend _ _ _ _)) as [tx|e].
  2: { rewrite <- app_assoc. cbn [app]. 
       exists [Contract (property (property T "payload") "tokenAddress");
               TransferSend (property (property T "payload") "to")
                 (property (property T "payload") "value") 100000000 0].
       split; [reflexivity|]. split.
       - apply (contract_transfer T VUndefined 0). lia.
       - intros r Hr. discriminate Hr. }
  rewrite <- app_assoc. cbn [app].
  set (a := property (property T "payload") "tokenAddress") in *.
  set (to := property (property T "payload") "to") in *.
  set (value := property (property T "payload") "value") in *.
  set (h0 := (h ++ [Contract a; TransferSend to value 100000000 0])%list).
  destruct (ToString js tx) as [printed|e]; cbn [bind].
  2: { exists [Contract a; TransferSend to value 100000000 0].
       split; [reflexivity|]. split.
       - apply (contract_transfer T VUndefined 0). lia.
       - intros r Hr. discriminate Hr. }
  destruct (confirmTRC20_polls js client network tx maxAttempts h0)
    as (n & Hn & Hcalls & Hpolled).
  pose proof (confirmTRC20_returned js client network tx maxAttempts h0) as Hreturned.
  destruct (confirmTRC20 js client network tx maxAttempts h0) as [[[r|[|]]|e] h'];
    cbn [fst snd] in *; subst h'; unfold h0; rewrite <- app_assoc; cbn [app];
    exists (Contract a :: TransferSend to value 100000000 0 :: poll_calls tx n);
    (split; [reflexivity|]);
    (split; [apply contract_transfer; assumption|]);
    intros r' Hr'; try discriminate Hr'; inversion Hr'; subst r'.
  - apply failure_reports, Hreturned. reflexivity.
  - cbn. split; [reflexivity|]. split; [reflexivity|]. split.
    + exists tx. split; [reflexivity|]. right. right. now apply Hpolled.
    + exists (TransferSend to value 100000000 0).
      split; [right; left; reflexivity | reflexivity].
  - cbn. split; [reflexivity | eauto].
Qed.

Lemma executeTRXSettlement_calls (js : JsNumbers) (client : ChainOracle)
  (T : JsValue) (network : string) (h : list ChainCall) :
  exists new,
    snd (executeTRXSettlement js (Some client) T network h) = (h ++ new)%list
    /\ native_calls js T new
    /\ forall r, fst (executeTRXSettlement js (Some client) T network h) = Normal r ->
         result_reports js T new r.
Proof.
  unfold executeTRXSettlement, getTronWalletService, chain_bind, chain_try, logger_log,
    lift, call, ret.
  destruct (get T "payload") as [payload|e] eqn:Hpayload; [|settled_early].
  apply get_property in Hpayload. subst payload.
  destruct (get (property T "payload") "to") as [to|e] eqn:Hto; [|settled_early].
  apply get_property in Hto. subst to.
  destruct (get (property T "payload") "value") as [value|e] eqn:Hvalue; [|settled_early].
  apply get_property in Hvalue. subst value.
  set (to := property (property T "payload") "to") in *.
  set (value := property (property T "payload") "value") in *.
  destruct (parseInt js value) as [amount|e] eqn:Hamount; [|settled_early].
  assert (Hsent : native_calls js T [SendTransaction to amount])
    by (apply (native_transfer js T amount VUndefined 0); [lia | assumption]).
  assert (Hfailed : forall (c : Completion SettleResponse),
             (forall r, c = Normal r -> failure r) ->
             exists new,
               snd (c, (h ++ [SendTransaction to amount])%list) = (h ++ new)%list
               /\ native_calls js T new
               /\ forall r, fst (c, (h ++ [SendTransaction to amount])%list) = Normal r ->
                    result_reports js T new r).
  { intros c Hc. exists [SendTransaction to amount]. split; [reflexivity|].
    split; [exact Hsent|]. cbn [fst]. intros r Hr. apply failure_reports, Hc, Hr. }
  destruct (client h (SendTransaction to amount)) as [tx|e];
    [|apply Hfailed; discriminate].
  destruct (get tx "result") as [result|e]; [|apply Hfailed; discriminate].
  destruct (truthy js result); cbn [negb].
  2: { apply Hfailed. intros r Hr. inversion Hr.
       split; [reflexivity|]. split; [reflexivity|]. cbn. eauto. }
  destruct (get tx "txid") as [txid|e]; [|apply Hfailed; discriminate].
  set (h1 := (h ++ [SendTransaction to amount])%list) in *.
  destruct (truthy js txid);
    [|destruct (get tx "transaction") as [[| | | | | |]|e]; cbn [get];
      try (apply Hfailed; discriminate)];
    match goal with
    | |- context [confirmTRX js client ?txId maxAttempts h1] =>
        destruct (ToString js txId) as [printed|e]; cbn [bind];
        [|apply Hfailed; discriminate];
        destruct (confirmTRX_polls js client txId maxAttempts h1)
          as (n & Hn & Hcalls & Hpolled);
        pose proof (confirmTRX_not_returned js client txId maxAttempts h1) as Hreturned;
        destruct (confirmTRX js client txId maxAttempts h1) as [[[r|[|]]|e] h'];
        cbn [fst snd] in *; subst h'; unfold h1; rewrite <- app_assoc; cbn [app];
        exists (SendTransaction to amount :: poll_calls txId n);
        (split; [reflexivity|]);
        (split; [apply native_transfer; assumption|]);
        intros r' Hr'; try discriminate Hr'; inversion Hr'; subst r';
        [ now destruct (Hreturned r)
        | cbn; split; [reflexivity|]; split; [reflexivity|];
          split; [exists txId; split; [reflexivity | right; now apply Hpolled]|];
          exists (SendTransaction to amount); split; [left; reflexivity | reflexivity]
        | cbn; split; [reflexivity | eauto] ]
    end.
Qed.

Lemma settle_outcome_failure (js : JsNumbers) (tronWeb : TronWeb) (now : Z)
  (request : SettleRequest) (h : list ChainCall) (r : SettleResponse) :
  failure r -> settle_outcome js tronWeb now request h (Normal r, h).
Proof.
  intros Hr. exists []. cbn [fst snd]. rewrite app_nil_r.
  split; [reflexivity|]. split; [apply settlement_calls_nil|]. split.
  - intros r' Hr'. inversion Hr'; subst. now apply failure_reports.
  - split; [discriminate | congruence].
Qed.

Lemma settle_calls (js : JsNumbers) (tronWeb : TronWeb) (now : Z)
  (wallet : option ChainOracle) (request : SettleRequest) (h : list ChainCall) :
  settle_outcome js tronWeb now request h (settle js tronWeb now wallet request h).
Proof.
  unfold settle.
  destruct wallet as [client|]; cbn [isTronWalletServiceAvailable negb].
  2: { apply settle_outcome_failure. split; [reflexivity|]. split; [reflexivity|]. cbn. eauto. }
  destruct (truthy js (parsePaymentHeader (paymentHeader request))) eqn:Htoken; cbn [negb].
  2: { apply settle_outcome_failure. split; [reflexivity|]. split; [reflexivity|]. cbn. eauto. }
  unfold chain_bind at 1. unfold lift at 1.
  destruct (verify js tronWeb now request) as [verification|e] eqn:Hverify.
  2: { exists []. cbn [fst snd]. rewrite app_nil_r. split; [reflexivity|].
       split; [apply settlement_calls_nil|]. split; [discriminate|]. split.
       - intros e' He'. inversion He'; subst. split; [assumption || reflexivity | reflexivity].
       - congruence. }
  destruct (isValid verification) eqn:Hvalid; cbn [negb].
  2: { apply settle_outcome_failure. split; [reflexivity|]. split; [reflexivity|]. cbn. eauto. }
  set (T := parsePaymentHeader (paymentHeader request)) in *.
  unfold chain_try, chain_bind, lift.
  rewrite (get_truthy js T "scheme" Htoken).
  destruct (strict_equal_string (property T "scheme") "tron-transfer") eqn:Hscheme.
  2: { destruct (ToString js (property T "scheme")) as [got|e];
         apply settle_outcome_failure; (split; [reflexivity|]); (split; [reflexivity|]);
         cbn; eauto. }
  rewrite (get_truthy js T "payload" Htoken).
  assert (Hcaught : forall run0 : Completion SettleResponse * list ChainCall,
    (exists new,
        snd run0 = (h ++ new)%list
        /\ settlement_calls js T new
        /\ (forall r, fst run0 = Normal r -> result_reports js T new r)) ->
    settle_outcome js tronWeb now request h
      (let (c, h') := run0 in
       match c with
       | Normal a => (Normal a, h')
       | Throw e =>
           ret {| Settle.success := false;
                  Settle.transactionHash := None;
                  Settle.network := network (paymentRequirements request);
                  Settle.settledAmount := None;
                  Settle.error := Some (error_message e "Unknown settlement error") |} h'
       end)).
  { intros [[r|e] h'] (new & Hcalls & Hshape & Hreports); cbn [fst snd ret] in *;
      exists new; fold T; rewrite Hverify;
      (split; [exact Hcalls|]); (split; [exact Hshape|]); cbn [fst snd];
      (split; [|split; [discriminate | eauto]]).
    - exact Hreports.
    - intros r Hr. inversion Hr; subst. cbn. split; [reflexivity | eauto]. }
  destruct (get (property T "payload") "tokenAddress") as [a|e] eqn:Ha.
  2: { apply (Hcaught (Throw e, h)). exists []. cbn [fst snd]. rewrite app_nil_r.
       split; [reflexivity|]. split; [apply settlement_calls_nil | discriminate]. }
  apply get_property in Ha. subst a. apply Hcaught. unfold settlement_calls.
  destruct (truthy js (property (property T "payload") "tokenAddress")) eqn:Haddress.
  - apply executeTRC20Settlement_calls.
  - apply executeTRXSettlement_calls.
Qed.

(** X11. [settle] throws only what its re-verification throws, and then
    before any call to the chain: every error of the wallet's client,
    before or after the submission, comes back as a result. *)
Theorem settle_throws_only_from_verify (js : JsNumbers) (tronWeb : TronWeb) (now : Z)
  (wallet : option ChainOracle) (request : SettleRequest) (h h' : list ChainCall)
  (error : JsThrown) :
  settle js tronWeb now wallet request h = (Throw error, h') ->
  verify js tronWeb now request = Throw error /\ h' = h.
Proof.
  intros Hrun.
  destruct (settle_calls js tronWeb now wallet request h)
    as (new & Hcalls & _ & _ & Hthrow & _).
  rewrite Hrun in Hcalls, Hthrow. cbn [fst snd] in *.
  destruct (Hthrow error eq_refl) as (Hverify & ->).
  split; [exact Hverify|]. now rewrite app_nil_r in Hcalls.
Qed.

Lemma settle_throws_only_from_verify_witness :
  verify example_numbers (example_tronWeb "41b3dcf27c251da9363f1a4888257c16676cf54edf")
    example_now
    {| paymentHeader :=
         header_of (example_token "exact" "abc"
                      "41a614f803b6fd780986a42c78ec9c7f77e6ded13c" None);
       paymentRequirements :=
         example_requirements "exact" "1000" "41a614f803b6fd780986a42c78ec9c7f77e6ded13c" |}
  = Throw (ErrorObject ESyntaxError "Cannot convert abc to a BigInt")
  /\ @nil ChainCall = [].
Proof.
  refine (settle_throws_only_from_verify example_numbers
            (example_tronWeb "41b3dcf27c251da9363f1a4888257c16676cf54edf") example_now
            (Some (example_client (fun _ => receipt_answer "SUCCESS")))
            {| paymentHeader :=
                 header_of (example_token "exact" "abc"
                              "41a614f803b6fd780986a42c78ec9c7f77e6ded13c" None);
               paymentRequirements :=
                 example_requirements "exact" "1000"
                   "41a614f803b6fd780986a42c78ec9c7f77e6ded13c" |}
            [] [] (ErrorObject ESyntaxError "Cannot convert abc to a BigInt") _).
  vm_compute. reflexivity.
Defined.







(** X14. What a result of [settle] says.  [success: true] comes with
    [settledAmount = payload.value], with no error, with a transfer
    submitted in this call, and with the identifier whose status this call
    polled as [transactionHash]: whatever the submission gave for it,
    which is [undefined] when the broadcast answer carries neither [txid]
    nor [transaction].  [success: false] comes with an error and no
    settled amount. *)
Theorem settle_result_consistent (js : JsNumbers) (tronWeb : TronWeb) (now : Z)
  (wallet : option ChainOracle) (request : SettleRequest) (h : list ChainCall)
  (r : SettleResponse) :
  let payload := property (parsePaymentHeader (paymentHeader request)) "payload" in
  fst (settle js tronWeb now wallet request h) = Normal r ->
  exists new,
    snd (settle js tronWeb now wallet request h) = (h ++ new)%list
    /\ (Settle.success r = true ->
          Settle.settledAmount r = Some (property payload "value")
          /\ Settle.error r = None
          /\ (exists tx,
                Settle.transactionHash r = Some tx /\ In (GetTransactionInfo tx) new)
          /\ exists c, In c new /\ is_submission c = true)
    /\ (Settle.success r = false ->
          Settle.settledAmount r = None /\ exists message, Settle.error r = Some message).
Proof.
  cbn zeta. intros Hr.
  destruct (settle_calls js tronWeb now wallet request h)
    as (new & Hcalls & _ & Hreports & _).
  exists new. split; [exact Hcalls|].
  specialize (Hreports r Hr). unfold result_reports in Hreports.
  destruct (Settle.success r); split; intros H; try discriminate H; exact Hreports.
Qed.

(** The request to settle 1000 sun with a client whose broadcast answer
    carries no identifier: the result is a success, and its
    [transactionHash] is [undefined], the identifier that was polled. *)
Lemma settle_result_consistent_witness :
  exists new,
    snd (settle example_numbers (example_tronWeb "41b3dcf27c251da9363f1a4888257c16676cf54edf")
           example_now (Some client_without_txid) example_native_request [])
    = ([] ++ new)%list
    /\ (true = true ->
          Some (VStr "1000")
          = Some (property (property (parsePaymentHeader
                                        (paymentHeader example_native_request)) "payload")
                    "value")
          /\ @None string = None
          /\ (exists tx, Some VUndefined = Some tx /\ In (GetTransactionInfo tx) new)
          /\ exists c, In c new /\ is_submission c = true)
    /\ (true = false ->
          Some (VStr "1000") = None /\ exists message, @None string = Some message).
Proof.
  refine (settle_result_consistent example_numbers
            (example_tronWeb "41b3dcf27c251da9363f1a4888257c16676cf54edf") example_now
            (Some client_without_txid)
            example_native_request []
            {| Settle.success := true;
               Settle.transactionHash := Some VUndefined;
               Settle.network := "tron-shasta";
               Settle.settledAmount := Some (VStr "1000");
               Settle.error := None |} _).
  vm_compute. reflexivity.
Defined.

(** ** The signed message *)

Lemma buildSignatureMessage_typed (js : JsNumbers) (p : Token.TronTransferPayload) :
  buildSignatureMessage js (Token.payload_value p) = Normal (signed_message p).
Proof.
  destruct p as [from to value validAfter validBefore nonce [[|c a]|]];
    unfold signed_message, address_part; cbn; rewrite ?string_app_nil_r; reflexivity.
Qed.

Lemma signed_message_address_in_nonce (p : Token.TronTransferPayload) (c : ascii)
  (a : string) :
  Token.tokenAddress p = Some (String c a) ->
  signed_message (address_in_nonce p (String c a)) = signed_message p.
Proof.
  intros Ha. unfold signed_message, address_part, address_in_nonce. cbn [Token.from Token.to Token.value
    Token.validAfter Token.validBefore Token.nonce Token.tokenAddress].
  rewrite Ha, string_app_nil_r. reflexivity.
Qed.

(** X15. The signed message joins the fields with ['|'] and escapes
    nothing, so it does not tell a token address from the end of a nonce:
    the signature check answers alike for a contract transfer and for the
    native transfer whose nonce ends in ['|'] and that token address. *)
Theorem verifyTronSignature_delimiter_shift (js : JsNumbers) (tronWeb : TronWeb)
  (p : Token.TronTransferPayload) (a : string) (signature : JsValue) :
  Token.tokenAddress p = Some a ->
  a <> EmptyString ->
  verifyTronSignature js tronWeb (Token.payload_value (address_in_nonce p a)) signature
  = verifyTronSignature js tronWeb (Token.payload_value p) signature.
Proof.
  intros Ha Hnonempty. destruct a as [|c a]; [congruence|].
  unfold verifyTronSignature.
  rewrite !buildSignatureMessage_typed, (signed_message_address_in_nonce p c a Ha).
  destruct p as [from to value validAfter validBefore nonce tokenAddress].
  cbn [Token.tokenAddress] in Ha. subst tokenAddress. reflexivity.
Qed.

Lemma verifyTronSignature_delimiter_shift_witness :
  verifyTronSignature example_numbers
    (example_tronWeb "41b3dcf27c251da9363f1a4888257c16676cf54edf")
    (Token.payload_value
       {| Token.from := "41b3dcf27c251da9363f1a4888257c16676cf54edf";
          Token.to := "41a614f803b6fd780986a42c78ec9c7f77e6ded13c";
          Token.value := "1000";
          Token.validAfter := "0";
          Token.validBefore := "9999999999";
          Token.nonce := "n1|TG3XXyExBkPp9nzdajDZsozEu4BkaSJozs";
          Token.tokenAddress := None |})
    (VObj [("signature", VStr "0xsig")])
  = verifyTronSignature example_numbers
      (example_tronWeb "41b3dcf27c251da9363f1a4888257c16676cf54edf")
      (Token.payload_value
         (Token.payload (example_token "tron-transfer" "1000"
                           "41a614f803b6fd780986a42c78ec9c7f77e6ded13c"
                           (Some "TG3XXyExBkPp9nzdajDZsozEu4BkaSJozs"))))
      (VObj [("signature", VStr "0xsig")]).
Proof.
  refine (verifyTronSignature_delimiter_shift example_numbers
            (example_tronWeb "41b3dcf27c251da9363f1a4888257c16676cf54edf")
            (Token.payload (example_token "tron-transfer" "1000"
                              "41a614f803b6fd780986a42c78ec9c7f77e6ded13c"
                              (Some "TG3XXyExBkPp9nzdajDZsozEu4BkaSJozs")))
            "TG3XXyExBkPp9nzdajDZsozEu4BkaSJozs" (VObj [("signature", VStr "0xsig")]) _ _).
  - reflexivity.
  - discriminate.
Defined.

Lemma delimiter_free_cons (c : ascii) (s : string) :
  delimiter_free (String c s) = true -> c <> "|"%char /\ delimiter_free s = true.
Proof.
  unfold delimiter_free. cbn. intros H. apply andb_prop in H. destruct H as (Hc & Hs).
  split; [|exact Hs]. intros ->. discriminate Hc.
Qed.

(** Two texts that agree after a delimiter-free field and a ['|'] agree
    on the field and on what follows. *)
Lemma delimited_field (a b s t : string) :
  delimiter_free a = true -> delimiter_free b = true ->
  a ++ "|" ++ s = b ++ "|" ++ t -> a = b /\ s = t.
Proof.
  revert b. induction a as [|c a IH]; intros [|d b] Ha Hb H; cbn in H.
  - inversion H. now split.
  - inversion H; subst. apply delimiter_free_cons in Hb. now destruct Hb.
  - inversion H; subst. apply delimiter_free_cons in Ha. now destruct Ha.
  - inversion H; subst. apply delimiter_free_cons in Ha. apply delimiter_free_cons in Hb.
    destruct (IH b (proj2 Ha) (proj2 Hb) H2) as (-> & ->). now split.
Qed.

Lemma last_field (a b : string) (p q : Token.TronTransferPayload) :
  delimiter_free a = true -> delimiter_free b = true ->
  a ++ address_part p = b ++ address_part q -> a = b /\ address_part p = address_part q.
Proof.
  revert b. induction a as [|c a IH]; intros [|d b] Ha Hb H; cbn in H.
  - now split.
  - exfalso. apply delimiter_free_cons in Hb. destruct Hb as (Hd & _).
    unfold address_part in H. destruct (Token.tokenAddress p) as [[|? ?]|];
      cbn in H; inversion H; congruence.
  - exfalso. apply delimiter_free_cons in Ha. destruct Ha as (Hc & _).
    unfold address_part in H. destruct (Token.tokenAddress q) as [[|? ?]|];
      cbn in H; inversion H; congruence.
  - inversion H; subst. apply delimiter_free_cons in Ha. apply delimiter_free_cons in Hb.
    destruct (IH b (proj2 Ha) (proj2 Hb) H2) as (-> & Hpart). now split.
Qed.

(** X16. When none of the first six fields holds a ['|'], the signed
    message determines all of them and the token address: two such
    payloads with one message are the same transfer. *)
Theorem buildSignatureMessage_injective (js : JsNumbers) (p q : Token.TronTransferPayload) :
  forallb delimiter_free
    [Token.from p; Token.to p; Token.value p; Token.validAfter p; Token.validBefore p;
     Token.nonce p] = true ->
  forallb delimiter_free
    [Token.from q; Token.to q; Token.value q; Token.validAfter q; Token.validBefore q;
     Token.nonce q] = true ->
  buildSignatureMessage js (Token.payload_value p)
  = buildSignatureMessage js (Token.payload_value q) ->
  Token.from p = Token.from q /\ Token.to p = Token.to q /\ Token.value p = Token.value q
  /\ Token.validAfter p = Token.validAfter q /\ Token.validBefore p = Token.validBefore q
  /\ Token.nonce p = Token.nonce q
  /\ effective_tokenAddress p = effective_tokenAddress q.
Proof.
  intros Hp Hq. rewrite !buildSignatureMessage_typed. intros H. inversion H as [Hm]. clear H.
  cbn [forallb] in Hp, Hq.
  repeat match goal with
         | H : _ && _ = true |- _ => apply andb_prop in H; destruct H
         end.
  unfold signed_message in Hm.
  repeat match type of Hm with
         | ?a ++ "|" ++ _ = ?b ++ "|" ++ _ =>
             let H1 := fresh "Hfield" in
             apply delimited_field in Hm; [destruct Hm as (H1 & Hm) | assumption | assumption]
         end.
  apply last_field in Hm; [|assumption|assumption]. destruct Hm as (Hnonce & Hpart).
  repeat (split; [assumption|]).
  unfold address_part, effective_tokenAddress in *.
  destruct (Token.tokenAddress p) as [[|? ?]|], (Token.tokenAddress q) as [[|? ?]|];
    cbn in Hpart; try reflexivity; try discriminate Hpart; inversion Hpart; reflexivity.
Qed.

(** An empty token address and none give one message, and are one
    transfer for the engine. *)
Lemma buildSignatureMessage_injective_witness :
  "41b3dcf27c251da9363f1a4888257c16676cf54edf" = "41b3dcf27c251da9363f1a4888257c16676cf54edf"
  /\ "41a614f803b6fd780986a42c78ec9c7f77e6ded13c" = "41a614f803b6fd780986a42c78ec9c7f77e6ded13c"
  /\ "1000" = "1000" /\ "0" = "0" /\ "9999999999" = "9999999999" /\ "n1" = "n1"
  /\ effective_tokenAddress
       (Token.payload (example_token "tron-transfer" "1000"
                         "41a614f803b6fd780986a42c78ec9c7f77e6ded13c" (Some "")))
     = effective_tokenAddress
         (Token.payload (example_token "tron-transfer" "1000"
                           "41a614f803b6fd780986a42c78ec9c7f77e6ded13c" None)).
Proof.
  refine (buildSignatureMessage_injective example_numbers
            (Token.payload (example_token "tron-transfer" "1000"
                              "41a614f803b6fd780986a42c78ec9c7f77e6ded13c" (Some "")))
            (Token.payload (example_token "tron-transfer" "1000"
                              "41a614f803b6fd780986a42c78ec9c7f77e6ded13c" None))
            _ _ _); reflexivity.
Defined.

(** X17. What the signature check decides on a typed payload once TronWeb
    has recovered a signer: valid exactly when the normal forms of the
    recovered address and of [payload.from] are the same string, and
    otherwise the reason quotes both addresses as they were given. *)
Theorem verifyTronSignature_decides (js : JsNumbers) (tronWeb : TronWeb)
  (p : Token.TronTransferPayload) (sg : Token.TronSignature)
  (messageHex recovered x y : string) :
  toHex tronWeb (signed_message p) = Normal messageHex ->
  trx_verifyMessage tronWeb messageHex (VStr (Token.signature sg)) = Normal (VStr recovered) ->
  normalizeAddress js tronWeb (VStr recovered) = Normal x ->
  normalizeAddress js tronWeb (VStr (Token.from p)) = Normal y ->
  verifyTronSignature js tronWeb (Token.payload_value p) (Token.signature_value sg)
  = Normal (if String.eqb x y
            then {| valid := true; reason := None |}
            else {| valid := false;
                    reason := Some ("Signature verification failed: recovered " ++ recovered
                                    ++ ", expected " ++ Token.from p) |}).
Proof.
  intros Hhex Hrecovered Hx Hy. unfold verifyTronSignature.
  rewrite buildSignatureMessage_typed. cbn [bind]. rewrite Hhex. cbn [bind].
  cbn [Token.signature_value get lookup String.eqb Ascii.eqb Bool.eqb].
  cbn [bind]. rewrite Hrecovered. cbn [bind ToString]. rewrite Hx. cbn [bind].
  destruct p as [from to value validAfter validBefore nonce tokenAddress].
  cbn [Token.from] in *.
  replace (get (Token.payload_value _) "from") with (Normal (VStr from)) by reflexivity.
  cbn [bind]. rewrite Hy. cbn [bind].
  now destruct (String.eqb x y).
Qed.

(** The signer is another account: the check fails and names both. *)
Lemma verifyTronSignature_decides_witness :
  verifyTronSignature example_numbers
    (example_tronWeb "TR7NHqjeKQxGTCi8q8ZY4pL8otSzgjLj6t")
    (Token.payload_value
       (Token.payload (example_token "tron-transfer" "1000"
                         "41a614f803b6fd780986a42c78ec9c7f77e6ded13c" None)))
    (Token.signature_value {| Token.signature := "0xsig" |})
  = Normal {| valid := false;
              reason := Some ("Signature verification failed: recovered "
                              ++ "TR7NHqjeKQxGTCi8q8ZY4pL8otSzgjLj6t"
                              ++ ", expected 41b3dcf27c251da9363f1a4888257c16676cf54edf") |}.
Proof.
  refine (verifyTronSignature_decides example_numbers
            (example_tronWeb "TR7NHqjeKQxGTCi8q8ZY4pL8otSzgjLj6t")
            (Token.payload (example_token "tron-transfer" "1000"
                              "41a614f803b6fd780986a42c78ec9c7f77e6ded13c" None))
            {| Token.signature := "0xsig" |}
            "41b3dcf27c251da9363f1a4888257c16676cf54edf|41a614f803b6fd780986a42c78ec9c7f77e6ded13c|1000|0|9999999999|n1"
            "TR7NHqjeKQxGTCi8q8ZY4pL8otSzgjLj6t"
            "41a614f803b6fd780986a42c78ec9c7f77e6ded13c"
            "41b3dcf27c251da9363f1a4888257c16676cf54edf" _ _ _ _); reflexivity.
Defined.

Lemma to_lower_not_T (c : ascii) : to_lower c <> "T"%char.
Proof. destruct c as [[] [] [] [] [] [] [] []]; cbn; discriminate. Qed.

Lemma lowercase_not_T (s : string) : string_startsWith "T" (lowercase s) = false.
Proof.
  destruct s as [|c s]; [reflexivity|].
  unfold string_startsWith. cbn [lowercase String.prefix].
  destruct (Ascii.ascii_dec "T" (to_lower c)) as [H|H].
  - symmetry in H. now apply to_lower_not_T in H.
  - reflexivity.
Qed.

(** X18. A normal form is its own normal form: [normalizeAddress] applied
    to what it returned returns it again, whatever TronWeb client it is
    applied with; a normal form is never taken for a Base58 address. *)
Theorem normalizeAddress_idempotent (js : JsNumbers) (tronWeb tronWeb' : TronWeb)
  (address canonical : string) :
  normalizeAddress js tronWeb (VStr address) = Normal canonical ->
  normalizeAddress js tronWeb' (VStr canonical) = Normal canonical.
Proof.
  intros H.
  assert (Hlower : exists s, canonical = lowercase s).
  { unfold normalizeAddress in H. cbn in H.
    destruct (string_startsWith "T" address); cbn in H.
    - destruct (address_toHex tronWeb address); cbn in H; inversion H; eauto.
    - inversion H; eauto. }
  destruct Hlower as (s & ->).
  unfold normalizeAddress. cbn. rewrite lowercase_not_T. cbn.
  now rewrite lowercase_idempotent.
Qed.

(** The normal form of the Base58 address of the USDT contract, given to
    a client that knows no address. *)
Lemma normalizeAddress_idempotent_witness :
  normalizeAddress example_numbers
    {| toHex := fun message => Normal message;
       address_toHex := fun _ => Throw (NonError (VStr "Invalid address provided"));
       trx_verifyMessage := fun _ _ => Throw (NonError (VStr "Invalid signature")) |}
    (VStr "41a614f803b6fd780986a42c78ec9c7f77e6ded13c")
  = Normal "41a614f803b6fd780986a42c78ec9c7f77e6ded13c".
Proof.
  refine (normalizeAddress_idempotent example_numbers
            (example_tronWeb "41b3dcf27c251da9363f1a4888257c16676cf54edf")
            {| toHex := fun message => Normal message;
               address_toHex := fun _ => Throw (NonError (VStr "Invalid address provided"));
               trx_verifyMessage :=
                 fun _ _ => Throw (NonError (VStr "Invalid signature")) |}
            "TR7NHqjeKQxGTCi8q8ZY4pL8otSzgjLj6t"
            "41a614f803b6fd780986a42c78ec9c7f77e6ded13c" _).
  reflexivity.
Defined.




Lemma verifyTronSignature_reason (js : JsNumbers) (tronWeb : TronWeb)
  (payload signature : JsValue) (check : SignatureCheck) :
  verifyTronSignature js tronWeb payload signature = Normal check ->
  valid check = false -> exists why, reason check = Some why.
Proof.
  unfold verifyTronSignature.
  destruct (buildSignatureMessage js payload); cbn [bind try_catch];
    [|intros H; inversion H; cbn; eauto].
  destruct (toHex tronWeb _); cbn [bind try_catch]; [|intros H; inversion H; cbn; eauto].
  destruct (get signature "signature"); cbn [bind try_catch];
    [|intros H; inversion H; cbn; eauto].
  destruct (trx_verifyMessage tronWeb _ _); cbn [bind try_catch];
    [|intros H; inversion H; cbn; eauto].
  destruct (ToString js _); cbn [bind try_catch]; [|intros H; inversion H; cbn; eauto].
  destruct (normalizeAddress js tronWeb (VStr _)); cbn [bind try_catch];
    [|intros H; inversion H; cbn; eauto].
  destruct (get payload "from"); cbn [bind try_catch]; [|intros H; inversion H; cbn; eauto].
  destruct (normalizeAddress js tronWeb _); cbn [bind try_catch];
    [|intros H; inversion H; cbn; eauto].
  destruct (negb _).
  - destruct (ToString js _); cbn [bind try_catch]; intros H; inversion H; cbn; eauto.
  - cbn [try_catch]. intros H; inversion H; cbn. discriminate.
Qed.

(** X30. What a result of [verify] says: [isValid: true] comes with no
    reason, with the decoded token as [paymentToken] and its
    [payload.from] as [payer]; [isValid: false] comes with a reason and
    with neither payer nor token. *)
Theorem verify_result_consistent (js : JsNumbers) (tronWeb : TronWeb) (now : Z)
  (request : VerifyRequest) (r : TronVerifyResponse) :
  let T := parsePaymentHeader (paymentHeader request) in
  verify js tronWeb now request = Normal r ->
  (isValid r = true ->
     invalidReason r = None /\ paymentToken r = Some T
     /\ payer r = Some (property (property T "payload") "from"))
  /\ (isValid r = false ->
        (exists why, invalidReason r = Some why) /\ payer r = None /\ paymentToken r = None).
Proof.
  cbn zeta. unfold verify.
  set (T := parsePaymentHeader (paymentHeader request)).
  assert (Hinvalid : forall why,
             Normal (invalid why) = Normal r ->
             (isValid r = true ->
                invalidReason r = None /\ paymentToken r = Some T
                /\ payer r = Some (property (property T "payload") "from"))
             /\ (isValid r = false ->
                   (exists why, invalidReason r = Some why)
                   /\ payer r = None /\ paymentToken r = None)).
  { intros why H. inversion H; subst. cbn. split; [discriminate | eauto]. }
  destruct (truthy js T) eqn:Htoken; cbn [negb]; [|apply Hinvalid].
  rewrite !(get_truthy js T) by assumption. cbn [bind].
  destruct (negb (strict_equal_string _ _)).
  { destruct (ToString js _); cbn [bind]; [apply Hinvalid | discriminate]. }
  destruct (negb (strict_equal_string _ _)).
  { destruct (ToString js _); cbn [bind]; [apply Hinvalid | discriminate]. }
  set (payload := property T "payload").
  match goal with
  | |- context [bind ?c _] => destruct c as [check|e] eqn:Hcheck; cbn [bind]; [|discriminate]
  end.
  destruct (valid check) eqn:Hvalid; cbn [negb].
  2: { intros H. inversion H; subst. cbn. split; [discriminate|]. intros _.
       split; [|now split].
       destruct (strict_equal_string _ _);
         [exact (verifyTronSignature_reason _ _ _ _ _ Hcheck Hvalid)|].
       inversion Hcheck; subst. discriminate Hvalid. }
  destruct (get payload "value"); cbn [bind]; [|discriminate].
  destruct (BigInt js _); cbn [bind]; [|discriminate].
  destruct (BigInt js _); cbn [bind]; [|discriminate].
  destruct (_ <? _)%Z; [apply Hinvalid|].
  destruct (get payload "to"); cbn [bind]; [|discriminate].
  destruct (normalizeAddress js tronWeb _); cbn [bind]; [|discriminate].
  destruct (normalizeAddress js tronWeb _); cbn [bind]; [|discriminate].
  destruct (negb (String.eqb _ _)).
  { destruct (ToString js _); cbn [bind]; [apply Hinvalid | discriminate]. }
  destruct (get payload "validAfter"); cbn [bind]; [|discriminate].
  destruct (parseInt js _); cbn [bind]; [|discriminate].
  destruct (get payload "validBefore"); cbn [bind]; [|discriminate].
  destruct (parseInt js _); cbn [bind]; [|discriminate].
  destruct (double_lt _ _); [apply Hinvalid|].
  destruct (double_ge _ _); [apply Hinvalid|].
  destruct (get payload "from") as [from|e] eqn:Hfrom; cbn [bind]; [|discriminate].
  apply get_property in Hfrom. subst from.
  intros H. inversion H; subst. cbn. split; [now repeat split | discriminate].
Qed.

(** The request to settle 1000 sun, which is valid. *)
Lemma verify_result_consistent_witness :
  (isValid example_valid_result = true ->
     invalidReason example_valid_result = None
     /\ paymentToken example_valid_result
        = Some (parsePaymentHeader (paymentHeader example_native_request))
     /\ payer example_valid_result
        = Some (property
                  (property (parsePaymentHeader (paymentHeader example_native_request))
                     "payload") "from"))
  /\ (isValid example_valid_result = false ->
        (exists why, invalidReason example_valid_result = Some why)
        /\ payer example_valid_result = None
        /\ paymentToken example_valid_result = None).
Proof.
  refine (verify_result_consistent example_numbers
            (example_tronWeb "41b3dcf27c251da9363f1a4888257c16676cf54edf") example_now
            example_native_request example_valid_result _).
  vm_compute. reflexivity.
Defined.

(** ** The wallet service *)

(** X20. After [initializeTronWalletService] the wallet is available
    exactly when it was before or a non-empty [TRON_PRIVATE_KEY] is set
    and the constructor, called with it and with [TRON_FULL_HOST] or the
    Shasta host when that is unset or empty, succeeds; the call throws
    exactly what the constructor throws, and then keeps the instance it
    found. *)
Theorem initializeTronWalletService_available
  (new_TronWalletService : string -> string -> Completion ChainOracle)
  (env : ProcessEnv) (instance : option ChainOracle) :
  let fullHost := or_default (TRON_FULL_HOST env) "https://api.shasta.trongrid.io" in
  let out := initializeTronWalletService new_TronWalletService env instance in
  (isTronWalletServiceAvailable (snd out) = true <->
     isTronWalletServiceAvailable instance = true
     \/ exists c key wallet,
          TRON_PRIVATE_KEY env = Some (String c key)
          /\ new_TronWalletService (String c key) fullHost = Normal wallet)
  /\ (forall error,
        fst out = Throw error <->
        exists c key,
          TRON_PRIVATE_KEY env = Some (String c key)
          /\ new_TronWalletService (String c key) fullHost = Throw error)
  /\ (forall error, fst out = Throw error -> snd out = instance).
Proof.
  cbn zeta. unfold initializeTronWalletService.
  destruct (TRON_PRIVATE_KEY env) as [[|c key]|] eqn:Hkey; cbn [fst snd].
  - split; [|split]; [split; [now left | intros [H|(c & key & w & H & _)]; [exact H | discriminate H]]
                     | split; [discriminate | intros (c & key & H & _); discriminate H]
                     | reflexivity].
  - destruct (new_TronWalletService (String c key) _) as [wallet|e] eqn:Hnew; cbn [fst snd].
    + split; [|split]; [| |discriminate].
      * split; [|reflexivity]. intros _. right. eauto.
      * intros error. split; [discriminate|].
        intros (c' & key' & H & Hthrow). inversion H; subst. congruence.
    + split; [|split]; [| |reflexivity].
      * split; [now left|]. intros [H|(c' & key' & w & H & Hw)]; [exact H|].
        inversion H; subst. congruence.
      * intros error. split.
        -- intros H. inversion H; subst. eauto.
        -- intros (c' & key' & H & Hthrow). inversion H; subst. congruence.
  - split; [|split]; [split; [now left | intros [H|(c & key & w & H & _)]; [exact H | discriminate H]]
                     | split; [discriminate | intros (c & key & H & _); discriminate H]
                     | reflexivity].
Qed.

(** X21. [verifySignature] never throws, whatever TronWeb does and
    whatever it is given for an address, and it compares without regard to
    letter case: two addresses that differ in case only get one answer. *)
Theorem verifySignature_case_insensitive (js : JsNumbers) (tronWeb : TronWeb)
  (message : string) (signature : JsValue) :
  (forall address, exists answer,
      verifySignature js tronWeb message signature address = Normal answer)
  /\ (forall a a', lowercase a = lowercase a' ->
        verifySignature js tronWeb message signature (VStr a)
        = verifySignature js tronWeb message signature (VStr a')).
Proof.
  unfold verifySignature. split.
  - intros address.
    destruct (trx_verifyMessage tronWeb message signature) as [recovered|e];
      cbn [bind try_catch]; [|eauto].
    destruct (ToString js recovered); cbn [bind try_catch]; [|eauto].
    destruct (toLowerCase address); cbn [bind try_catch]; eauto.
  - intros a a' Hsame. cbn [toLowerCase]. now rewrite Hsame.
Qed.

(** ** The routes *)

Lemma destructure_body_fields (body paymentHeader paymentRequirements : JsValue) :
  destructure_body body = Normal (paymentHeader, paymentRequirements) ->
  paymentHeader = property body "paymentHeader"
  /\ paymentRequirements = property body "paymentRequirements".
Proof. destruct body; cbn; intros H; inversion H; now split. Qed.

(** X22. Whatever the body, a reply of [POST /tron/verify] has status
    200, 400 or 500: 200 only with the result of a verification that
    returned [isValid: true] on the header and the requirements of the
    body as its data, 500 only when that verification threw, with the
    message of the error. *)
Theorem tronVerifyPost_replies (js : JsNumbers) (tronWeb : TronWeb) (now : Z)
  (untyped_verify : JsValue -> JsValue -> Completion TronVerifyResponse)
  (body : JsValue) (reply : Api.Response TronVerifyResponse) :
  let service :=
    tronX402Service_verify js tronWeb now untyped_verify
      (property body "paymentHeader") (property body "paymentRequirements") in
  tronVerifyPost js tronWeb now untyped_verify body = Normal reply ->
  In (Api.statusCode reply) [200; 400; 500]%Z
  /\ (Api.statusCode reply = 200%Z ->
        exists result,
          service = Normal result /\ isValid result = true /\ Api.data reply = Some result)
  /\ (Api.statusCode reply = 500%Z ->
        exists error,
          service = Throw error
          /\ Api.message reply = error_message error "Unknown verification error"
          /\ Api.data reply = None).
Proof.
  cbn zeta. unfold tronVerifyPost.
  destruct (destructure_body body) as [[paymentHeader paymentRequirements]|e] eqn:Hbody;
    [|discriminate].
  apply destructure_body_fields in Hbody. destruct Hbody as (-> & ->). cbn [bind].
  assert (Hrefused : forall (code message : string) (P Q : Prop),
             Normal (error_reply 400 code message) = Normal reply ->
             In (Api.statusCode reply) [200; 400; 500]%Z
             /\ (Api.statusCode reply = 200%Z -> P) /\ (Api.statusCode reply = 500%Z -> Q)).
  { intros code message P Q H. inversion H; subst. cbn.
    split; [now right; left|]. split; discriminate. }
  destruct (truthy js (property body "paymentHeader")); cbn [negb]; [|eauto].
  destruct (truthy js (property body "paymentRequirements")); cbn [negb]; [|eauto].
  destruct (get _ "scheme") as [requirements_scheme|e]; cbn [bind]; [|discriminate].
  destruct (get _ "network") as [requirements_network|e]; cbn [bind]; [|discriminate].
  destruct (negb _ || negb _); [eauto|].
  destruct (network_startsWith requirements_network "tron-") as [[|]|e]; cbn [bind negb];
    [|eauto|discriminate].
  destruct (tronX402Service_verify _ _ _ _ _ _) as [result|error]; cbn [try_catch bind].
  - destruct (isValid result) eqn:Hvalid; intros H; inversion H; subst; cbn.
    + split; [now left|]. split; [eauto | discriminate].
    + split; [now right; left|]. split; discriminate.
  - intros H. inversion H; subst. cbn.
    split; [now right; right; left|]. split; [discriminate | eauto].
Qed.

(** The reply to the request to verify 1000 sun. *)
Lemma tronVerifyPost_replies_witness :
  In (Api.statusCode example_valid_reply) [200; 400; 500]%Z
  /\ (Api.statusCode example_valid_reply = 200%Z ->
        exists result,
          tronX402Service_verify example_numbers
            (example_tronWeb "41b3dcf27c251da9363f1a4888257c16676cf54edf") example_now
            example_untyped_verify
            (property (request_body example_native_request) "paymentHeader")
            (property (request_body example_native_request) "paymentRequirements")
          = Normal result
          /\ isValid result = true
          /\ Api.data example_valid_reply = Some result)
  /\ (Api.statusCode example_valid_reply = 500%Z ->
        exists error,
          tronX402Service_verify example_numbers
            (example_tronWeb "41b3dcf27c251da9363f1a4888257c16676cf54edf") example_now
            example_untyped_verify
            (property (request_body example_native_request) "paymentHeader")
            (property (request_body example_native_request) "paymentRequirements")
          = Throw error
          /\ Api.message example_valid_reply
             = error_message error "Unknown verification error"
          /\ Api.data example_valid_reply = None).
Proof.
  refine (tronVerifyPost_replies example_numbers
            (example_tronWeb "41b3dcf27c251da9363f1a4888257c16676cf54edf") example_now
            example_untyped_verify (request_body example_native_request)
            example_valid_reply _).
  vm_compute. reflexivity.
Defined.

(** X23. The handler of [POST /tron/verify] throws, in place of a reply,
    in two cases only: the request has no body, or the requirements pass
    the presence checks with a [network] that is no string, on which
    [startsWith] is no function.  Every error of the verification service
    is answered. *)
Theorem tronVerifyPost_throws_iff (js : JsNumbers) (tronWeb : TronWeb) (now : Z)
  (untyped_verify : JsValue -> JsValue -> Completion TronVerifyResponse) (body : JsValue) :
  let requirements := property body "paymentRequirements" in
  (exists error, tronVerifyPost js tronWeb now untyped_verify body = Throw error)
  <-> body = VUndefined \/ body = VNull
      \/ (truthy js (property body "paymentHeader") = true
          /\ truthy js requirements = true
          /\ truthy js (property requirements "scheme") = true
          /\ truthy js (property requirements "network") = true
          /\ as_string (property requirements "network") = None).
Proof.
  cbn zeta. unfold tronVerifyPost.
  destruct (destructure_body body) as [[paymentHeader paymentRequirements]|e] eqn:Hbody.
  2: { split; [|intros _; exists e; reflexivity].
       intros _. destruct body; cbn in Hbody; try discriminate Hbody; auto. }
  assert (Hdefined : body <> VUndefined /\ body <> VNull)
    by (destruct body; cbn in Hbody; try discriminate Hbody; split; discriminate).
  destruct Hdefined as (Hundefined & Hnull).
  apply destructure_body_fields in Hbody. destruct Hbody as (-> & ->). cbn [bind].
  set (requirements := property body "paymentRequirements").
  assert (Hreplied : forall reply : Api.Response TronVerifyResponse,
             (exists error, Normal reply = Throw error) <-> False)
    by (intros reply; split; [intros (error & H); discriminate H | contradiction]).
  destruct (truthy js (property body "paymentHeader")); cbn [negb].
  2: { rewrite Hreplied. split; [contradiction|]. intros [H|[H|(H & _)]];
         [contradiction | contradiction | discriminate H]. }
  destruct (truthy js requirements) eqn:Hrequirements; cbn [negb].
  2: { rewrite Hreplied. split; [contradiction|]. intros [H|[H|(_ & H & _)]];
         [contradiction | contradiction | discriminate H]. }
  rewrite !(get_truthy js requirements) by assumption. cbn [bind].
  destruct (truthy js (property requirements "scheme")); cbn [negb orb].
  2: { rewrite Hreplied. split; [contradiction|]. intros [H|[H|(_ & _ & H & _)]];
         [contradiction | contradiction | discriminate H]. }
  destruct (truthy js (property requirements "network")) eqn:Hnetwork; cbn [negb].
  2: { rewrite Hreplied. split; [contradiction|]. intros [H|[H|(_ & _ & _ & H & _)]];
         [contradiction | contradiction | discriminate H]. }
  destruct (property requirements "network") as [| | | |s| |] eqn:Hn;
    cbn [network_startsWith as_string bind TypeError];
    try (split; [intros _; right; right; repeat split; reflexivity
               | intros _; eexists; reflexivity]).
  destruct (string_startsWith "tron-" s); cbn [negb].
  - split.
    + intros (error & H).
      destruct (tronX402Service_verify _ _ _ _ _ _) as [result|e]; cbn in H;
        [destruct (isValid result)|]; discriminate H.
    + intros [H|[H|(_ & _ & _ & _ & H)]];
        [contradiction | contradiction | discriminate H].
  - rewrite Hreplied. split; [contradiction|]. intros [H|[H|(_ & _ & _ & _ & H)]];
      [contradiction | contradiction | discriminate H].
Qed.




(** X25. Without a wallet [POST /tron/settle] reaches neither the
    settlement service nor the chain, whatever the body: it replies 400
    to a body that fails a check and 503 to every other, with no data,
    and throws only where the checks themselves throw. *)
Theorem tronSettlePost_unavailable (js : JsNumbers) (tronWeb : TronWeb) (now : Z)
  (untyped_settle : JsValue -> JsValue -> Chain SettleResponse)
  (body : JsValue) (h : list ChainCall) :
  let run := tronSettlePost js tronWeb now None untyped_settle body h in
  snd run = h
  /\ forall reply, fst run = Normal reply ->
       In (Api.statusCode reply) [400; 503]%Z /\ Api.data reply = None.
Proof.
  cbn zeta. unfold tronSettlePost, chain_bind, lift, ret.
  destruct (destructure_body body) as [[paymentHeader paymentRequirements]|e];
    [|split; [reflexivity | discriminate]].
  assert (Hreplied : forall code message,
             snd (Normal (@error_reply SettleResponse 400 code message), h) = h
             /\ forall reply, fst (Normal (@error_reply SettleResponse 400 code message), h)
                              = Normal reply ->
                  In (Api.statusCode reply) [400; 503]%Z /\ Api.data reply = None).
  { intros code message. split; [reflexivity|]. intros reply H. inversion H; subst.
    split; [now left | reflexivity]. }
  destruct (truthy js paymentHeader); cbn [negb]; [|apply Hreplied].
  destruct (truthy js paymentRequirements); cbn [negb]; [|apply Hreplied].
  destruct (get paymentRequirements "scheme"); [|split; [reflexivity | discriminate]].
  destruct (get paymentRequirements "network"); [|split; [reflexivity | discriminate]].
  destruct (get paymentRequirements "payTo"); [|split; [reflexivity | discriminate]].
  destruct (negb _ || negb _ || negb _); [apply Hreplied|].
  destruct (network_startsWith _ _) as [[|]|e]; cbn [negb isTronWalletServiceAvailable];
    [|apply Hreplied|split; [reflexivity | discriminate]].
  split; [reflexivity|]. intros reply H. inversion H; subst.
  split; [now right; left | reflexivity].
Qed.




(** X5. A facilitator started with no [TRON_PRIVATE_KEY], or an empty
    one, starts without error and settles nothing: [settle] answers a
    request that settlement is unavailable, [POST /tron/settle] answers a
    request that passes its checks with 503, and neither verifies nor
    calls the chain. *)
Theorem settle_without_private_key
  (new_TronWalletService : string -> string -> Completion ChainOracle) (env : ProcessEnv)
  (js : JsNumbers) (tronWeb : TronWeb) (now : Z)
  (untyped_settle : JsValue -> JsValue -> Chain SettleResponse)
  (request : SettleRequest) (h : list ChainCall) :
  TRON_PRIVATE_KEY env = None \/ TRON_PRIVATE_KEY env = Some EmptyString ->
  let started := initializeTronWalletService new_TronWalletService env None in
  fst started = Normal tt
  /\ settle js tronWeb now (snd started) request h
     = (Normal {| Settle.success := false;
                  Settle.transactionHash := None;
                  Settle.network := network (paymentRequirements request);
                  Settle.settledAmount := None;
                  Settle.error :=
                    Some "TRON settlement service unavailable - wallet not configured" |},
        h)
  /\ (passes_settle_checks request = true ->
      tronSettlePost js tronWeb now (snd started) untyped_settle (request_body request) h
      = (Normal (error_reply 503 "TRON_SETTLEMENT_UNAVAILABLE"
                   "TRON settlement service is not available - facilitator wallet not configured"),
         h)).
Proof.
  intros Hkey. cbn zeta.
  assert (Hstarted : initializeTronWalletService new_TronWalletService env None
                     = (Normal tt, None))
    by (unfold initializeTronWalletService; destruct Hkey as [-> | ->]; reflexivity).
  rewrite Hstarted. cbn [fst snd].
  split; [reflexivity|]. split; [apply settle_unavailable|].
  intros Hpasses. unfold passes_settle_checks, passes_verify_checks in Hpasses.
  apply andb_prop in Hpasses. destruct Hpasses as (Hpasses & HpayTo).
  apply andb_prop in Hpasses. destruct Hpasses as (Hpasses & Hnetwork).
  apply andb_prop in Hpasses. destruct Hpasses as (Hheader & Hscheme).
  unfold tronSettlePost, chain_bind, chain_try, lift, ret.
  change (destructure_body (request_body request))
    with (Normal (VStr (paymentHeader request),
                  requirements_value (paymentRequirements request))).
  cbn [truthy]. rewrite Hheader. cbn [negb].
  change (truthy js (requirements_value (paymentRequirements request))) with true.
  cbn [negb].
  change (get (requirements_value (paymentRequirements request)) "scheme")
    with (Normal (VStr (scheme (paymentRequirements request)))).
  change (get (requirements_value (paymentRequirements request)) "network")
    with (Normal (VStr (network (paymentRequirements request)))).
  change (get (requirements_value (paymentRequirements request)) "payTo")
    with (Normal (VStr (payTo (paymentRequirements request)))).
  cbn [truthy network_startsWith]. rewrite Hscheme, Hnetwork, HpayTo. cbn [negb orb].
  assert (Hnonempty : String.eqb (network (paymentRequirements request)) EmptyString = false)
    by (destruct (network (paymentRequirements request)); [discriminate Hnetwork | reflexivity]).
  rewrite Hnonempty. reflexivity.
Qed.

(** An empty key in the environment, and the request to settle 1000
    sun. *)
Lemma settle_without_private_key_witness :
  fst (initializeTronWalletService (fun _ _ => Normal confirming_client)
         {| TRON_PRIVATE_KEY := Some EmptyString; TRON_FULL_HOST := None |} None)
  = Normal tt
  /\ settle example_numbers (example_tronWeb "41b3dcf27c251da9363f1a4888257c16676cf54edf")
       example_now
       (snd (initializeTronWalletService (fun _ _ => Normal confirming_client)
               {| TRON_PRIVATE_KEY := Some EmptyString; TRON_FULL_HOST := None |} None))
       example_native_request []
     = (Normal {| Settle.success := false;
                  Settle.transactionHash := None;
                  Settle.network := "tron-shasta";
                  Settle.settledAmount := None;
                  Settle.error :=
                    Some "TRON settlement service unavailable - wallet not configured" |},
        [])
  /\ (passes_settle_checks example_native_request = true ->
      tronSettlePost example_numbers
        (example_tronWeb "41b3dcf27c251da9363f1a4888257c16676cf54edf") example_now
        (snd (initializeTronWalletService (fun _ _ => Normal confirming_client)
                {| TRON_PRIVATE_KEY := Some EmptyString; TRON_FULL_HOST := None |} None))
        example_untyped_settle (request_body example_native_request) []
      = (Normal (error_reply 503 "TRON_SETTLEMENT_UNAVAILABLE"
                   "TRON settlement service is not available - facilitator wallet not configured"),
         [])).
Proof.
  refine (settle_without_private_key (fun _ _ => Normal confirming_client)
            {| TRON_PRIVATE_KEY := Some EmptyString; TRON_FULL_HOST := None |}
            example_numbers (example_tronWeb "41b3dcf27c251da9363f1a4888257c16676cf54edf")
            example_now example_untyped_settle example_native_request [] _).
  right. reflexivity.
Defined.

(** ** The tables of [GET /supported] *)

(** X28. The three tables agree: every listed scheme names exactly one
    listed token, by symbol, network and address, and the chain of a
    listed network; and a listed scheme is on a network the TRON routes
    accept, one whose name starts with [tron-], exactly when it is the
    scheme 'tron-transfer', the one [settle] executes. *)
Theorem supported_tables_agree :
  Forall
    (fun s =>
       length (filter (Supported.names_token s) Supported.SUPPORTED_TOKENS) = 1
       /\ existsb (Supported.on_network s) Supported.SUPPORTED_NETWORKS = true
       /\ (string_startsWith "tron-" (Supported.network s) = true
           <-> Supported.scheme s = "tron-transfer"))
    Supported.SUPPORTED_SCHEMES.
Proof.
  repeat constructor; try discriminate; cbn; intros H; discriminate H.
Qed.

(** ** Settling the same header again *)

Lemma uniform_ret {A : Type} (a : A) : uniform (ret a).
Proof. intros h. cbn. now rewrite app_nil_r. Qed.

Lemma uniform_lift {A : Type} (c : Completion A) : uniform (lift c).
Proof. intros h. cbn. now rewrite app_nil_r. Qed.

Lemma uniform_delay (ms : Z) : uniform (delay ms).
Proof. intros h. reflexivity. Qed.

Lemma uniform_call (client : ChainOracle) (c : ChainCall) :
  history_blind client -> uniform (call client c).
Proof. intros Hblind h. unfold call. cbn. now rewrite (Hblind h []). Qed.

Lemma uniform_bind {A B : Type} (m : Chain A) (f : A -> Chain B) :
  uniform m -> (forall a, uniform (f a)) -> uniform (chain_bind m f).
Proof.
  intros Hm Hf h. unfold chain_bind. rewrite (Hm h).
  destruct (m []) as [[a|e] s]; cbn [fst snd].
  - rewrite (Hf a (h ++ s)%list), (Hf a s). cbn [fst snd]. now rewrite app_assoc.
  - reflexivity.
Qed.

Lemma uniform_try {A : Type} (m : Chain A) (handler : JsThrown -> Chain A) :
  uniform m -> (forall e, uniform (handler e)) -> uniform (chain_try m handler).
Proof.
  intros Hm Hf h. unfold chain_try. rewrite (Hm h).
  destruct (m []) as [[a|e] s]; cbn [fst snd].
  - reflexivity.
  - rewrite (Hf e (h ++ s)%list), (Hf e s). cbn [fst snd]. now rewrite app_assoc.
Qed.

Lemma uniform_bind_value {A B : Type} (a : A) (f : A -> Chain B) :
  uniform (f a) -> uniform (chain_bind (lift (Normal a)) f).
Proof. intros Hf h. unfold chain_bind, lift. exact (Hf h). Qed.

Ltac uniformity :=
  repeat lazymatch goal with
         | H : ?g |- ?g => exact H
         | |- uniform (ret _) => apply uniform_ret
         | |- uniform (lift _) => apply uniform_lift
         | |- uniform (delay _) => apply uniform_delay
         | |- uniform (logger_log _) => unfold logger_log; apply uniform_lift
         | |- uniform (call _ _) => apply uniform_call; assumption
         | |- uniform (chain_bind (lift (Normal _)) _) => apply uniform_bind_value
         | |- uniform (chain_bind _ _) => apply uniform_bind; [|intros ?]
         | |- uniform (chain_try _ _) => apply uniform_try; [|intros ?]
         | |- uniform (if ?b then _ else _) => destruct b
         | |- uniform (match ?x with _ => _ end) => destruct x
         | |- uniform (let _ := _ in _) => cbn zeta
         | H : forall tx, uniform (?loop tx maxAttempts) |- uniform (?loop _ maxAttempts) =>
             apply H
         | H : forall T network, uniform (?execute T network) |- uniform (?execute _ _) =>
             apply H
         end.

Lemma uniform_confirmTRC20 (js : JsNumbers) (client : ChainOracle) (network : string)
  (tx : JsValue) (budget : nat) :
  history_blind client -> uniform (confirmTRC20 js client network tx budget).
Proof.
  intros Hblind. induction budget as [|budget IH]; cbn [confirmTRC20]; uniformity.
Qed.

Lemma uniform_confirmTRX (js : JsNumbers) (client : ChainOracle) (tx : JsValue)
  (budget : nat) :
  history_blind client -> uniform (confirmTRX js client tx budget).
Proof.
  intros Hblind. induction budget as [|budget IH]; cbn [confirmTRX]; uniformity.
Qed.

Lemma uniform_executeTRC20Settlement (js : JsNumbers) (client : ChainOracle)
  (T : JsValue) (network : string) :
  history_blind client -> uniform (executeTRC20Settlement js (Some client) T network).
Proof.
  intros Hblind.
  pose proof (fun tx => uniform_confirmTRC20 js client network tx maxAttempts Hblind)
    as Hloop.
  unfold executeTRC20Settlement. cbn [getTronWalletService]. uniformity.
Qed.

Lemma uniform_executeTRXSettlement (js : JsNumbers) (client : ChainOracle)
  (T : JsValue) (network : string) :
  history_blind client -> uniform (executeTRXSettlement js (Some client) T network).
Proof.
  intros Hblind.
  pose proof (fun tx => uniform_confirmTRX js client tx maxAttempts Hblind) as Hloop.
  unfold executeTRXSettlement. cbn [getTronWalletService]. uniformity.
Qed.

Lemma uniform_settle (js : JsNumbers) (tronWeb : TronWeb) (now : Z)
  (client : ChainOracle) (request : SettleRequest) :
  history_blind client -> uniform (settle js tronWeb now (Some client) request).
Proof.
  intros Hblind.
  pose proof (fun T network => uniform_executeTRC20Settlement js client T network Hblind)
    as Hcontract.
  pose proof (fun T network => uniform_executeTRXSettlement js client T network Hblind)
    as Hnative.
  unfold settle. uniformity.
Qed.

(** [settle] reads the clock through its re-verification only. *)
Lemma settle_clock (js : JsNumbers) (tronWeb : TronWeb) (now later : Z)
  (wallet : option ChainOracle) (request : SettleRequest) (h : list ChainCall) :
  verify js tronWeb later request = verify js tronWeb now request ->
  settle js tronWeb later wallet request h = settle js tronWeb now wallet request h.
Proof. intros Hverify. unfold settle. now rewrite Hverify. Qed.

(** X29. [settle] keeps no record of the tokens it has settled.  Take a
    client that answers a call alike whatever was called before, settle a
    request at time [now], and settle it again at a time [later] at which
    its re-verification decides as it did at [now] (the token has not
    expired meanwhile).  The second settlement goes as the first, to the
    same result and through the same calls once more, the submission
    among them.  The nonce of the token is read for the signed message
    only. *)
Theorem settle_again (js : JsNumbers) (tronWeb : TronWeb) (now later : Z)
  (client : ChainOracle) (request : SettleRequest) (h : list ChainCall) :
  history_blind client ->
  verify js tronWeb later request = verify js tronWeb now request ->
  let first := settle js tronWeb now (Some client) request h in
  exists new,
    snd first = (h ++ new)%list
    /\ settle js tronWeb later (Some client) request (snd first)
       = (fst first, (snd first ++ new)%list).
Proof.
  intros Hblind Hverify. cbn zeta.
  rewrite (settle_clock js tronWeb now later (Some client) request _ Hverify).
  pose proof (uniform_settle js tronWeb now client request Hblind) as Huniform.
  exists (snd (settle js tronWeb now (Some client) request [])).
  rewrite (Huniform h). cbn [fst snd]. split; [reflexivity|].
  now rewrite (Huniform (h ++ _)%list).
Qed.

(** The request to settle 1000 units of USDT, posted again after the two
    seconds the first settlement waited: two transfers. *)
Lemma settle_again_witness :
  exists new,
    snd (settle example_numbers (example_tronWeb "41b3dcf27c251da9363f1a4888257c16676cf54edf")
           example_now (Some confirming_client) example_contract_request [])
    = ([] ++ new)%list
    /\ settle example_numbers (example_tronWeb "41b3dcf27c251da9363f1a4888257c16676cf54edf")
         (example_now + 2000) (Some confirming_client) example_contract_request
         (snd (settle example_numbers
                 (example_tronWeb "41b3dcf27c251da9363f1a4888257c16676cf54edf")
                 example_now (Some confirming_client) example_contract_request []))
       = (fst (settle example_numbers
                 (example_tronWeb "41b3dcf27c251da9363f1a4888257c16676cf54edf")
                 example_now (Some confirming_client) example_contract_request []),
          (snd (settle example_numbers
                  (example_tronWeb "41b3dcf27c251da9363f1a4888257c16676cf54edf")
                  example_now (Some confirming_client) example_contract_request [])
           ++ new)%list).
Proof.
  refine (settle_again example_numbers
            (example_tronWeb "41b3dcf27c251da9363f1a4888257c16676cf54edf") example_now
            (example_now + 2000)
            confirming_client example_contract_request [] _ _).
  - intros h h' c. reflexivity.
  - vm_compute. reflexivity.
Defined.
